(** * Scientific panel generator: layout parser and row/panel geometry

    A shallow embedding of [src/scientific_panel_generator.py]
    (class [PanelGenerator]) and the properties of its layout engine.

    Conventions of the embedding.
    - Python [int] is [Z]; Python [float] is the field [Q] of rationals
      (equality of coordinates is [Qeq], written [==]): rounding is not
      modelled, every identity below is exact.
    - A Python [str] that the program looks into (the layout descriptor,
      the extension of the output file) is the list of its code points;
      [isdigit] and [int] follow the character database of the
      interpreter (digits and white space beyond ASCII) and the limit of
      [int] on the number of digits.  Paths and labels are passed through
      unread and are [string]s.
    - Exceptions are the [Raise] results of the error monad [result];
      [try/except] is a match on the result.
    - The document library ([fitz]) is outside the program: reading the
      first page of a document is a function from a path to a result. *)

From Stdlib Require Import QArith Qminmax Qfield Lqa Lia ZArith List String Ascii Bool FinFun.
Import ListNotations.

Open Scope Z_scope.

(** ** Exceptions and the error monad *)

Inductive exn : Type :=
| ValueError
| IndexError
| ZeroDivisionError
| IOError
| AttributeError.

Inductive result (A : Type) : Type :=
| Ok (a : A)
| Raise (e : exn).

Arguments Ok {A} a.
Arguments Raise {A} e.

Definition bind {A B : Type} (m : result A) (k : A -> result B) : result B :=
  match m with
  | Ok a => k a
  | Raise e => Raise e
  end.

Notation "x <- m ;; k" := (bind m (fun x => k))
  (at level 61, m at next level, right associativity).
Notation "' p <- m ;; k" := (bind m (fun x => let p := x in k))
  (at level 61, p pattern, m at next level, right associativity).

(** A list comprehension whose element expression may raise: elements are
    evaluated left to right and the first exception aborts. *)
Fixpoint mapM {A B : Type} (f : A -> result B) (l : list A) : result (list B) :=
  match l with
  | [] => Ok []
  | a :: l' => b <- f a ;; bs <- mapM f l' ;; Ok (b :: bs)
  end.

(** A [for] loop over [l] whose body may raise, threading the loop state. *)
Fixpoint foldM {A S : Type} (body : S -> A -> result S) (l : list A) (s : S)
  : result S :=
  match l with
  | [] => Ok s
  | a :: l' => s' <- body s a ;; foldM body l' s'
  end.

(** ** Python built-ins used by the program *)

Definition len {A : Type} (l : list A) : Z := Z.of_nat (List.length l).

(** [range(a, b)]; [range(n)] is [py_range 0 n]. *)
Definition py_range (a b : Z) : list Z :=
  map (fun k => a + Z.of_nat k) (seq 0 (Z.to_nat (b - a))).

(** [enumerate(l)] *)
Definition enumerate {A : Type} (l : list A) : list (Z * A) :=
  combine (py_range 0 (len l)) l.

(** [l[i]], with Python's negative indices. *)
Definition py_getitem {A : Type} (l : list A) (i : Z) : result A :=
  let j := if i <? 0 then i + len l else i in
  if (0 <=? j) && (j <? len l) then
    match nth_error l (Z.to_nat j) with
    | Some a => Ok a
    | None => Raise IndexError
    end
  else Raise IndexError.

(** [sum(l)] on integers and on floats. *)
Definition py_sum_Z (l : list Z) : Z := fold_left Z.add l 0.
Definition py_sum (l : list Q) : Q := fold_left Qplus l 0%Q.

(** [a / b] on floats. *)
Definition py_truediv (a b : Q) : result Q :=
  if Qeq_bool b 0 then Raise ZeroDivisionError else Ok (a / b)%Q.

(** [a < b] on floats. *)
Definition Qltb (a b : Q) : bool := negb (Qle_bool b a).

(** *** Strings

    A [str] is the list of its code points, [len] its length. *)

Abbreviation str := (list Z) (only parsing).

(** [ord(c)] for an ASCII character [c]. *)
Definition ord (c : ascii) : Z := Z.of_N (N_of_ascii c).

Arguments ord : simpl never.

(** The characters of a text given as UTF-8 bytes; [acc] holds the bits
    read so far of a character that takes [more] further bytes. *)
Fixpoint utf8_decode (bytes : list Z) (acc : Z) (more : nat) : list Z :=
  match bytes with
  | [] => []
  | b :: bytes' =>
      match more with
      | O =>
          if b <? 128 then b :: utf8_decode bytes' 0 0
          else if b <? 224 then utf8_decode bytes' (b - 192) 1
          else if b <? 240 then utf8_decode bytes' (b - 224) 2
          else utf8_decode bytes' (b - 240) 3
      | S O => (64 * acc + (b - 128)) :: utf8_decode bytes' 0 0
      | S more' => utf8_decode bytes' (64 * acc + (b - 128)) more'
      end
  end.

(** The [str] a literal denotes: one character per byte for ASCII text. *)
Definition py_str (s : string) : list Z :=
  utf8_decode (map ord (list_ascii_of_string s)) 0 0.

Definition is_upper (c : Z) : bool := (65 <=? c) && (c <=? 90).

Definition lower_char (c : Z) : Z := if is_upper c then c + 32 else c.

(** [s.lower()], for what the program does with it (the test for [x],
    the split at [x], [int] of the parts, the comparison with the
    extensions of line 219): the letters [A] to [Z] are lowered, any other
    character is left in place.  Lowering a character beyond ASCII gives
    no [x], no digit, no white space, no sign and no underscore, none of
    the letters of these extensions but [i] (from U+0130, followed by
    U+0307), and changes no digit and no white space. *)
Definition lower (s : str) : str := map lower_char s.

(** [c in s] for a one-character [c]. *)
Fixpoint contains (c : Z) (s : str) : bool :=
  match s with
  | [] => false
  | d :: s' => (d =? c) || contains c s'
  end.

(** [s.split(sep)] for a one-character separator: never the empty list. *)
Fixpoint split (sep : Z) (s : str) : list str :=
  match s with
  | [] => [[]]
  | c :: s' =>
      if c =? sep then [] :: split sep s'
      else match split sep s' with
           | tok :: toks => (c :: tok) :: toks
           | [] => [[c]]
           end
  end.

(** The characters of numeric type Digit or Decimal (Unicode 14.0, the
    character database of CPython 3.11), in runs of consecutive code
    points with consecutive values: first and last code point, the value
    of the first, and whether the run is of type Decimal. *)
Definition digit_table : list (Z * Z * Z * bool) :=
  [ (48, 57, 0, true); (178, 179, 2, false); (185, 185, 1, false);
    (1632, 1641, 0, true); (1776, 1785, 0, true); (1984, 1993, 0, true);
    (2406, 2415, 0, true); (2534, 2543, 0, true); (2662, 2671, 0, true);
    (2790, 2799, 0, true); (2918, 2927, 0, true); (3046, 3055, 0, true);
    (3174, 3183, 0, true); (3302, 3311, 0, true); (3430, 3439, 0, true);
    (3558, 3567, 0, true); (3664, 3673, 0, true); (3792, 3801, 0, true);
    (3872, 3881, 0, true); (4160, 4169, 0, true); (4240, 4249, 0, true);
    (4969, 4977, 1, false); (6112, 6121, 0, true); (6160, 6169, 0, true);
    (6470, 6479, 0, true); (6608, 6617, 0, true); (6618, 6618, 1, false);
    (6784, 6793, 0, true); (6800, 6809, 0, true); (6992, 7001, 0, true);
    (7088, 7097, 0, true); (7232, 7241, 0, true); (7248, 7257, 0, true);
    (8304, 8304, 0, false); (8308, 8313, 4, false); (8320, 8329, 0, false);
    (9312, 9320, 1, false); (9332, 9340, 1, false); (9352, 9360, 1, false);
    (9450, 9450, 0, false); (9461, 9469, 1, false); (9471, 9471, 0, false);
    (10102, 10110, 1, false); (10112, 10120, 1, false);
    (10122, 10130, 1, false); (42528, 42537, 0, true);
    (43216, 43225, 0, true); (43264, 43273, 0, true);
    (43472, 43481, 0, true); (43504, 43513, 0, true);
    (43600, 43609, 0, true); (44016, 44025, 0, true);
    (65296, 65305, 0, true); (66720, 66729, 0, true);
    (68160, 68163, 1, false); (68912, 68921, 0, true);
    (69216, 69224, 1, false); (69714, 69722, 1, false);
    (69734, 69743, 0, true); (69872, 69881, 0, true);
    (69942, 69951, 0, true); (70096, 70105, 0, true);
    (70384, 70393, 0, true); (70736, 70745, 0, true);
    (70864, 70873, 0, true); (71248, 71257, 0, true);
    (71360, 71369, 0, true); (71472, 71481, 0, true);
    (71904, 71913, 0, true); (72016, 72025, 0, true);
    (72784, 72793, 0, true); (73040, 73049, 0, true);
    (73120, 73129, 0, true); (92768, 92777, 0, true);
    (92864, 92873, 0, true); (93008, 93017, 0, true);
    (120782, 120791, 0, true); (120792, 120801, 0, true);
    (120802, 120811, 0, true); (120812, 120821, 0, true);
    (120822, 120831, 0, true); (123200, 123209, 0, true);
    (123632, 123641, 0, true); (125264, 125273, 0, true);
    (127232, 127232, 0, false); (127233, 127242, 0, false);
    (130032, 130041, 0, true) ].

Definition digit_entry (c : Z) : option (Z * Z * Z * bool) :=
  find (fun e => let '(lo, hi, _, _) := e in (lo <=? c) && (c <=? hi))
       digit_table.

(** [c.isdigit()] for one character. *)
Definition is_digit (c : Z) : bool :=
  match digit_entry c with Some _ => true | None => false end.

(** The digit a character of [is_digit] stands for. *)
Definition digit_val (c : Z) : Z :=
  match digit_entry c with
  | Some (lo, _, v, _) => v + (c - lo)
  | None => 0
  end.

(** [c.isdecimal()] for one character: the digits [int] converts. *)
Definition is_decimal (c : Z) : bool :=
  match digit_entry c with Some (_, _, _, d) => d | None => false end.

(** [s.isdigit()]: at least one character, and all of them digits. *)
Definition isdigit (s : str) : bool :=
  match s with
  | [] => false
  | _ :: _ => forallb is_digit s
  end.

(** The white space of a byte string: tab, line feed, vertical tab, form
    feed, carriage return and space. *)
Definition is_space (c : Z) : bool :=
  ((9 <=? c) && (c <=? 13)) || (c =? 32).

(** The white space of [str], in runs of consecutive code points. *)
Definition space_ranges : list (Z * Z) :=
  [ (9, 13); (28, 32); (133, 133); (160, 160); (5760, 5760); (8192, 8202);
    (8232, 8233); (8239, 8239); (8287, 8287); (12288, 12288) ].

Definition is_unicode_space (c : Z) : bool :=
  existsb (fun r => (fst r <=? c) && (c <=? snd r)) space_ranges.

Definition ascii_digit (c : Z) : bool := (48 <=? c) && (c <=? 57).

(** What [int] does to a [str] first: beyond ASCII, white space becomes a
    space, a decimal digit the ASCII digit of its value, and any other
    character (which [int] does not accept) a question mark. *)
Definition to_ascii (c : Z) : Z :=
  if c <? 127 then c
  else if is_unicode_space c then 32
  else if is_decimal c then 48 + digit_val c
  else 63.

Fixpoint lstrip (s : str) : str :=
  match s with
  | [] => []
  | c :: s' => if is_space c then lstrip s' else s
  end.

Definition all_space (s : str) : bool := forallb is_space s.

(** The digits of a base-10 literal: digits with single underscores
    between them, followed by white space only.  [after_digit] tells
    whether the previous character was a digit. *)
Fixpoint int_digits (s : str) (acc : Z) (after_digit : bool) : result Z :=
  match s with
  | [] => if after_digit then Ok acc else Raise ValueError
  | c :: s' =>
      if ascii_digit c then int_digits s' (10 * acc + (c - 48)) true
      else if c =? ord "_" then
        if after_digit then int_digits s' acc false else Raise ValueError
      else if after_digit && all_space s then Ok acc
      else Raise ValueError
  end.

(** The greatest number of digits [int] converts
    ([sys.get_int_max_str_digits()], which the program leaves at its
    default). *)
Definition int_max_str_digits : Z := 4300.

(** [int(s)]: optional white space, an optional sign, the digits; a
    literal of more than [int_max_str_digits] digits is refused. *)
Definition py_int (s : str) : result Z :=
  match lstrip (map to_ascii s) with
  | [] => Raise ValueError
  | c :: s' =>
      let signed := (c =? ord "+") || (c =? ord "-") in
      let digits := if signed then s' else c :: s' in
      n <- int_digits digits 0 false ;;
      if int_max_str_digits <? len (filter ascii_digit digits)
      then Raise ValueError
      else Ok (if c =? ord "-" then - n else n)
  end.

(** ** The layout structure parser

    [structure] is a list of rows, each row a list of input indices. *)

Abbreviation LayoutStructure := (list (list Z)) (only parsing).

(** The inner loop of both the grid and the row-counts form
    (source lines 71-75 and 87-91): [n] attempts to take the next index. *)
Definition fill_row (num_files n idx : Z) : list Z * Z :=
  fold_left
    (fun (st : list Z * Z) (_ : Z) =>
       let '(row, idx) := st in
       if idx <? num_files then (row ++ [idx], idx + 1) else (row, idx))
    (py_range 0 n) ([], idx).

(** One turn of the outer loop: fill a row, keep it if it is not empty
    ([if row: structure.append(row)]). *)
Definition row_step (num_files : Z) (st : LayoutStructure * Z) (count : Z)
  : LayoutStructure * Z :=
  let '(structure, idx) := st in
  let '(row, idx') := fill_row num_files count idx in
  (match row with [] => structure | _ :: _ => structure ++ [row] end, idx').

(** Lines 67-76: the body of the [try] of the grid form. *)
Definition grid_form (layout_str : str) (num_files : Z)
  : result LayoutStructure :=
  match split (ord "x") (lower layout_str) with
  | [a; b] =>
      cols <- py_int a ;;
      rows <- py_int b ;;
      Ok (fst (fold_left (fun st (_ : Z) => row_step num_files st cols)
                         (py_range 0 rows) ([], 0)))
  | _ => Raise ValueError
  end.

(** Line 84: the count a token stands for. *)
Definition token_count (x : str) : result Z :=
  if isdigit x then py_int x else Ok (len x).

(** Lines 82-92: the body of the [try] of the row-counts form. *)
Definition row_counts_form (layout_str : str) (num_files : Z)
  : result LayoutStructure :=
  let sep := if contains (ord ",") layout_str then ord "," else ord "-" in
  row_counts <- mapM token_count (split sep layout_str) ;;
  Ok (fst (fold_left (row_step num_files) row_counts ([], 0))).

(** Lines 98-102: the simple form; the row is appended even when empty. *)
Definition simple_form (layout_str : str) (num_files : Z)
  : result LayoutStructure :=
  if isdigit layout_str then
    count <- py_int layout_str ;;
    Ok [py_range 0 (Z.min count num_files)]
  else
    Ok [py_range 0 (Z.min (len layout_str) num_files)].

(** Lines 63-102: the structure before the final validation.  A
    [ValueError] of the grid form and any exception of the row-counts form
    are swallowed; both can only happen before the first [append], so the
    structure is still empty then.  The [int] of the simple form (line 99)
    is in no [try]. *)
Definition placed_structure (layout_str : str) (num_files : Z)
  : result LayoutStructure :=
  if contains (ord "x") (lower layout_str) then
    match grid_form layout_str num_files with
    | Raise ValueError => Ok []
    | r => r
    end
  else if contains (ord ",") layout_str || contains (ord "-") layout_str then
    match row_counts_form layout_str num_files with
    | Raise _ => Ok []
    | r => r
    end
  else simple_form layout_str num_files.

(** Lines 105-109: indices that were not placed go to one more row. *)
Definition append_missing (structure : LayoutStructure) (num_files : Z)
  : LayoutStructure :=
  let total_in_struct := py_sum_Z (map len structure) in
  if total_in_struct <? num_files then
    structure ++ [py_range total_in_struct num_files]
  else structure.

Definition parse_layout_structure (layout_str : str) (num_files : Z)
  : result LayoutStructure :=
  structure <- placed_structure layout_str num_files ;;
  Ok (append_missing structure num_files).

(** ** The data of the geometry calculator *)

Local Open Scope Q_scope.

(** One entry of the list returned by [get_pdf_metrics]. *)
Record Metric : Type := {
  width : Q;
  height : Q;
  ratio : Q;
  path : string
}.

(** [fitz.Rect(x0, y0, x1, y1)] *)
Record Rect : Type := {
  x0 : Q;
  y0 : Q;
  x1 : Q;
  y1 : Q
}.

(** One entry of [panel_configs]. *)
Record PanelConfig : Type := {
  index : Z;
  rect : Rect;
  cfg_path : string
}.

(** The dictionary returned by [calculate_layout]. *)
Record PageResult : Type := {
  page_size : Q * Q;
  panels : list PanelConfig
}.

(** The attributes of a [PanelGenerator] instance; lengths other than the
    two [_mm] ones are in points. *)
Record PanelGenerator : Type := {
  page_width_mm : Q;
  page_height_mm : option Q;
  margin : Q;
  spacing : Q;
  label_size : Z;
  usable_width : Q
}.

(** 1 mm = 2.83465 points *)
Definition mm : Q := 2.83465.

(** [__init__] *)
Definition PanelGenerator_init (page_width : Q) (page_height : option Q)
    (margin spacing : Q) (label_size : Z) : PanelGenerator :=
  {| page_width_mm := page_width;
     page_height_mm := page_height;
     margin := margin * mm;
     spacing := spacing * mm;
     label_size := label_size;
     usable_width := (page_width * mm) - 2 * (margin * mm) |}.

(** The constructor with its default arguments. *)
Definition default_generator : PanelGenerator :=
  PanelGenerator_init 180 None 5 3 12.

(** The truth value of [self.page_height_mm]: [None] and [0.0] are false. *)
Definition page_height_set (g : PanelGenerator) : bool :=
  match page_height_mm g with
  | None => false
  | Some h => negb (Qeq_bool h 0)
  end.

(** ** The metrics extractor *)

Section Extractor.

(** [fitz.open(path)[0].rect] as (width, height); a [Raise] is any
    exception of the document library (missing file, corrupt document,
    no pages).  Closing a document that was just opened does not raise. *)
Variable first_page_rect : string -> result (Q * Q).

(** Lines 43-51: the body of the [try]. *)
Definition read_metric (p : string) : result Metric :=
  ' (w, h) <- first_page_rect p ;;
  r <- (if Qltb 0 h then py_truediv w h else Ok 1) ;;
  Ok {| width := w; height := h; ratio := r; path := p |}.

(** Line 55: the metric appended by the [except] branch. *)
Definition fallback_metric (p : string) : Metric :=
  {| width := 100; height := 100; ratio := 1; path := p |}.

Definition get_pdf_metrics (file_paths : list string) : list Metric :=
  fold_left
    (fun metrics p =>
       match read_metric p with
       | Ok m => metrics ++ [m]
       | Raise _ => metrics ++ [fallback_metric p]
       end)
    file_paths [].

End Extractor.

(** ** The geometry calculator *)

Section Geometry.

Variable g : PanelGenerator.

(** Lines 124-140: the body of the first loop, for one row. *)
Definition row_ideal_height (metrics : list Metric) (row_indices : list Z)
  : result Q :=
  row_metrics <- mapM (py_getitem metrics) row_indices ;;
  let num_panels := len row_indices in
  let avail_w := usable_width g - inject_Z (num_panels - 1) * spacing g in
  panel_w <- py_truediv avail_w (inject_Z num_panels) ;;
  required_height <-
    foldM (fun required_height m =>
             h_at_panel_w <- py_truediv panel_w (ratio m) ;;
             Ok (Qmax required_height h_at_panel_w))
          row_metrics 0 ;;
  Ok (required_height + inject_Z (label_size g) + 4).

(** Lines 122-140: [row_ideal_heights]. *)
Definition row_ideal_heights (structure : LayoutStructure)
    (metrics : list Metric) : result (list Q) :=
  mapM (row_ideal_height metrics) structure.

(** Line 143 *)
Definition total_ideal_height (structure : LayoutStructure)
    (row_ideal_heights : list Q) : Q :=
  py_sum row_ideal_heights + inject_Z (len structure - 1) * spacing g
  + 2 * margin g.

(** Line 145 *)
Definition final_page_height (structure : LayoutStructure)
    (row_ideal_heights : list Q) : Q :=
  match page_height_mm g with
  | Some h =>
      if negb (Qeq_bool h 0) then h * mm
      else total_ideal_height structure row_ideal_heights
  | None => total_ideal_height structure row_ideal_heights
  end.

(** Line 146 *)
Definition final_usable_height (structure : LayoutStructure)
    (row_ideal_heights : list Q) : Q :=
  final_page_height structure row_ideal_heights - 2 * margin g
  - inject_Z (len structure - 1) * spacing g.

(** Line 150 *)
Definition scale_factor (structure : LayoutStructure)
    (row_ideal_heights : list Q) : result Q :=
  if Qltb 0 (py_sum row_ideal_heights) then
    py_truediv (final_usable_height structure row_ideal_heights)
               (py_sum row_ideal_heights)
  else Ok 1.

(** Lines 149-153: [actual_row_heights]. *)
Definition actual_row_heights (structure : LayoutStructure)
    (row_ideal_heights : list Q) : result (list Q) :=
  if page_height_set g then
    scale_factor <- scale_factor structure row_ideal_heights ;;
    Ok (map (fun h => h * scale_factor) row_ideal_heights)
  else Ok row_ideal_heights.

(** Lines 165-171: the inner loop; the state is
    [(current_x, panel_configs)]. *)
Definition place_panel (metrics : list Metric) (current_y h panel_w : Q)
    (st : Q * list PanelConfig) (i : Z) : result (Q * list PanelConfig) :=
  let '(current_x, panel_configs) := st in
  m <- py_getitem metrics i ;;
  Ok (current_x + panel_w + spacing g,
      panel_configs ++
        [{| index := i;
            rect := {| x0 := current_x; y0 := current_y;
                       x1 := current_x + panel_w; y1 := current_y + h |};
            cfg_path := path m |}]).

(** Lines 158-172: the body of the outer loop; the state is
    [(current_y, panel_configs)]. *)
Definition place_row (metrics : list Metric) (actual_row_heights : list Q)
    (st : Q * list PanelConfig) (entry : Z * list Z)
  : result (Q * list PanelConfig) :=
  let '(current_y, panel_configs) := st in
  let '(row_idx, row_indices) := entry in
  h <- py_getitem actual_row_heights row_idx ;;
  let num_panels := len row_indices in
  let avail_w := usable_width g - inject_Z (num_panels - 1) * spacing g in
  panel_w <- py_truediv avail_w (inject_Z num_panels) ;;
  ' (_, panel_configs) <-
    foldM (place_panel metrics current_y h panel_w) row_indices
          (margin g, panel_configs) ;;
  Ok (current_y + h + spacing g, panel_configs).

Definition calculate_layout (structure : LayoutStructure)
    (metrics : list Metric) : result PageResult :=
  row_ideal_heights <- row_ideal_heights structure metrics ;;
  let final_page_height := final_page_height structure row_ideal_heights in
  actual_row_heights <- actual_row_heights structure row_ideal_heights ;;
  ' (_, panel_configs) <-
    foldM (place_row metrics actual_row_heights) (enumerate structure)
          (margin g, []) ;;
  Ok {| page_size := (page_width_mm g * mm, final_page_height);
        panels := panel_configs |}.

End Geometry.

(** ** The composition driver *)

Section Driver.

Variable first_page_rect : string -> result (Q * Q).
Variable g : PanelGenerator.

(** Lines 180-182 of [generate]: the page result handed to the
    rendering loop. *)
Definition generate_layout (layout_str : str)
    (input_files : list string) : result PageResult :=
  let metrics := get_pdf_metrics first_page_rect input_files in
  structure <- parse_layout_structure layout_str (len input_files) ;;
  calculate_layout g structure metrics.



End Driver.

Local Close Scope Q_scope.

(** ** Reference definitions for the statements

    The definitions below are not part of the program: they say, in closed
    form, what the statements about the program compare it with. *)

Definition nonempty {A : Type} (l : list A) : bool :=
  match l with [] => false | _ :: _ => true end.

(** The value of a string of digits, read in base 10. *)
Fixpoint digits_value (s : str) (acc : Z) : Z :=
  match s with
  | [] => acc
  | c :: s' => digits_value s' (10 * acc + digit_val c)
  end.

(** The count a token of the row-counts form denotes: its value when it is
    all digits, its length otherwise. *)
Definition count_of_token (x : str) : Z :=
  if isdigit x then digits_value x 0 else len x.

(** What the proofs use of an entry of [digit_table]: it is the run of
    the ASCII digits or lies beyond ASCII, its values are below ten, and
    it holds no white space. *)
Definition digit_entry_ok (e : Z * Z * Z * bool) : bool :=
  let '(lo, hi, v, d) := e in
  (((lo =? 48) && (hi =? 57) && (v =? 0) && d) || (127 <? lo))
  && (0 <=? v) && (v + (hi - lo) <=? 9)
  && forallb (fun r => (hi <? fst r) || (snd r <? lo)) space_ranges.

(** [s.isdecimal()] for a string that is not empty. *)
Definition isdecimal (s : str) : bool := forallb is_decimal s.

(** The all-digits strings [int] converts: decimal digits only (not the
    superscript or circled digits, for which [isdigit] holds as well), and
    no more of them than [int_max_str_digits]. *)
Definition int_accepts (x : str) : bool :=
  isdecimal x && (len x <=? int_max_str_digits).

(** The tokens line 84 gets a count from: those that are not all digits,
    and the all-digits ones that [int] converts. *)
Definition token_accepted (x : str) : bool :=
  negb (isdigit x) || int_accepts x.

(** The descriptors on which the [int] of line 99 raises: those of the
    simple form that are all digits and that [int] does not convert. *)
Definition simple_form_rejected (layout_str : str) : bool :=
  negb (contains (ord "x") (lower layout_str))
  && negb (contains (ord ",") layout_str || contains (ord "-") layout_str)
  && isdigit layout_str && negb (int_accepts layout_str).

(** Rows cut consecutively out of 0, 1, 2, ...: the row of a count [c] that
    starts at [start] holds [start .. start + c - 1], as far as these are
    below [N]. *)
Fixpoint rows_from (start : Z) (counts : list Z) (N : Z) : list (list Z) :=
  match counts with
  | [] => []
  | c :: cs =>
      py_range (Z.min start N) (Z.min (start + c) N)
        :: rows_from (start + c) cs N
  end.

Definition rows_by_counts (counts : list Z) (N : Z) : LayoutStructure :=
  filter nonempty (rows_from 0 counts N).

(** The grid of [cols] columns and [rows] rows filled in row-major order
    with the indices below [N]: cell [(r, c)] holds [r * cols + c]; rows
    without a filled cell are left out. *)
Definition grid_rows (cols rows N : Z) : LayoutStructure :=
  filter nonempty
    (map (fun r => py_range (Z.min (r * cols) N) (Z.min ((r + 1) * cols) N))
         (py_range 0 rows)).

Local Open Scope Q_scope.

(** The metric the extractor appends for one path: the metric read from
    the document, or the fallback when reading raised. *)
Definition metric_of (first_page_rect : string -> result (Q * Q)) (p : string)
  : Metric :=
  match read_metric first_page_rect p with
  | Ok m => m
  | Raise _ => fallback_metric p
  end.

(** The width each panel of a row of [count] panels is to get. *)
Definition panel_width (g : PanelGenerator) (count : Z) : Q :=
  (usable_width g - inject_Z (count - 1) * spacing g) / inject_Z count.

(** The greatest element of the non-empty list [x :: xs]. *)
Fixpoint max_over (x : Q) (xs : list Q) : Q :=
  match xs with
  | [] => x
  | y :: ys => Qmax x (max_over y ys)
  end.

(** The heights [w / r_i] the panels of a row need at panel width [w]. *)
Definition heights_at (w : Q) (ms : list Metric) : list Q :=
  map (fun m => w / ratio m) ms.

(** [l[i]] does not raise. *)
Definition valid_index {A : Type} (l : list A) (i : Z) : Prop :=
  (- len l <= i < len l)%Z.

(** The rows on which the loops of [calculate_layout] do not raise: the
    row is not empty, its indices refer to metrics, and none of these
    metrics has ratio zero. *)
Definition row_ok (metrics : list Metric) (row : list Z) : Prop :=
  row <> []
  /\ exists ms, mapM (py_getitem metrics) row = Ok ms
                /\ Forall (fun m => ~ ratio m == 0) ms.

Definition well_formed (structure : LayoutStructure) (metrics : list Metric)
  : Prop :=
  Forall (row_ok metrics) structure.

(** The path [calculate_layout] copies into the placement of index [i]. *)
Definition path_at (metrics : list Metric) (i : Z) : string :=
  match py_getitem metrics i with
  | Ok m => path m
  | Raise _ => EmptyString
  end.

(** The open rectangle of [r], and two rectangles without a common
    interior point. *)
Definition interior (r : Rect) (x y : Q) : Prop :=
  x0 r < x /\ x < x1 r /\ y0 r < y /\ y < y1 r.

Definition disjoint_interiors (r1 r2 : Rect) : Prop :=
  forall x y, ~ (interior r1 x y /\ interior r2 x y).

(** The panels of one row, in closed form: the [j]-th rectangle of a row at
    height [y] starts at [margin + j * (w + spacing)], is [w] wide and [h]
    tall, where [w] is the panel width of the row. *)
Definition row_placed (g : PanelGenerator) (y h : Q) (row : list Z)
    (block : list PanelConfig) : Prop :=
  map index block = row
  /\ forall (j : nat) (p : PanelConfig),
       nth_error block j = Some p ->
       x0 (rect p)
         == margin g
            + inject_Z (Z.of_nat j) * (panel_width g (len row) + spacing g)
       /\ y0 (rect p) == y
       /\ x1 (rect p) == x0 (rect p) + panel_width g (len row)
       /\ y1 (rect p) == y0 (rect p) + h.

(** The rows one below the other: the first at [y], each next one
    [spacing] below the bottom of the previous one. *)
Fixpoint rows_placed (g : PanelGenerator) (y : Q) (structure : LayoutStructure)
    (heights : list Q) (blocks : list (list PanelConfig)) : Prop :=
  match structure, heights, blocks with
  | [], [], [] => True
  | row :: structure', h :: heights', block :: blocks' =>
      row_placed g y h row block
      /\ rows_placed g (y + h + spacing g) structure' heights' blocks'
  | _, _, _ => False
  end.

(** A metric as the extractor computes it from a page of size [w] x [h]
    with [h > 0]; used for the concrete inputs below. *)
Definition sample_metric (w h : Q) : Metric :=
  {| width := w; height := h; ratio := w / h; path := "figure.pdf" |}.

(** The two loops of the placement written by recursion on the rows, with
    the cursors as arguments: what the loops are shown to compute. *)
Fixpoint row_panels (path_of : Z -> string) (s w h y x : Q) (row : list Z)
  : list PanelConfig :=
  match row with
  | [] => []
  | i :: row' =>
      {| index := i;
         rect := {| x0 := x; y0 := y; x1 := x + w; y1 := y + h |};
         cfg_path := path_of i |}
        :: row_panels path_of s w h y (x + w + s) row'
  end.

Fixpoint page_blocks (g : PanelGenerator) (path_of : Z -> string) (y : Q)
    (rows : list (list Z * Q)) : list (list PanelConfig) :=
  match rows with
  | [] => []
  | (row, h) :: rows' =>
      row_panels path_of (spacing g) (panel_width g (len row)) h y (margin g)
                 row
        :: page_blocks g path_of (y + h + spacing g) rows'
  end.

Local Close Scope Q_scope.

(** ** The rendering loop of [generate]

    Lines 184-215.  What the program computes for the drawing calls is
    the rectangle a figure is drawn into and the text of its label; the
    calls themselves ([new_page], [show_pdf_page], [insert_text]) belong
    to the document library and are taken as they come, with the
    exceptions they may raise.  [rect_width] and [rect_height] are the
    properties [width] and [height] of [fitz.Rect].  The messages written
    to the standard output are left out. *)

Local Open Scope Q_scope.

(** The text of a label: a string of the caller, or the one character
    [chr(code)]. *)
Inductive Label : Type :=
| Text (s : string)
| Chr (code : Z).

(** [chr(n)] *)
Definition py_chr (n : Z) : result Label :=
  if ((0 <=? n) && (n <=? 1114111))%Z then Ok (Chr n) else Raise ValueError.

(** Line 212: [labels[i] if labels and i < len(labels) else chr(65 + i)];
    [None] and the empty list are both false. *)
Definition label_text (labels : option (list string)) (i : Z) : result Label :=
  match labels with
  | None => py_chr (65 + i)
  | Some [] => py_chr (65 + i)
  | Some (l :: ls) =>
      if (i <? len (l :: ls))%Z then
        txt <- py_getitem (l :: ls) i ;; Ok (Text txt)
      else py_chr (65 + i)
  end.

Section Rendering.

Variable rect_width : Rect -> Q.
Variable rect_height : Rect -> Q.
Variable first_page_rect : string -> result (Q * Q).

(** [doc_out.new_page(width=pw, height=ph)] *)
Variable new_page : Q -> Q -> result unit.

(** [page_out.show_pdf_page(dest, doc_in, 0)], with the path [doc_in] was
    opened from. *)
Variable show_pdf_page : Rect -> string -> result unit.

(** [page_out.insert_text(point, txt, fontsize=size,
    fontname="Helvetica-Bold")] *)
Variable insert_text : Q * Q -> Label -> Z -> result unit.

Variable g : PanelGenerator.

(** Line 196: the area for the figure, below the strip of the label. *)
Definition fig_rect_of (rect : Rect) : Rect :=
  {| x0 := x0 rect;
     y0 := y0 rect + inject_Z (label_size g) + 4;
     x1 := x1 rect;
     y1 := y1 rect |}.

(** Lines 196-207: the rectangle the page of size [in_w] x [in_h] is
    drawn into. *)
Definition place_figure (rect : Rect) (in_w in_h : Q) : result Rect :=
  let fig_rect := fig_rect_of rect in
  scale_w <- py_truediv (rect_width fig_rect) in_w ;;
  scale_h <- py_truediv (rect_height fig_rect) in_h ;;
  let scale := Qmin scale_w scale_h in
  let sw := in_w * scale in
  let sh := in_h * scale in
  let dx := (rect_width fig_rect - sw) / 2 in
  let dy := (rect_height fig_rect - sh) / 2 in
  Ok {| x0 := x0 fig_rect + dx;
        y0 := y0 fig_rect + dy;
        x1 := x0 fig_rect + dx + sw;
        y1 := y0 fig_rect + dy + sh |}.

(** Lines 191-215: the body of the loop for the [i]-th placement; the
    result is what was drawn, the rectangle of the figure and the label. *)
Definition render_panel (labels : option (list string)) (i : Z)
    (config : PanelConfig) : result (Rect * Label) :=
  ' (in_w, in_h) <- first_page_rect (cfg_path config) ;;
  dest <- place_figure (rect config) in_w in_h ;;
  _ <- show_pdf_page dest (cfg_path config) ;;
  txt <- label_text labels i ;;
  _ <- insert_text (x0 (rect config),
                    y0 (rect config) + inject_Z (label_size g))
                   txt (label_size g) ;;
  Ok (dest, txt).

(** Lines 190-215: the loop over [enumerate(result['panels'])]. *)
Definition render_page (labels : option (list string)) (page : PageResult)
  : result (list (Rect * Label)) :=
  mapM (fun entry : Z * PanelConfig =>
          render_panel labels (fst entry) (snd entry))
       (enumerate (panels page)).

(** Lines 180-215 of [generate]: the page result and what is drawn on the
    page, unless an exception leaves the method. *)
Definition generate_drawing (layout_str : str) (input_files : list string)
    (labels : option (list string))
  : result (PageResult * list (Rect * Label)) :=
  page <- generate_layout first_page_rect g layout_str input_files ;;
  _ <- new_page (fst (page_size page)) (snd (page_size page)) ;;
  drawn <- render_page labels page ;;
  Ok (page, drawn).

End Rendering.

(** ** The end of [generate]: writing the output

    Lines 217-229.  [dpi] is the attribute [self.dpi]: the constructor
    does not set it, the command line entry point does (line 247), so it
    is [None] on an instance that was only constructed.  [ext] is
    [os.path.splitext(output_file)[1]]. *)

Inductive OutputKind : Type :=
| RasterImage
| SvgMarkup
| VectorDocument.

Definition str_eqb (a b : str) : bool :=
  if list_eq_dec Z.eq_dec a b then true else false.

(** Lines 218-226: the writer chosen for an extension. *)
Definition output_kind (ext : str) : OutputKind :=
  let ext := lower ext in
  if existsb (str_eqb ext)
             (map py_str [".png"; ".jpg"; ".jpeg"; ".tiff"; ".tif"]%string)
  then RasterImage
  else if str_eqb ext (py_str ".svg") then SvgMarkup
  else VectorDocument.

(** Reading [self.dpi]. *)
Definition self_dpi (dpi : option Z) : result Z :=
  match dpi with
  | Some d => Ok d
  | None => Raise AttributeError
  end.

Section Output.

(** The three writers, with the exceptions of the document library and
    of the file system: [page_out.get_pixmap(dpi=d)] followed by
    [pix.save(output_file)] (lines 220-221); opening the output file and
    writing [page_out.get_svg_content()] to it (lines 223-224);
    [doc_out.save(output_file)] (line 226). *)
Variable save_pixmap : Z -> result unit.
Variable save_svg : result unit.
Variable save_document : result unit.

(** Lines 219-226: [self.dpi] is read before the raster writer is
    called. *)
Definition write_output (dpi : option Z) (ext : str) : result OutputKind :=
  match output_kind ext with
  | RasterImage =>
      d <- self_dpi dpi ;; _ <- save_pixmap d ;; Ok RasterImage
  | SvgMarkup => _ <- save_svg ;; Ok SvgMarkup
  | VectorDocument => _ <- save_document ;; Ok VectorDocument
  end.

(** Lines 217-229: the output is written, then the closing message reads
    [self.dpi] whatever the kind of output was. *)
Definition finish_run (dpi : option Z) (ext : str)
  : result (OutputKind * Z) :=
  kind <- write_output dpi ext ;;
  d <- self_dpi dpi ;;
  Ok (kind, d).

End Output.

(** [generate] as a whole, on an instance with the attribute [dpi]: the
    kind of output written and the resolution of the closing message. *)
Definition generate_outcome (rect_width rect_height : Rect -> Q)
    (first_page_rect : string -> result (Q * Q))
    (new_page : Q -> Q -> result unit)
    (show_pdf_page : Rect -> string -> result unit)
    (insert_text : Q * Q -> Label -> Z -> result unit)
    (save_pixmap : Z -> result unit) (save_svg save_document : result unit)
    (g : PanelGenerator) (dpi : option Z) (layout_str : str)
    (input_files : list string) (ext : str) (labels : option (list string))
  : result (OutputKind * Z) :=
  _ <- generate_drawing rect_width rect_height first_page_rect new_page
                        show_pdf_page insert_text g layout_str input_files
                        labels ;;
  finish_run save_pixmap save_svg save_document dpi ext.

Local Close Scope Q_scope.

(** * Properties *)

(** ** Ranges, sums and lookups *)

Lemma py_range_nil (a b : Z) : b <= a -> py_range a b = [].
Proof.
  intros H. unfold py_range.
  replace (Z.to_nat (b - a)) with 0%nat by lia. reflexivity.
Qed.

Lemma py_range_cons (a b : Z) : a < b -> py_range a b = a :: py_range (a + 1) b.
Proof.
  intros H. unfold py_range.
  replace (Z.to_nat (b - a)) with (S (Z.to_nat (b - (a + 1)))) by lia.
  cbn [seq map]. f_equal; [lia|].
  rewrite <- seq_shift, map_map.
  apply map_ext. intros k. lia.
Qed.

Lemma py_range_app (a b c : Z) :
  a <= b -> b <= c -> py_range a b ++ py_range b c = py_range a c.
Proof.
  intros Hab Hbc.
  remember (Z.to_nat (b - a)) as n eqn:En.
  revert a Hab En. induction n as [|n IH]; intros a Hab En.
  - replace b with a by lia. rewrite (py_range_nil a a) by lia. reflexivity.
  - rewrite (py_range_cons a b) by lia.
    destruct (Z.eq_dec a c) as [->|Hne]; [lia|].
    rewrite (py_range_cons a c) by lia. cbn [app]. f_equal.
    apply IH; lia.
Qed.

Lemma py_range_length (a b : Z) : List.length (py_range a b) = Z.to_nat (b - a).
Proof. unfold py_range. now rewrite length_map, length_seq. Qed.

Lemma py_range_len (a b : Z) : a <= b -> len (py_range a b) = b - a.
Proof. intros H. unfold len. rewrite py_range_length. lia. Qed.

Lemma py_range_In (a b i : Z) : In i (py_range a b) <-> a <= i < b.
Proof.
  unfold py_range. rewrite in_map_iff. split.
  - intros [k [<- Hk]]. apply in_seq in Hk. lia.
  - intros H. exists (Z.to_nat (i - a)). split; [lia|]. apply in_seq. lia.
Qed.

Lemma py_range_NoDup (a b : Z) : NoDup (py_range a b).
Proof.
  unfold py_range. apply Injective_map_NoDup.
  - intros x y H. lia.
  - apply seq_NoDup.
Qed.

Lemma py_range_nonempty (a b : Z) : nonempty (py_range a b) = (a <? b).
Proof.
  destruct (Z.ltb_spec a b) as [H|H].
  - now rewrite py_range_cons.
  - now rewrite py_range_nil.
Qed.

Lemma py_sum_Z_acc (l : list Z) (a : Z) : fold_left Z.add l a = a + py_sum_Z l.
Proof.
  unfold py_sum_Z. revert a. induction l as [|x l IH]; intros a; cbn [fold_left].
  - lia.
  - rewrite IH, (IH (0 + x)). lia.
Qed.

Lemma py_sum_Z_cons (x : Z) (l : list Z) : py_sum_Z (x :: l) = x + py_sum_Z l.
Proof. unfold py_sum_Z at 1. cbn [fold_left]. now rewrite py_sum_Z_acc. Qed.

Lemma len_app {A : Type} (l1 l2 : list A) : len (l1 ++ l2) = len l1 + len l2.
Proof. unfold len. rewrite length_app. lia. Qed.

Lemma total_in_struct_concat (structure : LayoutStructure) :
  py_sum_Z (map len structure) = len (List.concat structure).
Proof.
  induction structure as [|r st IH]; [reflexivity|].
  cbn [map List.concat]. now rewrite py_sum_Z_cons, len_app, IH.
Qed.

(** ** The loops of the parser *)

Lemma fill_loop (N : Z) (l : list Z) : forall row idx,
  fold_left
    (fun (st : list Z * Z) (_ : Z) =>
       let '(row, idx) := st in
       if idx <? N then (row ++ [idx], idx + 1) else (row, idx))
    l (row, idx)
  = (row ++ py_range idx (Z.max idx (Z.min (idx + len l) N)),
     Z.max idx (Z.min (idx + len l) N)).
Proof.
  induction l as [|x l IH]; intros row idx; cbn [fold_left].
  - change (len (@nil Z)) with 0.
    replace (Z.max idx (Z.min (idx + 0) N)) with idx by lia.
    rewrite py_range_nil by lia. now rewrite app_nil_r.
  - assert (El : len (x :: l) = len l + 1) by (unfold len; cbn [List.length]; lia).
    assert (Hl : 0 <= len l) by (unfold len; lia).
    rewrite El. destruct (Z.ltb_spec idx N) as [Hlt|Hge].
    + rewrite IH.
      replace (Z.max (idx + 1) (Z.min (idx + 1 + len l) N))
        with (Z.max idx (Z.min (idx + (len l + 1)) N)) by lia.
      rewrite (py_range_cons idx) by lia.
      now rewrite <- app_assoc.
    + rewrite IH.
      replace (Z.max idx (Z.min (idx + len l) N)) with idx by lia.
      replace (Z.max idx (Z.min (idx + (len l + 1)) N)) with idx by lia.
      reflexivity.
Qed.

Lemma fill_row_spec (N n idx : Z) :
  fill_row N n idx
  = (py_range idx (Z.max idx (Z.min (idx + Z.max 0 n) N)),
     Z.max idx (Z.min (idx + Z.max 0 n) N)).
Proof.
  unfold fill_row. rewrite fill_loop.
  assert (E : len (py_range 0 n) = Z.max 0 n)
    by (unfold len; rewrite py_range_length; lia).
  rewrite E. reflexivity.
Qed.

(** What one turn of the outer loop does to the structure and the index. *)
Lemma row_step_spec (N : Z) (structure : LayoutStructure) (idx count : Z) :
  let idx' := Z.max idx (Z.min (idx + Z.max 0 count) N) in
  row_step N (structure, idx) count
  = (structure ++ filter nonempty [py_range idx idx'], idx').
Proof.
  cbv zeta. unfold row_step. rewrite fill_row_spec.
  cbn [filter]. destruct (py_range idx _) eqn:E; cbn [nonempty].
  - now rewrite app_nil_r.
  - reflexivity.
Qed.

(** The outer loop keeps the rows consecutive, whatever the counts are. *)
Lemma rows_loop_inv (N : Z) (counts : list Z) : forall structure idx,
  exists rows idx',
    fold_left (row_step N) counts (structure, idx) = (structure ++ rows, idx')
    /\ List.concat rows = py_range idx idx'
    /\ idx <= idx' /\ (idx <= N -> idx' <= N).
Proof.
  induction counts as [|c counts IH]; intros structure idx; cbn [fold_left].
  - exists [], idx. rewrite app_nil_r, py_range_nil by lia.
    repeat split; try reflexivity; lia.
  - rewrite row_step_spec.
    set (mid := Z.max idx (Z.min (idx + Z.max 0 c) N)).
    destruct (IH (structure ++ filter nonempty [py_range idx mid]) mid)
      as (rows & idx' & E & Hc & Hle & HN).
    rewrite E, <- app_assoc.
    exists (filter nonempty [py_range idx mid] ++ rows), idx'.
    repeat split; try lia.
    rewrite concat_app, Hc, <- (py_range_app idx mid idx') by lia.
    f_equal. cbn [filter]. destruct (py_range idx mid); cbn; [reflexivity|].
    now rewrite app_nil_r.
Qed.

(** With counts that are not negative the rows are those of [rows_from]. *)
Lemma rows_loop_spec (N : Z) (counts : list Z) :
  Forall (fun c => 0 <= c) counts ->
  forall structure start,
    fold_left (row_step N) counts (structure, Z.min start N)
    = (structure ++ filter nonempty (rows_from start counts N),
       Z.min (start + py_sum_Z counts) N).
Proof.
  induction 1 as [|c counts Hc _ IH]; intros structure start; cbn [fold_left].
  - cbn. rewrite app_nil_r. f_equal. unfold py_sum_Z. cbn. f_equal. lia.
  - rewrite row_step_spec.
    replace (Z.max (Z.min start N) (Z.min (Z.min start N + Z.max 0 c) N))
      with (Z.min (start + c) N) by lia.
    rewrite IH, py_sum_Z_cons, <- app_assoc, Z.add_assoc.
    cbn [rows_from filter]. now destruct (nonempty _).
Qed.

Lemma fold_left_const {A B C : Type} (f : A -> C -> A) (c : C) (l : list B) :
  forall a, fold_left (fun st (_ : B) => f st c) l a
            = fold_left f (map (fun _ => c) l) a.
Proof. induction l as [|x l IH]; intros a; cbn; [reflexivity | apply IH]. Qed.

Lemma rows_from_grid (cols N : Z) (n : nat) : forall k,
  rows_from (k * cols) (map (fun _ => cols) (py_range k (k + Z.of_nat n))) N
  = map (fun r => py_range (Z.min (r * cols) N) (Z.min ((r + 1) * cols) N))
        (py_range k (k + Z.of_nat n)).
Proof.
  induction n as [|n IH]; intros k.
  - rewrite py_range_nil by lia. reflexivity.
  - rewrite py_range_cons by lia. cbn [map rows_from].
    replace (k + Z.of_nat (S n)) with (k + 1 + Z.of_nat n) by lia.
    replace (k * cols + cols) with ((k + 1) * cols) by lia.
    now rewrite IH.
Qed.

Lemma py_sum_Z_const (c : Z) (l : list Z) :
  py_sum_Z (map (fun _ => c) l) = len l * c.
Proof.
  induction l as [|x l IH]; [reflexivity|].
  cbn [map]. rewrite py_sum_Z_cons, IH. unfold len. cbn [List.length]. lia.
Qed.

(** The grid loop (lines 69-76) builds the row-major grid and stops at
    [min (cols * rows) N]. *)
Lemma grid_loop_spec (cols rows N : Z) :
  0 <= cols -> 0 <= N ->
  fold_left (fun st (_ : Z) => row_step N st cols) (py_range 0 rows) ([], 0)
  = (grid_rows cols rows N, Z.min (Z.max 0 rows * cols) N).
Proof.
  intros Hc HN. rewrite fold_left_const.
  change (@nil (list Z), 0) with (@nil (list Z), 0 * cols).
  replace (0 * cols) with (Z.min (0 * cols) N) at 1 by lia.
  rewrite rows_loop_spec
    by (apply Forall_forall; intros c Hin; apply in_map_iff in Hin;
        destruct Hin as [? [<- _]]; exact Hc).
  cbn [app]. rewrite py_sum_Z_const. f_equal.
  - unfold grid_rows. f_equal.
    destruct (Z.le_gt_cases rows 0) as [Hr|Hr].
    + rewrite py_range_nil by lia. reflexivity.
    + pose proof (rows_from_grid cols N (Z.to_nat rows) 0) as G.
      replace (0 + Z.of_nat (Z.to_nat rows)) with rows in G by lia.
      exact G.
  - f_equal. unfold len. rewrite py_range_length. lia.
Qed.

(** ** Digits and white space *)

Lemma digit_table_ok : forallb digit_entry_ok digit_table = true.
Proof. vm_compute. reflexivity. Qed.

Lemma ranges_apart (lo hi c : Z) (rs : list (Z * Z)) :
  forallb (fun r => (hi <? fst r) || (snd r <? lo)) rs = true ->
  lo <= c <= hi ->
  existsb (fun r => (fst r <=? c) && (c <=? snd r)) rs = false.
Proof.
  intros H Hc. induction rs as [|r rs IH]; [reflexivity|].
  cbn [forallb existsb] in *. apply andb_true_iff in H as [Hr Hrs].
  rewrite (IH Hrs), orb_false_r.
  apply orb_true_iff in Hr as [Hr|Hr]; apply Z.ltb_lt in Hr.
  - destruct (Z.leb_spec (fst r) c); [lia | reflexivity].
  - destruct (Z.leb_spec c (snd r)); [lia | now rewrite andb_false_r].
Qed.

(** What the table says of a digit: it is an ASCII digit or lies beyond
    ASCII, its value is below ten, it is no white space, and below 127 it
    is decimal with the value of its position after ["0"]. *)
Lemma is_digit_facts (c : Z) :
  is_digit c = true ->
  (48 <= c <= 57 \/ 127 < c)
  /\ 0 <= digit_val c <= 9
  /\ (c < 127 -> is_decimal c = true /\ digit_val c = c - 48)
  /\ is_unicode_space c = false.
Proof.
  unfold is_digit, digit_val, is_decimal.
  destruct (digit_entry c) as [[[[lo hi] v] d]|] eqn:E; [|discriminate].
  intros _. unfold digit_entry in E. apply find_some in E as [Hin Hr].
  pose proof (proj1 (forallb_forall _ _) digit_table_ok _ Hin) as Hok.
  cbn beta iota in Hr, Hok.
  apply andb_true_iff in Hr as [Hlo Hhi].
  apply Z.leb_le in Hlo, Hhi.
  apply andb_true_iff in Hok as [Hok Hsp].
  apply andb_true_iff in Hok as [Hok Hv9].
  apply andb_true_iff in Hok as [Hshape Hv0].
  apply Z.leb_le in Hv9, Hv0.
  split; [|split; [lia|split]].
  - apply orb_true_iff in Hshape as [Hs|Hs].
    + apply andb_true_iff in Hs as [Hs _].
      apply andb_true_iff in Hs as [Hs _].
      apply andb_true_iff in Hs as [H48 H57].
      apply Z.eqb_eq in H48, H57. lia.
    + apply Z.ltb_lt in Hs. lia.
  - intros Hc. apply orb_true_iff in Hshape as [Hs|Hs].
    + apply andb_true_iff in Hs as [Hs Hd].
      apply andb_true_iff in Hs as [Hs Hv].
      apply andb_true_iff in Hs as [H48 _].
      apply Z.eqb_eq in H48, Hv. split; [exact Hd | lia].
    + apply Z.ltb_lt in Hs. lia.
  - unfold is_unicode_space. apply (ranges_apart lo hi); [exact Hsp | lia].
Qed.

Lemma digit_val_range (c : Z) : 0 <= digit_val c <= 9.
Proof.
  destruct (is_digit c) eqn:E; [apply (is_digit_facts c E)|].
  unfold is_digit in E. unfold digit_val.
  destruct (digit_entry c); [discriminate E | lia].
Qed.

Lemma is_decimal_digit (c : Z) : is_decimal c = true -> is_digit c = true.
Proof.
  unfold is_decimal, is_digit. now destruct (digit_entry c).
Qed.

(** [int] sees a decimal digit as the ASCII digit of its value, and any
    other digit as a character it does not accept. *)
Lemma to_ascii_digit (c : Z) :
  is_digit c = true ->
  to_ascii c = if is_decimal c then 48 + digit_val c else 63.
Proof.
  intros Hd. destruct (is_digit_facts c Hd) as (Hr & _ & Hlow & Hsp).
  unfold to_ascii. destruct (Z.ltb_spec c 127) as [Hc|Hc].
  - destruct (Hlow Hc) as [-> ->]. lia.
  - now rewrite Hsp.
Qed.

(** ** Integers and token counts *)

Lemma int_digits_raises (s : str) : forall acc b e,
  int_digits s acc b = Raise e -> e = ValueError.
Proof.
  induction s as [|c s IH]; intros acc b e; cbn [int_digits].
  - destruct b; congruence.
  - destruct (ascii_digit c); [apply IH|].
    destruct (c =? ord "_").
    + destruct b; [apply IH | congruence].
    + destruct (b && all_space (c :: s)); congruence.
Qed.

Lemma py_int_raises (s : str) (e : exn) : py_int s = Raise e -> e = ValueError.
Proof.
  unfold py_int. destruct (lstrip (map to_ascii s)) as [|c s']; [congruence|].
  cbv zeta.
  destruct (int_digits _ 0 false) as [n|e'] eqn:E; cbn [bind].
  - destruct (_ <? _); congruence.
  - intros H. injection H as <-. eapply int_digits_raises, E.
Qed.

(** A character that is no digit, no underscore and no white space makes
    the literal invalid, wherever it stands. *)
Lemma int_digits_invalid (c : Z) (s : str) :
  In c s -> ascii_digit c = false -> c <> ord "_" -> is_space c = false ->
  forall acc b, int_digits s acc b = Raise ValueError.
Proof.
  intros Hin Hd Hu Hs. induction s as [|c0 s IH]; [destruct Hin|].
  intros acc b. cbn [int_digits].
  destruct (ascii_digit c0) eqn:Ed.
  - apply IH. destruct Hin as [-> | Hin]; [congruence | exact Hin].
  - destruct (Z.eqb_spec c0 (ord "_")) as [E0|E0].
    + destruct b; [|reflexivity].
      apply IH. destruct Hin as [-> | Hin]; [congruence | exact Hin].
    + assert (Hsp : all_space (c0 :: s) = false).
      { destruct (all_space (c0 :: s)) eqn:E; [|reflexivity].
        unfold all_space in E.
        rewrite (proj1 (forallb_forall _ _) E c Hin) in Hs. discriminate Hs. }
      now rewrite Hsp, andb_false_r.
Qed.

Lemma int_digits_decimal (s : str) : forall acc b,
  isdecimal s = true -> b = true \/ s <> [] ->
  int_digits (map to_ascii s) acc b = Ok (digits_value s acc).
Proof.
  induction s as [|c s IH]; intros acc b Hd Hb;
    cbn [map int_digits digits_value].
  - destruct Hb as [-> | Hb]; [reflexivity | congruence].
  - unfold isdecimal in Hd. cbn [forallb] in Hd.
    apply andb_true_iff in Hd as [Hc Hs].
    rewrite (to_ascii_digit c (is_decimal_digit c Hc)), Hc.
    pose proof (digit_val_range c) as Hv.
    assert (Ha : ascii_digit (48 + digit_val c) = true).
    { unfold ascii_digit. apply andb_true_iff. split; apply Z.leb_le; lia. }
    rewrite Ha. replace (48 + digit_val c - 48) with (digit_val c) by lia.
    apply IH; [exact Hs | now left].
Qed.

Lemma filter_digits_decimal (s : str) :
  isdecimal s = true ->
  filter ascii_digit (map to_ascii s) = map to_ascii s.
Proof.
  induction s as [|c s IH]; intros Hd; [reflexivity|].
  unfold isdecimal in Hd. cbn [forallb] in Hd.
  apply andb_true_iff in Hd as [Hc Hs]. cbn [map filter].
  rewrite (to_ascii_digit c (is_decimal_digit c Hc)), Hc.
  pose proof (digit_val_range c) as Hv.
  assert (Ha : ascii_digit (48 + digit_val c) = true).
  { unfold ascii_digit. apply andb_true_iff. split; apply Z.leb_le; lia. }
  rewrite Ha. f_equal. exact (IH Hs).
Qed.

Lemma digits_value_nonneg (s : str) : forall acc,
  0 <= acc -> 0 <= digits_value s acc.
Proof.
  induction s as [|c s IH]; intros acc Ha; cbn [digits_value]; [exact Ha|].
  apply IH. pose proof (digit_val_range c). lia.
Qed.

(** On an all-digits string [int] gives the value of the digits when they
    are decimal digits and no more than the limit, and raises otherwise. *)
Lemma py_int_isdigit (s : str) :
  isdigit s = true ->
  py_int s = if int_accepts s then Ok (digits_value s 0)
             else Raise ValueError.
Proof.
  destruct s as [|c s]; [discriminate|]. cbn [isdigit]. intros Hd.
  assert (Hc : is_digit c = true)
    by (cbn [forallb] in Hd; now apply andb_true_iff in Hd).
  pose proof (to_ascii_digit c Hc) as Hac.
  pose proof (digit_val_range c) as Hv.
  assert (Hfirst : is_space (to_ascii c) = false
                   /\ (to_ascii c =? ord "+") = false
                   /\ (to_ascii c =? ord "-") = false).
  { rewrite Hac. change (ord "+") with 43. change (ord "-") with 45.
    unfold is_space. destruct (is_decimal c).
    - repeat split.
      + destruct (Z.leb_spec (48 + digit_val c) 13); [lia|].
        rewrite andb_false_r. apply Z.eqb_neq. lia.
      + apply Z.eqb_neq. lia.
      + apply Z.eqb_neq. lia.
    - repeat split. }
  destruct Hfirst as (Hsp & Hplus & Hminus).
  unfold py_int. cbn [map lstrip]. rewrite Hsp. cbv zeta.
  rewrite Hplus, Hminus. cbn [orb].
  change (to_ascii c :: map to_ascii s) with (map to_ascii (c :: s)).
  unfold int_accepts. destruct (isdecimal (c :: s)) eqn:Edec; cbn [andb].
  - rewrite int_digits_decimal by (auto; right; discriminate). cbn [bind].
    rewrite filter_digits_decimal by exact Edec.
    unfold len at 1. rewrite length_map. fold (len (c :: s)).
    destruct (Z.ltb_spec int_max_str_digits (len (c :: s)));
      destruct (Z.leb_spec (len (c :: s)) int_max_str_digits);
      try lia; reflexivity.
  - assert (Hbad : exists d, In d (c :: s) /\ is_decimal d = false).
    { unfold isdecimal in Edec.
      destruct (forallb_forall is_decimal (c :: s)) as [_ Hall].
      destruct (existsb (fun d => negb (is_decimal d)) (c :: s)) eqn:Ex.
      - apply existsb_exists in Ex as (d & Hin & Hnd). exists d.
        split; [exact Hin | now destruct (is_decimal d)].
      - exfalso. rewrite Hall in Edec; [discriminate Edec|].
        intros d Hin. destruct (is_decimal d) eqn:Ed; [reflexivity|].
        assert (existsb (fun d => negb (is_decimal d)) (c :: s) = true).
        { apply existsb_exists. exists d. now rewrite Ed. }
        congruence. }
    destruct Hbad as (d & Hin & Hnd).
    assert (Hdd : is_digit d = true)
      by exact (proj1 (forallb_forall _ _) Hd d Hin).
    rewrite (int_digits_invalid 63 (map to_ascii (c :: s))); try reflexivity.
    + apply in_map_iff. exists d. split; [|exact Hin].
      now rewrite (to_ascii_digit d Hdd), Hnd.
    + discriminate.
Qed.

(** Line 84 for one token: the denoted count, unless the token is all
    digits and [int] does not convert it. *)
Lemma token_count_spec (x : str) :
  token_count x = if token_accepted x then Ok (count_of_token x)
                  else Raise ValueError.
Proof.
  unfold token_count, count_of_token, token_accepted.
  destruct (isdigit x) eqn:E; [|reflexivity].
  rewrite (py_int_isdigit x E). now destruct (int_accepts x).
Qed.

Lemma count_of_token_nonneg (x : str) : 0 <= count_of_token x.
Proof.
  unfold count_of_token. destruct (isdigit x).
  - apply digits_value_nonneg. lia.
  - unfold len. lia.
Qed.

Lemma row_counts_spec (toks : list str) :
  mapM token_count toks
  = if forallb token_accepted toks then Ok (map count_of_token toks)
    else Raise ValueError.
Proof.
  induction toks as [|x toks IH]; [reflexivity|].
  cbn [mapM map forallb]. rewrite token_count_spec.
  destruct (token_accepted x); cbn [bind andb]; [|reflexivity].
  rewrite IH. now destruct (forallb token_accepted toks).
Qed.

Example py_int_plain : py_int (py_str " 12 ") = Ok 12.
Proof. reflexivity. Qed.

Example py_int_signed :
  py_int (py_str "-12") = Ok (-12) /\ py_int (py_str "+1_0") = Ok 10.
Proof. split; reflexivity. Qed.

Example py_int_rejects :
  py_int [] = Raise ValueError /\ py_int (py_str "- 1") = Raise ValueError
  /\ py_int (py_str "1__0") = Raise ValueError
  /\ py_int (py_str "_1") = Raise ValueError
  /\ py_int (py_str "1_") = Raise ValueError
  /\ py_int (py_str "1 2") = Raise ValueError
  /\ py_int (py_str "a") = Raise ValueError.
Proof. repeat split; reflexivity. Qed.

(** Beyond ASCII: the Arabic-Indic digit three, full-width digits and a
    no-break space are converted; the superscript two is a digit for
    [isdigit] and is not converted. *)
Example py_int_unicode :
  py_int [1637] = Ok 5 /\ py_int [65298; 65296] = Ok 20
  /\ py_int [50; 160] = Ok 2
  /\ isdigit [178] = true /\ py_int [178] = Raise ValueError
  /\ count_of_token [178] = 2 /\ len [945; 946] = 2.
Proof. repeat split; reflexivity. Qed.

Example py_int_limit :
  py_int (repeat 49 4300) = Ok (digits_value (repeat 49 4300) 0)
  /\ py_int (repeat 49 4301) = Raise ValueError.
Proof. split; vm_compute; reflexivity. Qed.

Example split_examples :
  split (ord "x") (py_str "2x2") = [py_str "2"; py_str "2"]
  /\ split (ord "x") (py_str "x") = [[]; []]
  /\ split (ord ",") [] = [[]]
  /\ split (ord "-") (py_str "AB-C") = [py_str "AB"; py_str "C"].
Proof. repeat split; reflexivity. Qed.

(** ** The structure before and after the final validation *)

Lemma grid_form_raises (layout_str : str) (N : Z) (e : exn) :
  grid_form layout_str N = Raise e -> e = ValueError.
Proof.
  unfold grid_form.
  destruct (split (ord "x") (lower layout_str)) as [|a [|b [|c l]]];
    try congruence.
  destruct (py_int a) eqn:Ea; cbn [bind].
  - destruct (py_int b) eqn:Eb; cbn [bind]; [discriminate|].
    intros H. injection H as <-. eapply py_int_raises, Eb.
  - intros H. injection H as <-. eapply py_int_raises, Ea.
Qed.

(** Lines 98-102: one row of the denoted count, unless the descriptor is
    all digits and [int] does not convert it. *)
Lemma simple_form_spec (layout_str : str) (N : Z) :
  simple_form layout_str N
  = if token_accepted layout_str
    then Ok [py_range 0 (Z.min (count_of_token layout_str) N)]
    else Raise ValueError.
Proof.
  unfold simple_form, count_of_token, token_accepted.
  destruct (isdigit layout_str) eqn:E; [|reflexivity].
  rewrite (py_int_isdigit _ E). now destruct (int_accepts layout_str).
Qed.

(** The three forms raise on the rejected descriptors of the simple form,
    and on no other. *)
Lemma placed_structure_rejected (layout_str : str) (N : Z) :
  placed_structure layout_str N
  = (if simple_form_rejected layout_str then Raise ValueError
     else placed_structure layout_str N)
  /\ (simple_form_rejected layout_str = false ->
      exists placed, placed_structure layout_str N = Ok placed).
Proof.
  unfold placed_structure, simple_form_rejected.
  destruct (contains (ord "x") (lower layout_str)); cbn [negb andb].
  { split; [reflexivity|]. intros _.
    destruct (grid_form layout_str N) as [st|e] eqn:E; [now exists st|].
    rewrite (grid_form_raises _ _ _ E). now exists []. }
  destruct (contains (ord ",") layout_str || contains (ord "-") layout_str);
    cbn [negb andb].
  { split; [reflexivity|]. intros _.
    destruct (row_counts_form layout_str N) as [st|e]; [now exists st|].
    now exists []. }
  rewrite simple_form_spec. unfold token_accepted.
  destruct (isdigit layout_str); cbn [negb orb andb].
  - destruct (int_accepts layout_str); cbn [negb].
    + split; [reflexivity|]. intros _. now eexists.
    + split; [reflexivity | discriminate].
  - split; [reflexivity|]. intros _. now eexists.
Qed.

(** Whatever the descriptor, the rows placed by the three forms hold the
    indices [0 .. idx - 1], in order, for some [idx <= N]. *)
Lemma placed_structure_consecutive (layout_str : str) (N : Z)
    (placed : LayoutStructure) :
  0 <= N ->
  placed_structure layout_str N = Ok placed ->
  exists idx, List.concat placed = py_range 0 idx /\ 0 <= idx <= N.
Proof.
  intros HN. unfold placed_structure.
  assert (Hloop : forall counts,
             Ok (fst (fold_left (row_step N) counts ([], 0))) = Ok placed ->
             exists idx, List.concat placed = py_range 0 idx /\ 0 <= idx <= N).
  { intros counts H. injection H as <-.
    destruct (rows_loop_inv N counts [] 0) as (rows & idx & E & Hc & Hle & Hup).
    rewrite E. exists idx. cbn [fst app]. split; [exact Hc | lia]. }
  destruct (contains (ord "x") (lower layout_str)).
  - destruct (grid_form layout_str N) as [st|e] eqn:E.
    + unfold grid_form in E.
      destruct (split (ord "x") (lower layout_str)) as [|a [|b [|c l]]];
        try discriminate E.
      destruct (py_int a) as [cols|]; [|discriminate E].
      destruct (py_int b) as [rows|]; [|discriminate E].
      cbn [bind] in E. rewrite fold_left_const in E. rewrite <- E.
      apply Hloop.
    + rewrite (grid_form_raises _ _ _ E). intros H. injection H as <-.
      exists 0. split; [reflexivity | lia].
  - destruct (contains (ord ",") layout_str
              || contains (ord "-") layout_str).
    + unfold row_counts_form. rewrite row_counts_spec.
      destruct (forallb token_accepted _); cbn [bind].
      * apply Hloop.
      * intros H. injection H as <-. exists 0. split; [reflexivity | lia].
    + rewrite simple_form_spec.
      destruct (token_accepted layout_str); [|discriminate].
      intros H. injection H as <-.
      set (count := count_of_token layout_str).
      exists (Z.max 0 (Z.min count N)).
      cbn [List.concat]. rewrite app_nil_r. split; [|lia].
      destruct (Z.le_gt_cases (Z.min count N) 0) as [H|H].
      * rewrite !py_range_nil by lia. reflexivity.
      * f_equal. lia.
Qed.

Lemma append_missing_spec (placed : LayoutStructure) (idx N : Z) :
  List.concat placed = py_range 0 idx -> 0 <= idx <= N ->
  len (List.concat placed) = idx
  /\ List.concat (append_missing placed N) = py_range 0 N.
Proof.
  intros Hc Hi.
  assert (Hlen : len (List.concat placed) = idx)
    by (rewrite Hc, py_range_len; lia).
  split; [exact Hlen|].
  unfold append_missing. rewrite total_in_struct_concat, Hlen.
  destruct (Z.ltb_spec idx N) as [Hlt|Hge].
  - rewrite concat_app, Hc. cbn [List.concat]. rewrite app_nil_r.
    apply py_range_app; lia.
  - rewrite Hc. f_equal. lia.
Qed.

Lemma split_without_sep (c : Z) (s : str) :
  contains c s = false -> split c s = [s].
Proof.
  induction s as [|d s IH]; cbn [contains split]; [reflexivity|].
  intros H. apply orb_false_iff in H as [Hd Hs].
  now rewrite Hd, (IH Hs).
Qed.

(** ** The parser: every index exactly once *)

Lemma parse_layout_structure_concat (layout_str : str) (N : Z)
    (structure : LayoutStructure) :
  0 <= N ->
  parse_layout_structure layout_str N = Ok structure ->
  List.concat structure = py_range 0 N.
Proof.
  intros HN. unfold parse_layout_structure.
  destruct (placed_structure layout_str N) as [placed|] eqn:Ep;
    [|discriminate].
  cbn [bind]. intros H. injection H as <-.
  destruct (placed_structure_consecutive layout_str N placed HN Ep)
    as (idx & Hc & Hi).
  exact (proj2 (append_missing_spec placed idx N Hc Hi)).
Qed.

Lemma parse_layout_structure_raises (layout_str : str) (N : Z) :
  simple_form_rejected layout_str = true ->
  parse_layout_structure layout_str N = Raise ValueError.
Proof.
  intros H. unfold parse_layout_structure.
  rewrite (proj1 (placed_structure_rejected layout_str N)), H. reflexivity.
Qed.

(** C1, evaluated.  [parse_layout_structure] does not return for every
    descriptor: on a descriptor of the simple form that is all digits for
    [isdigit] and that [int] does not convert (the superscript two, or
    more digits than [int] takes) the [int] of line 99, which is in no
    [try], raises [ValueError].  On every other descriptor, for every
    count [N >= 0], it returns a structure whose rows, read one after the
    other, are exactly [0, 1, ..., N-1]: every index below [N] occurs
    exactly once, nothing else occurs, and the indices the three forms
    did not place make up one last row, in ascending order (there is no
    such row when all were placed). *)
Theorem parse_layout_structure_partition (layout_str : str) (N : Z) :
  0 <= N ->
  (simple_form_rejected layout_str = true ->
   parse_layout_structure layout_str N = Raise ValueError)
  /\ (simple_form_rejected layout_str = false ->
      exists placed structure,
        placed_structure layout_str N = Ok placed
        /\ parse_layout_structure layout_str N = Ok structure
        /\ List.concat structure = py_range 0 N
        /\ NoDup (List.concat structure)
        /\ (forall i, In i (List.concat structure) <-> 0 <= i < N)
        /\ (forall i, 0 <= i < N ->
                      count_occ Z.eq_dec (List.concat structure) i = 1%nat)
        /\ List.concat placed = py_range 0 (len (List.concat placed))
        /\ (len (List.concat placed) < N ->
            structure = placed ++ [py_range (len (List.concat placed)) N])
        /\ (N <= len (List.concat placed) -> structure = placed))
  /\ isdigit [178] = true
  /\ simple_form_rejected [178] = true
  /\ parse_layout_structure [178] 3 = Raise ValueError.
Proof.
  intros HN.
  split; [apply parse_layout_structure_raises|].
  split; [|repeat split; reflexivity].
  intros Hok.
  destruct (proj2 (placed_structure_rejected layout_str N) Hok)
    as (placed & Ep).
  destruct (placed_structure_consecutive layout_str N placed HN Ep)
    as (idx & Hc & Hi).
  destruct (append_missing_spec placed idx N Hc Hi) as [Hlen Hall].
  exists placed, (append_missing placed N).
  unfold parse_layout_structure. rewrite Ep. cbn [bind].
  rewrite Hall, Hlen.
  split; [reflexivity|]. split; [reflexivity|]. split; [reflexivity|].
  split; [apply py_range_NoDup|].
  split; [intros i; apply py_range_In|].
  split.
  { intros i Hin.
    apply (proj1 (NoDup_count_occ' Z.eq_dec (py_range 0 N)) (py_range_NoDup 0 N)).
    now apply py_range_In. }
  split; [exact Hc|].
  unfold append_missing. rewrite total_in_struct_concat, Hlen.
  split; intros H.
  - destruct (Z.ltb_spec idx N); [reflexivity | lia].
  - destruct (Z.ltb_spec idx N); [lia | reflexivity].
Qed.

Lemma parse_layout_structure_partition_witness :
  parse_layout_structure [178] 3 = Raise ValueError
  /\ exists placed structure,
       placed_structure (py_str "3") 5 = Ok placed
       /\ parse_layout_structure (py_str "3") 5 = Ok structure
       /\ List.concat structure = py_range 0 5
       /\ NoDup (List.concat structure)
       /\ (forall i, In i (List.concat structure) <-> 0 <= i < 5)
       /\ (forall i, 0 <= i < 5 ->
                     count_occ Z.eq_dec (List.concat structure) i = 1%nat)
       /\ List.concat placed = py_range 0 (len (List.concat placed))
       /\ (len (List.concat placed) < 5 ->
           structure = placed ++ [py_range (len (List.concat placed)) 5])
       /\ (5 <= len (List.concat placed) -> structure = placed).
Proof.
  split.
  - apply (proj1 (parse_layout_structure_partition [178] 3 ltac:(lia))).
    reflexivity.
  - apply (proj1 (proj2 (parse_layout_structure_partition (py_str "3") 5
                           ltac:(lia)))).
    reflexivity.
Defined.

(** ** The parser: the grid form *)

(** C8.  When the lower-cased descriptor splits at [x] into two integers
    [cols] and [rows], the structure is the [cols]-wide, [rows]-tall grid
    filled in row-major order with the indices that fit (those below
    [min (cols * rows) N]), rows without a filled cell left out, followed
    by the row of the indices left over; ["2x2"] gives [[0,1],[2,3]] for
    four inputs and [[0,1],[2]] for three. *)
Theorem grid_form_row_major (layout_str a b : str) (cols rows N : Z) :
  split (ord "x") (lower layout_str) = [a; b] ->
  py_int a = Ok cols -> py_int b = Ok rows ->
  0 <= cols -> 0 <= N ->
  placed_structure layout_str N = Ok (grid_rows cols rows N)
  /\ parse_layout_structure layout_str N
     = Ok (append_missing (grid_rows cols rows N) N)
  /\ List.concat (grid_rows cols rows N)
     = py_range 0 (Z.min (Z.max 0 rows * cols) N)
  /\ parse_layout_structure (py_str "2x2") 4 = Ok [[0; 1]; [2; 3]]
  /\ parse_layout_structure (py_str "2x2") 3 = Ok [[0; 1]; [2]].
Proof.
  intros Hs Ha Hb Hc HN.
  assert (Hx : contains (ord "x") (lower layout_str) = true).
  { destruct (contains (ord "x") (lower layout_str)) eqn:E; [reflexivity|].
    rewrite (split_without_sep _ _ E) in Hs. discriminate Hs. }
  assert (Hp : placed_structure layout_str N = Ok (grid_rows cols rows N)).
  { unfold placed_structure, grid_form. rewrite Hx, Hs, Ha, Hb. cbn [bind].
    now rewrite grid_loop_spec. }
  split; [exact Hp|].
  split; [unfold parse_layout_structure; now rewrite Hp|].
  split; [|split; reflexivity].
  destruct (rows_loop_inv N (map (fun _ => cols) (py_range 0 rows)) [] 0)
    as (rs & idx' & E & Hcat & _).
  rewrite <- fold_left_const, grid_loop_spec in E by assumption.
  cbn [app] in E. injection E as <- <-. exact Hcat.
Qed.

Lemma grid_form_row_major_witness :
  placed_structure (py_str "3X2") 5 = Ok (grid_rows 3 2 5)
  /\ parse_layout_structure (py_str "3X2") 5
     = Ok (append_missing (grid_rows 3 2 5) 5)
  /\ List.concat (grid_rows 3 2 5) = py_range 0 (Z.min (Z.max 0 2 * 3) 5)
  /\ parse_layout_structure (py_str "2x2") 4 = Ok [[0; 1]; [2; 3]]
  /\ parse_layout_structure (py_str "2x2") 3 = Ok [[0; 1]; [2]].
Proof.
  apply (grid_form_row_major (py_str "3X2") (py_str "3") (py_str "2") 3 2 5);
    try reflexivity; lia.
Defined.

(** ** The parser: the row-counts form *)

Lemma placed_structure_row_counts (layout_str : str) (N : Z) :
  contains (ord "x") (lower layout_str) = false ->
  contains (ord ",") layout_str || contains (ord "-") layout_str = true ->
  0 <= N ->
  let sep := if contains (ord ",") layout_str then ord "," else ord "-" in
  placed_structure layout_str N
  = Ok (if forallb token_accepted (split sep layout_str)
        then rows_by_counts (map count_of_token (split sep layout_str)) N
        else []).
Proof.
  intros Hx Hsep HN sep. unfold placed_structure, row_counts_form.
  rewrite Hx, Hsep. fold sep. rewrite row_counts_spec.
  destruct (forallb token_accepted (split sep layout_str)); [|reflexivity].
  cbn [bind]. set (counts := map count_of_token _).
  assert (Hcounts : Forall (fun c => 0 <= c) counts).
  { apply Forall_forall. intros c Hin. apply in_map_iff in Hin.
    destruct Hin as [x [<- _]]. apply count_of_token_nonneg. }
  pose proof (rows_loop_spec N counts Hcounts [] 0) as Hloop.
  replace (Z.min 0 N) with 0 in Hloop by lia. now rewrite Hloop.
Qed.

Lemma rows_by_counts_concat (counts : list Z) (N : Z) :
  Forall (fun c => 0 <= c) counts -> 0 <= N ->
  List.concat (rows_by_counts counts N)
  = py_range 0 (Z.min (py_sum_Z counts) N).
Proof.
  intros Hcounts HN.
  pose proof (rows_loop_spec N counts Hcounts [] 0) as Hloop.
  replace (Z.min 0 N) with 0 in Hloop by lia. cbn [app Z.add] in Hloop.
  destruct (rows_loop_inv N counts [] 0) as (rs & idx' & E & Hcat & _).
  rewrite Hloop in E. cbn [app] in E. injection E as <- <-. exact Hcat.
Qed.

(** C9, as the code has it.  In a descriptor without [x] that contains
    [,] or [-], each token stands for one row: an all-digits token counts
    as its value, any other token as its length, and the rows take the
    indices consecutively in token order, as far as there are inputs;
    this holds when [int] converts every all-digits token (decimal digits,
    no more than [int] takes).  When it does not convert one of them, the
    exception is swallowed and the form places no row at all: all inputs
    make up one row.  ["2,1"] and ["AB-C"] both give [[0,1],[2]] for
    three inputs. *)
Theorem row_counts_form_counts (layout_str : str) (N : Z) :
  contains (ord "x") (lower layout_str) = false ->
  contains (ord ",") layout_str || contains (ord "-") layout_str = true ->
  0 <= N ->
  let sep := if contains (ord ",") layout_str then ord "," else ord "-" in
  let counts := map count_of_token (split sep layout_str) in
  (forallb token_accepted (split sep layout_str) = true ->
   mapM token_count (split sep layout_str) = Ok counts
   /\ placed_structure layout_str N = Ok (rows_by_counts counts N)
   /\ parse_layout_structure layout_str N
      = Ok (append_missing (rows_by_counts counts N) N)
   /\ List.concat (rows_by_counts counts N)
      = py_range 0 (Z.min (py_sum_Z counts) N))
  /\ (forallb token_accepted (split sep layout_str) = false ->
      mapM token_count (split sep layout_str) = Raise ValueError
      /\ placed_structure layout_str N = Ok []
      /\ parse_layout_structure layout_str N
         = Ok (if 0 <? N then [py_range 0 N] else []))
  /\ count_of_token (py_str "12") = 12 /\ count_of_token (py_str "AB") = 2
  /\ parse_layout_structure (py_str "2,1") 3 = Ok [[0; 1]; [2]]
  /\ parse_layout_structure (py_str "AB-C") 3 = Ok [[0; 1]; [2]].
Proof.
  intros Hx Hsep HN sep counts.
  pose proof (placed_structure_row_counts layout_str N Hx Hsep HN) as Hp.
  cbv zeta in Hp. fold sep in Hp. fold counts in Hp.
  split; [|split; [|repeat split; reflexivity]].
  - intros Hok. rewrite Hok in Hp.
    split; [rewrite row_counts_spec, Hok; reflexivity|].
    split; [exact Hp|].
    split; [unfold parse_layout_structure; now rewrite Hp|].
    apply rows_by_counts_concat; [|exact HN].
    apply Forall_forall. intros c Hin. apply in_map_iff in Hin.
    destruct Hin as [x [<- _]]. apply count_of_token_nonneg.
  - intros Hbad. rewrite Hbad in Hp.
    split; [rewrite row_counts_spec, Hbad; reflexivity|].
    split; [exact Hp|].
    unfold parse_layout_structure. rewrite Hp. reflexivity.
Qed.

Lemma row_counts_form_counts_witness :
  let layout_str := py_str "A-12-BC" in
  let counts := map count_of_token (split (ord "-") layout_str) in
  mapM token_count (split (ord "-") layout_str) = Ok counts
  /\ placed_structure layout_str 20 = Ok (rows_by_counts counts 20)
  /\ parse_layout_structure layout_str 20
     = Ok (append_missing (rows_by_counts counts 20) 20)
  /\ List.concat (rows_by_counts counts 20)
     = py_range 0 (Z.min (py_sum_Z counts) 20).
Proof.
  apply (proj1 (row_counts_form_counts (py_str "A-12-BC") 20
                  eq_refl eq_refl ltac:(lia))).
  reflexivity.
Defined.

(** C9 (as stated) fails on the descriptor made of the superscript two,
    a comma and ["1"], with three inputs: the first token is all digits
    and denotes 2, so that the rows would be [[0,1],[2]]; [int] does not
    convert the superscript two, the exception is swallowed, and the code
    gives the single row [[0,1,2]]. *)
Lemma row_counts_form_counts_counterexample :
  let layout_str := 178 :: py_str ",1" in
  let tokens := split (ord ",") layout_str in
  contains (ord "x") (lower layout_str) = false
  /\ contains (ord ",") layout_str = true
  /\ tokens = [[178]; py_str "1"]
  /\ isdigit [178] = true
  /\ map count_of_token tokens = [2; 1]
  /\ rows_by_counts (map count_of_token tokens) 3 = [[0; 1]; [2]]
  /\ parse_layout_structure layout_str 3 = Ok [[0; 1; 2]]
  /\ ~ parse_layout_structure layout_str 3
       = Ok (append_missing
               (rows_by_counts (map count_of_token tokens) 3) 3).
Proof.
  cbv zeta. repeat split; try reflexivity. discriminate.
Qed.

(** ** Arithmetic of the geometry *)

Local Open Scope Q_scope.

Lemma py_truediv_ok (a b : Q) : ~ b == 0 -> py_truediv a b = Ok (a / b).
Proof.
  intros H. unfold py_truediv.
  destruct (Qeq_bool b 0) eqn:E; [|reflexivity].
  apply Qeq_bool_iff in E. contradiction.
Qed.

Lemma py_truediv_zero (a b : Q) :
  b == 0 -> py_truediv a b = Raise ZeroDivisionError.
Proof.
  intros H. unfold py_truediv. apply Qeq_bool_iff in H. now rewrite H.
Qed.

Lemma py_truediv_inv (a b q : Q) :
  py_truediv a b = Ok q -> ~ b == 0 /\ q = a / b.
Proof.
  unfold py_truediv. destruct (Qeq_bool b 0) eqn:E; [discriminate|].
  intros H. injection H as <-. split; [|reflexivity].
  intros Hb. apply Qeq_bool_iff in Hb. congruence.
Qed.

Lemma inject_Z_nonzero (n : Z) : n <> 0%Z -> ~ inject_Z n == 0.
Proof. unfold Qeq. cbn. lia. Qed.

Lemma len_nonzero {A : Type} (l : list A) : l <> [] -> len l <> 0%Z.
Proof. destruct l; [congruence|]. unfold len. cbn [List.length]. lia. Qed.

Lemma Qltb_spec (a b : Q) : Qltb a b = true <-> a < b.
Proof.
  unfold Qltb. rewrite negb_true_iff. split.
  - intros H. apply Qnot_le_lt. intros Hle. apply Qle_bool_iff in Hle. congruence.
  - intros H. destruct (Qle_bool b a) eqn:E; [|reflexivity].
    apply Qle_bool_iff in E. lra.
Qed.

Lemma py_sum_acc (l : list Q) : forall a, fold_left Qplus l a == a + py_sum l.
Proof.
  unfold py_sum. induction l as [|x l IH]; intros a; cbn [fold_left].
  - lra.
  - rewrite IH, (IH (0 + x)). lra.
Qed.

Lemma py_sum_cons (x : Q) (l : list Q) : py_sum (x :: l) == x + py_sum l.
Proof. unfold py_sum at 1. cbn [fold_left]. rewrite py_sum_acc. lra. Qed.

Lemma py_sum_scale (c : Q) (l : list Q) :
  py_sum (map (fun h => h * c) l) == py_sum l * c.
Proof.
  induction l as [|x l IH].
  - unfold py_sum. cbn. lra.
  - cbn [map]. rewrite !py_sum_cons, IH. lra.
Qed.

Lemma py_sum_pos (l : list Q) :
  l <> [] -> Forall (fun h => 0 < h) l -> 0 < py_sum l.
Proof.
  intros Hne Hall. destruct l as [|x l]; [congruence|].
  clear Hne. revert x Hall. induction l as [|y l IH]; intros x Hall.
  - inversion Hall; subst. rewrite py_sum_cons. unfold py_sum. cbn. lra.
  - inversion Hall; subst. rewrite py_sum_cons.
    specialize (IH y H2). lra.
Qed.

(** ** The running maximum of the required height *)

Lemma fold_max_ge_acc (l : list Q) : forall a, a <= fold_left Qmax l a.
Proof.
  induction l as [|x l IH]; intros a; cbn [fold_left]; [lra|].
  eapply Qle_trans; [apply (Q.le_max_l a x) | apply IH].
Qed.

Lemma fold_max_max_over (x : Q) (xs : list Q) : forall a,
  fold_left Qmax (x :: xs) a == Qmax a (max_over x xs).
Proof.
  revert x. induction xs as [|y ys IH]; intros x a.
  - reflexivity.
  - change (fold_left Qmax (x :: y :: ys) a)
      with (fold_left Qmax (y :: ys) (Qmax a x)).
    rewrite IH. cbn [max_over]. now rewrite Q.max_assoc.
Qed.

Lemma max_over_upper (x : Q) (xs : list Q) :
  Forall (fun h => h <= max_over x xs) (x :: xs).
Proof.
  revert x. induction xs as [|y ys IH]; intros x; cbn [max_over].
  - constructor; [lra | constructor].
  - constructor; [apply Q.le_max_l|].
    eapply Forall_impl; [|apply IH]. cbn. intros h Hh.
    eapply Qle_trans; [exact Hh | apply Q.le_max_r].
Qed.

Lemma max_over_attained (x : Q) (xs : list Q) :
  Exists (fun h => h == max_over x xs) (x :: xs).
Proof.
  revert x. induction xs as [|y ys IH]; intros x; cbn [max_over].
  - left. reflexivity.
  - destruct (Q.max_spec x (max_over y ys)) as [[_ E]|[_ E]].
    + right. eapply Exists_impl; [|apply IH]. cbn. intros h Hh.
      now rewrite E.
    + left. now rewrite E.
Qed.

Local Close Scope Q_scope.

(** ** Lookups and comprehensions *)

Lemma py_getitem_valid {A : Type} (l : list A) (i : Z) :
  valid_index l i -> exists a, py_getitem l i = Ok a /\ In a l.
Proof.
  unfold valid_index, py_getitem. intros H.
  set (j := if i <? 0 then i + len l else i).
  assert (Hj : 0 <= j < len l) by (subst j; destruct (Z.ltb_spec i 0); lia).
  destruct (Z.leb_spec 0 j); [|lia]. destruct (Z.ltb_spec j (len l)); [|lia].
  cbn [andb]. destruct (nth_error l (Z.to_nat j)) as [a|] eqn:E.
  - exists a. split; [reflexivity|]. eapply nth_error_In, E.
  - apply nth_error_None in E. unfold len in Hj. lia.
Qed.

Lemma py_getitem_inv {A : Type} (l : list A) (i : Z) (a : A) :
  py_getitem l i = Ok a -> valid_index l i.
Proof.
  unfold valid_index, py_getitem.
  destruct (Z.ltb_spec i 0);
    (match goal with |- context [(0 <=? ?j) && _] =>
       destruct (Z.leb_spec 0 j); [|discriminate];
       destruct (Z.ltb_spec j (len l)); [|discriminate] end);
    intros _; lia.
Qed.

Lemma mapM_cons_inv {A B : Type} (f : A -> result B) (a : A) (l : list A)
    (bs : list B) :
  mapM f (a :: l) = Ok bs ->
  exists b bs', f a = Ok b /\ mapM f l = Ok bs' /\ bs = b :: bs'.
Proof.
  cbn [mapM]. destruct (f a) as [b|]; [|discriminate].
  cbn [bind]. destruct (mapM f l) as [bs'|]; [|discriminate].
  cbn [bind]. intros H. injection H as <-. now exists b, bs'.
Qed.

Lemma mapM_length {A B : Type} (f : A -> result B) (l : list A) :
  forall bs, mapM f l = Ok bs -> List.length bs = List.length l.
Proof.
  induction l as [|a l IH]; intros bs H.
  - injection H as <-. reflexivity.
  - apply mapM_cons_inv in H as (b & bs' & _ & H & ->).
    cbn [List.length]. now rewrite (IH bs' H).
Qed.

Lemma mapM_getitem_valid {A : Type} (l : list A) (row : list Z) :
  Forall (valid_index l) row ->
  exists ms, mapM (py_getitem l) row = Ok ms /\ Forall (fun m => In m l) ms.
Proof.
  induction 1 as [|i row Hi _ (ms & E & Hms)].
  - exists []. split; [reflexivity | constructor].
  - destruct (py_getitem_valid l i Hi) as (m & Em & Hin).
    exists (m :: ms). cbn [mapM]. rewrite Em, E. cbn [bind].
    split; [reflexivity | now constructor].
Qed.

Lemma mapM_getitem_inv {A : Type} (l : list A) (row : list Z) :
  forall ms, mapM (py_getitem l) row = Ok ms -> Forall (valid_index l) row.
Proof.
  induction row as [|i row IH]; intros ms H; [constructor|].
  apply mapM_cons_inv in H as (b & bs' & Hb & H & ->).
  constructor; [eapply py_getitem_inv, Hb | eapply IH, H].
Qed.

Lemma row_ok_intro (metrics : list Metric) (row : list Z) :
  row <> [] -> Forall (valid_index metrics) row ->
  Forall (fun m => ~ (ratio m == 0)%Q) metrics ->
  row_ok metrics row.
Proof.
  intros Hne Hv Hr. split; [exact Hne|].
  destruct (mapM_getitem_valid metrics row Hv) as (ms & E & Hin).
  exists ms. split; [exact E|].
  rewrite Forall_forall in *. intros m Hm. apply Hr, Hin, Hm.
Qed.

Lemma well_formed_intro (structure : LayoutStructure) (metrics : list Metric) :
  Forall (fun row => row <> []) structure ->
  Forall (Forall (valid_index metrics)) structure ->
  Forall (fun m => ~ (ratio m == 0)%Q) metrics ->
  well_formed structure metrics.
Proof.
  intros Hne Hv Hr. unfold well_formed. apply Forall_forall. intros row Hin.
  apply row_ok_intro; [| |exact Hr].
  - exact (proj1 (Forall_forall _ _) Hne row Hin).
  - exact (proj1 (Forall_forall _ _) Hv row Hin).
Qed.

(** ** The ideal height of a row *)

Local Open Scope Q_scope.

Lemma required_height_loop (w : Q) (ms : list Metric) :
  Forall (fun m => ~ ratio m == 0) ms ->
  forall acc,
    foldM (fun required_height m =>
             h_at_panel_w <- py_truediv w (ratio m) ;;
             Ok (Qmax required_height h_at_panel_w)) ms acc
    = Ok (fold_left Qmax (heights_at w ms) acc).
Proof.
  induction 1 as [|m ms Hm _ IH]; intros acc; [reflexivity|].
  cbn [foldM heights_at map fold_left]. rewrite (py_truediv_ok _ _ Hm).
  cbn [bind]. apply IH.
Qed.

Lemma required_height_loop_inv (w : Q) (ms : list Metric) : forall acc v,
  foldM (fun required_height m =>
           h_at_panel_w <- py_truediv w (ratio m) ;;
           Ok (Qmax required_height h_at_panel_w)) ms acc = Ok v ->
  Forall (fun m => ~ ratio m == 0) ms.
Proof.
  induction ms as [|m ms IH]; intros acc v H; [constructor|].
  cbn [foldM] in H. destruct (py_truediv w (ratio m)) as [q|] eqn:E;
    [|discriminate]. cbn [bind] in H.
  constructor; [eapply py_truediv_inv, E | eapply IH, H].
Qed.

Lemma row_ideal_height_spec (g : PanelGenerator) (metrics : list Metric)
    (row : list Z) (ms : list Metric) :
  row <> [] -> mapM (py_getitem metrics) row = Ok ms ->
  Forall (fun m => ~ ratio m == 0) ms ->
  row_ideal_height g metrics row
  = Ok (fold_left Qmax (heights_at (panel_width g (len row)) ms) 0
        + inject_Z (label_size g) + 4).
Proof.
  intros Hne E Hr. unfold row_ideal_height. rewrite E. cbn [bind].
  rewrite py_truediv_ok by (apply inject_Z_nonzero, len_nonzero, Hne).
  cbn [bind]. fold (panel_width g (len row)).
  now rewrite (required_height_loop _ _ Hr).
Qed.

Lemma row_ideal_height_inv (g : PanelGenerator) (metrics : list Metric)
    (row : list Z) (v : Q) :
  row_ideal_height g metrics row = Ok v -> row_ok metrics row.
Proof.
  unfold row_ideal_height.
  destruct (mapM (py_getitem metrics) row) as [ms|] eqn:E; [|discriminate].
  cbn [bind].
  destruct (py_truediv _ (inject_Z (len row))) as [w|] eqn:Ew; [|discriminate].
  cbn [bind].
  destruct (foldM _ ms 0) as [r|] eqn:Er; [|discriminate].
  intros _. split.
  - intros ->. apply py_truediv_inv in Ew as [Hz _]. apply Hz. reflexivity.
  - exists ms. split; [exact E|]. eapply required_height_loop_inv, Er.
Qed.

Lemma row_ideal_heights_spec (g : PanelGenerator) (structure : LayoutStructure)
    (metrics : list Metric) :
  well_formed structure metrics ->
  exists ideal,
    row_ideal_heights g structure metrics = Ok ideal
    /\ Forall2
         (fun row v =>
            exists ms, mapM (py_getitem metrics) row = Ok ms
              /\ v = fold_left Qmax
                       (heights_at (panel_width g (len row)) ms) 0
                     + inject_Z (label_size g) + 4)
         structure ideal.
Proof.
  unfold well_formed, row_ideal_heights.
  induction 1 as [|row st [Hne (ms & E & Hr)] _ (ideal & Ei & Hall)].
  - exists []. split; [reflexivity | constructor].
  - eexists (_ :: ideal). cbn [mapM].
    rewrite (row_ideal_height_spec g metrics row ms Hne E Hr), Ei. cbn [bind].
    split; [reflexivity|]. constructor; [|exact Hall]. now exists ms.
Qed.

Lemma row_ideal_heights_inv (g : PanelGenerator) (structure : LayoutStructure)
    (metrics : list Metric) (ideal : list Q) :
  row_ideal_heights g structure metrics = Ok ideal ->
  well_formed structure metrics.
Proof.
  unfold well_formed, row_ideal_heights. revert ideal.
  induction structure as [|row st IH]; intros ideal H; [constructor|].
  apply mapM_cons_inv in H as (v & vs & Hv & H & ->).
  constructor; [eapply row_ideal_height_inv, Hv | eapply IH, H].
Qed.

Local Close Scope Q_scope.

(** ** Scaling and placement loops *)

Local Open Scope Q_scope.

Lemma scale_factor_spec (g : PanelGenerator) (structure : LayoutStructure)
    (ideal : list Q) :
  (0 < py_sum ideal ->
   scale_factor g structure ideal
   = Ok (final_usable_height g structure ideal / py_sum ideal))
  /\ (py_sum ideal <= 0 -> scale_factor g structure ideal = Ok 1).
Proof.
  unfold scale_factor. split; intros H.
  - rewrite (proj2 (Qltb_spec _ _) H). apply py_truediv_ok. lra.
  - destruct (Qltb 0 (py_sum ideal)) eqn:E; [|reflexivity].
    apply Qltb_spec in E. lra.
Qed.

Lemma actual_row_heights_ok (g : PanelGenerator) (structure : LayoutStructure)
    (ideal : list Q) :
  exists actual,
    actual_row_heights g structure ideal = Ok actual
    /\ List.length actual = List.length ideal.
Proof.
  unfold actual_row_heights. destruct (page_height_set g).
  - destruct (scale_factor_spec g structure ideal) as [Hpos Hneg].
    destruct (Qlt_le_dec 0 (py_sum ideal)) as [H|H].
    + rewrite (Hpos H). cbn [bind]. eexists. split; [reflexivity|].
      apply length_map.
    + rewrite (Hneg H). cbn [bind]. eexists. split; [reflexivity|].
      apply length_map.
  - now exists ideal.
Qed.

Lemma path_at_ok (metrics : list Metric) (i : Z) (m : Metric) :
  py_getitem metrics i = Ok m -> path_at metrics i = path m.
Proof. unfold path_at. now intros ->. Qed.

Lemma place_panels_spec (g : PanelGenerator) (metrics : list Metric)
    (y h w : Q) (row : list Z) :
  Forall (valid_index metrics) row ->
  forall x acc,
  exists x',
    foldM (place_panel g metrics y h w) row (x, acc)
    = Ok (x', acc ++ row_panels (path_at metrics) (spacing g) w h y x row).
Proof.
  induction 1 as [|i row Hi _ IH]; intros x acc.
  - exists x. cbn. now rewrite app_nil_r.
  - destruct (py_getitem_valid metrics i Hi) as (m & Em & _).
    cbn [foldM place_panel]. rewrite Em. cbn [bind].
    destruct (IH (x + w + spacing g)
                 (acc ++ [{| index := i;
                             rect := {| x0 := x; y0 := y;
                                        x1 := x + w; y1 := y + h |};
                             cfg_path := path m |}])) as (x' & E).
    exists x'. rewrite E, <- app_assoc.
    cbn [row_panels app]. now rewrite (path_at_ok _ _ _ Em).
Qed.

Lemma py_getitem_middle {A : Type} (pre post : list A) (a : A) :
  py_getitem (pre ++ a :: post) (len pre) = Ok a.
Proof.
  unfold py_getitem.
  assert (Hl : len (pre ++ a :: post) = (len pre + len post + 1)%Z)
    by (unfold len; rewrite length_app; cbn [List.length]; lia).
  assert (Hp : (0 <= len pre)%Z) by (unfold len; lia).
  assert (Hq : (0 <= len post)%Z) by (unfold len; lia).
  destruct (Z.ltb_spec (len pre) 0); [lia|].
  destruct (Z.leb_spec 0 (len pre)); [|lia].
  destruct (Z.ltb_spec (len pre) (len (pre ++ a :: post))); [|lia].
  cbn [andb]. unfold len. rewrite Nat2Z.id, nth_error_app2 by lia.
  now rewrite Nat.sub_diag.
Qed.

Lemma row_ok_valid (metrics : list Metric) (row : list Z) :
  row_ok metrics row -> row <> [] /\ Forall (valid_index metrics) row.
Proof.
  intros [Hne (ms & E & _)]. split; [exact Hne|].
  eapply mapM_getitem_inv, E.
Qed.

Lemma place_rows_spec (g : PanelGenerator) (metrics : list Metric)
    (structure : LayoutStructure) :
  Forall (row_ok metrics) structure ->
  forall heights pre y acc,
    List.length heights = List.length structure ->
    exists y',
      foldM (place_row g metrics (pre ++ heights))
            (combine (py_range (len pre) (len pre + len structure)) structure)
            (y, acc)
      = Ok (y', acc ++ List.concat
                         (page_blocks g (path_at metrics) y
                                      (combine structure heights))).
Proof.
  induction 1 as [|row st Hrow _ IH]; intros heights pre y acc Hlen.
  - exists y. rewrite combine_nil. cbn. now rewrite app_nil_r.
  - destruct heights as [|h hs]; [discriminate|].
    apply row_ok_valid in Hrow as [Hne Hv].
    assert (El : len (row :: st) = (len st + 1)%Z)
      by (unfold len; cbn [List.length]; lia).
    assert (Hs : (0 <= len st)%Z) by (unfold len; lia).
    rewrite py_range_cons by lia. cbn [combine foldM place_row].
    rewrite py_getitem_middle. cbn [bind].
    rewrite py_truediv_ok by (apply inject_Z_nonzero, len_nonzero, Hne).
    cbn [bind]. fold (panel_width g (len row)).
    destruct (place_panels_spec g metrics y h (panel_width g (len row)) row Hv
                                (margin g) acc) as (x' & Ex).
    rewrite Ex. cbn [bind].
    specialize (IH hs (pre ++ [h]) (y + h + spacing g)
                   (acc ++ row_panels (path_at metrics) (spacing g)
                                      (panel_width g (len row)) h y (margin g)
                                      row)).
    destruct IH as (y' & E); [cbn [List.length] in Hlen; lia|].
    exists y'. rewrite <- app_assoc in E. cbn [app] in E.
    rewrite len_app in E. change (len [h]) with 1%Z in E.
    replace (len pre + len (row :: st))%Z with (len pre + 1 + len st)%Z by lia.
    rewrite E, <- app_assoc. reflexivity.
Qed.

(** [calculate_layout] returns whenever the first loop does, and its
    panels are those of [page_blocks] for the actual row heights. *)
Lemma calculate_layout_spec (g : PanelGenerator) (structure : LayoutStructure)
    (metrics : list Metric) (ideal : list Q) :
  row_ideal_heights g structure metrics = Ok ideal ->
  exists actual,
    actual_row_heights g structure ideal = Ok actual
    /\ List.length actual = List.length structure
    /\ calculate_layout g structure metrics
       = Ok {| page_size := (page_width_mm g * mm,
                             final_page_height g structure ideal);
               panels := List.concat
                           (page_blocks g (path_at metrics) (margin g)
                                        (combine structure actual)) |}.
Proof.
  intros Hi.
  pose proof (row_ideal_heights_inv _ _ _ _ Hi) as Hwf.
  assert (Hlen : List.length ideal = List.length structure)
    by (eapply mapM_length, Hi).
  destruct (actual_row_heights_ok g structure ideal) as (actual & Ea & Hla).
  exists actual. split; [exact Ea|]. split; [lia|].
  unfold calculate_layout. rewrite Hi. cbn [bind]. rewrite Ea. cbn [bind].
  destruct (place_rows_spec g metrics structure Hwf actual [] (margin g) [])
    as (y' & E); [lia|].
  unfold enumerate. cbn [app] in E. change (len (@nil Q)) with 0%Z in E.
  rewrite Z.add_0_l in E. rewrite E. reflexivity.
Qed.

Local Close Scope Q_scope.

(** ** The placements in closed form *)

Local Open Scope Q_scope.

Lemma row_panels_index (pa : Z -> string) (s w h y : Q) (row : list Z) :
  forall x, map index (row_panels pa s w h y x row) = row.
Proof.
  induction row as [|i row IH]; intros x; [reflexivity|].
  cbn [row_panels map index]. now rewrite IH.
Qed.

Lemma row_panels_nth (pa : Z -> string) (s w h y : Q) (row : list Z) :
  forall x j p,
    nth_error (row_panels pa s w h y x row) j = Some p ->
    x0 (rect p) == x + inject_Z (Z.of_nat j) * (w + s)
    /\ y0 (rect p) = y
    /\ x1 (rect p) = x0 (rect p) + w
    /\ y1 (rect p) = y0 (rect p) + h.
Proof.
  induction row as [|i row IH]; intros x j p H.
  - destruct j; discriminate H.
  - destruct j as [|j]; cbn [row_panels nth_error] in H.
    + injection H as <-. cbn [rect x0 y0 x1 y1 Z.of_nat]. repeat split.
      change (inject_Z 0) with 0. lra.
    + destruct (IH _ _ _ H) as (Hx & Hy & Hx1 & Hy1).
      repeat split; try assumption. rewrite Hx.
      rewrite Nat2Z.inj_succ. unfold Z.succ. rewrite inject_Z_plus.
      change (inject_Z 1) with 1. lra.
Qed.

Lemma row_panels_placed (g : PanelGenerator) (pa : Z -> string) (y h : Q)
    (row : list Z) :
  row_placed g y h row
    (row_panels pa (spacing g) (panel_width g (len row)) h y (margin g) row).
Proof.
  split; [apply row_panels_index|].
  intros j p H. apply row_panels_nth in H as (Hx & Hy & Hx1 & Hy1).
  rewrite Hx1, Hy1, Hy. repeat split; try reflexivity. exact Hx.
Qed.

Lemma page_blocks_placed (g : PanelGenerator) (pa : Z -> string)
    (structure : LayoutStructure) :
  forall heights y,
    List.length heights = List.length structure ->
    rows_placed g y structure heights
                (page_blocks g pa y (combine structure heights)).
Proof.
  induction structure as [|row st IH]; intros heights y Hlen.
  - destruct heights; [exact I | discriminate].
  - destruct heights as [|h hs]; [discriminate|].
    cbn [combine page_blocks rows_placed]. split.
    + apply row_panels_placed.
    + apply IH. cbn [List.length] in Hlen. lia.
Qed.

(** A row block has as many panels as the row, each as wide as the row's
    panel width. *)
Lemma row_placed_widths (g : PanelGenerator) (y h : Q) (row : list Z)
    (block : list PanelConfig) :
  row_placed g y h row block ->
  List.length block = List.length row
  /\ Forall (fun p => x1 (rect p) - x0 (rect p) == panel_width g (len row)
                      /\ y1 (rect p) - y0 (rect p) == h)
            block.
Proof.
  intros [Hidx Hpos]. split.
  - rewrite <- Hidx. now rewrite length_map.
  - apply Forall_forall. intros p Hin.
    destruct (In_nth_error _ _ Hin) as [j Hj].
    destruct (Hpos j p Hj) as (_ & _ & Hx1 & Hy1). split; lra.
Qed.

(** ** Disjoint interiors *)

Lemma FOP_app {A : Type} (R : A -> A -> Prop) (l1 l2 : list A) :
  ForallOrdPairs R l1 -> ForallOrdPairs R l2 ->
  (forall a b, In a l1 -> In b l2 -> R a b) ->
  ForallOrdPairs R (l1 ++ l2).
Proof.
  intros H1 H2 H12. induction H1 as [|a l1 Ha _ IH]; [exact H2|].
  cbn [app]. constructor.
  - apply Forall_app. split; [exact Ha|].
    apply Forall_forall. intros b Hb. apply H12; [now left | exact Hb].
  - apply IH. intros x b Hx Hb. apply H12; [now right | exact Hb].
Qed.

Lemma row_panels_In (pa : Z -> string) (s w h y : Q) (row : list Z) :
  forall x p,
    In p (row_panels pa s w h y x row) ->
    y0 (rect p) = y /\ y1 (rect p) = y + h
    /\ x1 (rect p) = x0 (rect p) + w
    /\ (0 <= w + s -> x <= x0 (rect p)).
Proof.
  induction row as [|i row IH]; intros x p H; [destruct H|].
  destruct H as [<- | H].
  - cbn. repeat split. intros _. lra.
  - destruct (IH _ _ H) as (Hy0 & Hy1 & Hx1 & Hx).
    repeat split; try assumption. intros Hws. specialize (Hx Hws). lra.
Qed.

Lemma row_panels_disjoint (pa : Z -> string) (s w h y : Q) (row : list Z) :
  0 <= s ->
  forall x,
    ForallOrdPairs (fun p q => disjoint_interiors (rect p) (rect q))
                   (row_panels pa s w h y x row).
Proof.
  intros Hs. induction row as [|i row IH]; intros x; [constructor|].
  cbn [row_panels]. constructor; [|apply IH].
  apply Forall_forall. intros q Hq.
  apply row_panels_In in Hq as (_ & _ & _ & Hx).
  unfold disjoint_interiors, interior. cbn. intros px py [Hp Hq].
  destruct (Qlt_le_dec w 0) as [Hw|Hw]; [lra|].
  assert (x + w + s <= x0 (rect q)) by (apply Hx; lra). lra.
Qed.

Lemma page_blocks_In (g : PanelGenerator) (pa : Z -> string)
    (rows : list (list Z * Q)) :
  0 <= spacing g -> Forall (fun rh => 0 <= snd rh) rows ->
  forall y q,
    In q (List.concat (page_blocks g pa y rows)) -> y <= y0 (rect q).
Proof.
  intros Hs. induction 1 as [|[row h] rows Hh _ IH]; intros y q H;
    [destruct H|].
  cbn [page_blocks List.concat] in H. cbn [snd] in Hh.
  apply in_app_or in H as [H|H].
  - apply row_panels_In in H as (-> & _). lra.
  - specialize (IH _ _ H). lra.
Qed.

Lemma page_blocks_disjoint (g : PanelGenerator) (pa : Z -> string)
    (rows : list (list Z * Q)) :
  0 <= spacing g -> Forall (fun rh => 0 <= snd rh) rows ->
  forall y,
    ForallOrdPairs (fun p q => disjoint_interiors (rect p) (rect q))
                   (List.concat (page_blocks g pa y rows)).
Proof.
  intros Hs. induction 1 as [|[row h] rows Hh Hrows IH]; intros y;
    [constructor|].
  cbn [page_blocks List.concat]. cbn [snd] in Hh.
  apply FOP_app; [now apply row_panels_disjoint | apply IH|].
  intros p q Hp Hq.
  apply row_panels_In in Hp as (Hy0 & Hy1 & _).
  pose proof (page_blocks_In g pa rows Hs Hrows _ _ Hq) as Hy.
  unfold disjoint_interiors, interior. intros px py [Hpi Hqi].
  rewrite Hy1 in Hpi. lra.
Qed.

Lemma combine_heights_nonneg (structure : LayoutStructure) (heights : list Q) :
  Forall (fun h => 0 <= h) heights ->
  Forall (fun rh : list Z * Q => 0 <= snd rh) (combine structure heights).
Proof.
  intros H. apply Forall_forall. intros [row h] Hin.
  apply in_combine_r in Hin. cbn [snd].
  exact (proj1 (Forall_forall _ _) H h Hin).
Qed.

Local Close Scope Q_scope.

(** ** The geometry: ideal row heights *)

Local Open Scope Q_scope.

(** C4 (as amended).  For a row whose panels have the metrics
    [m :: ms'] with non-zero ratios, at the shared panel width [w], the
    ideal height is [max 0 (max_i (w / r_i))] plus the label size plus the
    padding 4: the running maximum starts at 0.  It is
    [max_i (w / r_i) + label size + 4] whenever that maximum is not
    negative, in particular whenever [w >= 0] and the ratios are positive.
    A row of one panel goes through the same computation, the maximum
    being [w / r] of its own ratio. *)
Theorem row_ideal_height_max (g : PanelGenerator) (metrics : list Metric)
    (row : list Z) (m : Metric) (ms' : list Metric) :
  mapM (py_getitem metrics) row = Ok (m :: ms') ->
  Forall (fun m => ~ ratio m == 0) (m :: ms') ->
  let w := panel_width g (len row) in
  let tallest := max_over (w / ratio m) (heights_at w ms') in
  Forall (fun h => h <= tallest) (heights_at w (m :: ms'))
  /\ Exists (fun h => h == tallest) (heights_at w (m :: ms'))
  /\ (ms' = [] -> tallest = w / ratio m)
  /\ exists ideal,
       row_ideal_height g metrics row = Ok ideal
       /\ ideal == Qmax 0 tallest + inject_Z (label_size g) + 4
       /\ (0 <= tallest ->
           ideal == tallest + inject_Z (label_size g) + 4)
       /\ (0 <= w -> Forall (fun m => 0 < ratio m) (m :: ms') ->
           ideal == tallest + inject_Z (label_size g) + 4).
Proof.
  intros E Hr w tallest.
  assert (Hne : row <> []).
  { intros ->. discriminate E. }
  split; [apply max_over_upper|]. split; [apply max_over_attained|].
  split; [intros ->; reflexivity|].
  eexists. split; [apply (row_ideal_height_spec g metrics row _ Hne E Hr)|].
  fold w. change (heights_at w (m :: ms'))
    with (w / ratio m :: heights_at w ms').
  rewrite fold_max_max_over. fold tallest.
  assert (Hpos : 0 <= tallest -> Qmax 0 tallest == tallest)
    by (intros H; now apply Q.max_r).
  split; [reflexivity|]. split.
  - intros H. now rewrite (Hpos H).
  - intros Hw Hratio. rewrite Hpos; [reflexivity|].
    pose proof (max_over_upper (w / ratio m) (heights_at w ms')) as Hu.
    inversion Hu as [|? ? Hhead _]; subst. fold tallest in Hhead.
    inversion Hratio as [|? ? Hm _]; subst.
    assert (0 <= w / ratio m) by (apply Qle_shift_div_l; [exact Hm | lra]).
    lra.
Qed.

Lemma row_ideal_height_max_witness :
  exists ideal,
    row_ideal_height default_generator
                     [sample_metric 1 1; sample_metric 2 1] [0%Z; 1%Z]
    = Ok ideal
    /\ ideal
       == max_over (panel_width default_generator 2 / 1)
                   [panel_width default_generator 2 / 2]
          + 12 + 4.
Proof.
  destruct (row_ideal_height_max default_generator
              [sample_metric 1 1; sample_metric 2 1] [0%Z; 1%Z]
              (sample_metric 1 1) [sample_metric 2 1])
    as (_ & _ & _ & ideal & E & _ & H & _).
  - reflexivity.
  - repeat constructor; vm_compute; discriminate.
  - exists ideal. split; [exact E|]. apply H. vm_compute. discriminate.
Defined.

(** C4 (as stated) fails when the panel width is negative: with a margin
    of 100 mm on the 180 mm page the usable width is negative, the single
    panel of ratio 1 would need the negative height [w / 1], and the
    running maximum stays at 0: the ideal height is 0 + 12 + 4 = 16, not
    [w / 1 + 12 + 4]. *)
Lemma row_ideal_height_max_counterexample :
  let g := PanelGenerator_init 180 None 100 3 12 in
  let w := panel_width g 1 in
  w < 0
  /\ exists ideal,
       row_ideal_height g [sample_metric 1 1] [0%Z] = Ok ideal
       /\ ideal == 16
       /\ ~ ideal == max_over (w / ratio (sample_metric 1 1)) []
                     + inject_Z (label_size g) + 4.
Proof.
  cbv zeta. split; [vm_compute; reflexivity|].
  eexists. split; [vm_compute; reflexivity|].
  split; vm_compute; [reflexivity | discriminate].
Qed.

(** ** The geometry: equal widths within a row *)

Lemma rows_placed_widths (g : PanelGenerator) (structure : LayoutStructure) :
  forall y heights blocks,
    rows_placed g y structure heights blocks ->
    Forall2
      (fun row block =>
         List.length block = List.length row
         /\ map index block = row
         /\ Forall (fun p => x1 (rect p) - x0 (rect p)
                             == panel_width g (len row)) block)
      structure blocks.
Proof.
  induction structure as [|row st IH]; intros y heights blocks H.
  - destruct heights, blocks; try destruct H. constructor.
  - destruct heights as [|h hs]; [destruct H|].
    destruct blocks as [|b bs]; [destruct H|].
    destruct H as [Hrow Hrest]. constructor; [|eapply IH, Hrest].
    destruct (row_placed_widths g y h row b Hrow) as [Hl Hw].
    split; [exact Hl|]. split; [apply Hrow|].
    eapply Forall_impl; [|exact Hw]. cbn. intros p [Hp _]. exact Hp.
Qed.

(** C5.  On every input on which it returns (no empty row, indices that
    refer to metrics, no zero ratio) [calculate_layout] gives all panels
    of a row the same width
    [(usable_width - (count - 1) * spacing) / count], [count] being the
    number of panels of the row, whatever their ratios: this is the width
    the ideal height of the row is computed from, and the width of every
    rectangle placed for the row. *)
Theorem panels_share_row_width (g : PanelGenerator)
    (structure : LayoutStructure) (metrics : list Metric) :
  well_formed structure metrics ->
  exists ideal actual res blocks,
    row_ideal_heights g structure metrics = Ok ideal
    /\ Forall2
         (fun row v =>
            exists ms, mapM (py_getitem metrics) row = Ok ms
              /\ v = fold_left Qmax
                       (heights_at (panel_width g (len row)) ms) 0
                     + inject_Z (label_size g) + 4)
         structure ideal
    /\ calculate_layout g structure metrics = Ok res
    /\ panels res = List.concat blocks
    /\ rows_placed g (margin g) structure actual blocks
    /\ Forall2
         (fun row block =>
            List.length block = List.length row
            /\ map index block = row
            /\ Forall (fun p => x1 (rect p) - x0 (rect p)
                                == (usable_width g
                                    - inject_Z (len row - 1) * spacing g)
                                   / inject_Z (len row)) block)
         structure blocks.
Proof.
  intros Hwf.
  destruct (row_ideal_heights_spec g structure metrics Hwf)
    as (ideal & Ei & Hideal).
  destruct (calculate_layout_spec g structure metrics ideal Ei)
    as (actual & Ea & Hlen & Ec).
  exists ideal, actual. eexists. eexists.
  split; [exact Ei|]. split; [exact Hideal|]. split; [exact Ec|].
  split; [reflexivity|].
  pose proof (page_blocks_placed g (path_at metrics) structure actual
                                 (margin g) Hlen) as Hp.
  split; [exact Hp|]. exact (rows_placed_widths g structure _ _ _ Hp).
Qed.

Lemma panels_share_row_width_witness :
  exists ideal actual res blocks,
    row_ideal_heights default_generator [[0%Z; 1%Z]; [2%Z]]
      [sample_metric 1 1; sample_metric 2 1; sample_metric 1 1] = Ok ideal
    /\ calculate_layout default_generator [[0%Z; 1%Z]; [2%Z]]
         [sample_metric 1 1; sample_metric 2 1; sample_metric 1 1] = Ok res
    /\ panels res = List.concat blocks
    /\ rows_placed default_generator (margin default_generator)
                   [[0%Z; 1%Z]; [2%Z]] actual blocks.
Proof.
  destruct (panels_share_row_width default_generator [[0%Z; 1%Z]; [2%Z]]
              [sample_metric 1 1; sample_metric 2 1; sample_metric 1 1])
    as (ideal & actual & res & blocks & Ei & _ & Ec & Hp & Hr & _).
  - apply well_formed_intro.
    + repeat constructor; discriminate.
    + repeat constructor; vm_compute; congruence.
    + repeat constructor; vm_compute; discriminate.
  - exists ideal, actual, res, blocks. repeat split; assumption.
Defined.

(** ** The geometry: scaling to a fixed page height *)

Lemma label_padding_nonneg (label : Z) : (-4 <= label)%Z -> 0 <= inject_Z label + 4.
Proof.
  intros H. change 4 with (inject_Z 4). rewrite <- inject_Z_plus.
  change 0 with (inject_Z 0). rewrite <- Zle_Qle. lia.
Qed.

Lemma label_padding_pos (label : Z) : (-4 < label)%Z -> 0 < inject_Z label + 4.
Proof.
  intros H. change 4 with (inject_Z 4). rewrite <- inject_Z_plus.
  change 0 with (inject_Z 0). rewrite <- Zlt_Qlt. lia.
Qed.

(** Every ideal row height is at least the label size plus the padding. *)
Lemma ideal_heights_lower_bound (g : PanelGenerator)
    (structure : LayoutStructure) (metrics : list Metric) (ideal : list Q) :
  row_ideal_heights g structure metrics = Ok ideal ->
  Forall (fun v => inject_Z (label_size g) + 4 <= v) ideal.
Proof.
  intros Hi.
  destruct (row_ideal_heights_spec g structure metrics
              (row_ideal_heights_inv _ _ _ _ Hi)) as (ideal' & Ei & Hall).
  rewrite Hi in Ei. injection Ei as <-.
  clear Hi. induction Hall as [|row v st vs (ms & _ & ->) _ IH].
  - constructor.
  - constructor; [|exact IH].
    pose proof (fold_max_ge_acc (heights_at (panel_width g (len row)) ms) 0).
    lra.
Qed.

(** With a label size above -4 the ideal heights of a non-empty structure
    have a positive sum. *)
Lemma ideal_sum_positive (g : PanelGenerator) (structure : LayoutStructure)
    (metrics : list Metric) (ideal : list Q) :
  row_ideal_heights g structure metrics = Ok ideal ->
  structure <> [] -> (-4 < label_size g)%Z ->
  0 < py_sum ideal.
Proof.
  intros Hi Hne Hl. apply py_sum_pos.
  - intros ->. apply mapM_length in Hi. destruct structure; [congruence|].
    discriminate Hi.
  - eapply Forall_impl; [|apply (ideal_heights_lower_bound _ _ _ _ Hi)].
    cbn. intros v Hv. pose proof (label_padding_pos _ Hl). lra.
Qed.

Lemma final_page_height_fixed (g : PanelGenerator)
    (structure : LayoutStructure) (ideal : list Q) (h : Q) :
  page_height_mm g = Some h -> ~ h == 0 ->
  page_height_set g = true
  /\ final_page_height g structure ideal = h * mm.
Proof.
  intros Hh Hz. unfold page_height_set, final_page_height. rewrite Hh.
  destruct (Qeq_bool h 0) eqn:E; [apply Qeq_bool_iff in E; contradiction|].
  now split.
Qed.

(** C3 (as amended).  When a non-zero fixed page height [h] (in mm) is set
    and the ideal row heights have a positive sum, every ideal row height
    is multiplied by the one factor
    [(fixed usable height) / (sum of ideal heights)], the fixed usable
    height being the page height less the two margins and the spacing
    between rows; the scaled heights add up to the fixed usable height, so
    that their sum plus the spacing between rows plus twice the margin is
    the page height; and the rows are placed with the scaled heights. *)
Theorem fixed_height_uniform_scale (g : PanelGenerator)
    (structure : LayoutStructure) (metrics : list Metric) (h : Q)
    (ideal : list Q) :
  page_height_mm g = Some h -> ~ h == 0 ->
  row_ideal_heights g structure metrics = Ok ideal ->
  0 < py_sum ideal ->
  let usable :=
    h * mm - 2 * margin g - inject_Z (len structure - 1) * spacing g in
  let factor := usable / py_sum ideal in
  let scaled := map (fun x => x * factor) ideal in
  final_usable_height g structure ideal = usable
  /\ scale_factor g structure ideal = Ok factor
  /\ actual_row_heights g structure ideal = Ok scaled
  /\ py_sum scaled == usable
  /\ py_sum scaled + inject_Z (len structure - 1) * spacing g + 2 * margin g
     == h * mm
  /\ exists res blocks,
       calculate_layout g structure metrics = Ok res
       /\ snd (page_size res) = h * mm
       /\ panels res = List.concat blocks
       /\ rows_placed g (margin g) structure scaled blocks.
Proof.
  intros Hh Hz Hi Hpos usable factor scaled.
  destruct (final_page_height_fixed g structure ideal h Hh Hz) as [Hset Hfp].
  assert (Hu : final_usable_height g structure ideal = usable)
    by (unfold final_usable_height; now rewrite Hfp).
  assert (Hf : scale_factor g structure ideal = Ok factor).
  { rewrite (proj1 (scale_factor_spec g structure ideal) Hpos).
    now rewrite Hu. }
  assert (Ha : actual_row_heights g structure ideal = Ok scaled).
  { unfold actual_row_heights. now rewrite Hset, Hf. }
  assert (Hsum : py_sum scaled == usable).
  { unfold scaled. rewrite py_sum_scale. unfold factor. field. lra. }
  split; [exact Hu|]. split; [exact Hf|]. split; [exact Ha|].
  split; [exact Hsum|]. split; [rewrite Hsum; unfold usable; lra|].
  destruct (calculate_layout_spec g structure metrics ideal Hi)
    as (actual & Ea & Hlen & Ec).
  rewrite Ha in Ea. injection Ea as <-.
  eexists. eexists. split; [exact Ec|]. cbn [page_size snd panels].
  split; [exact Hfp|]. split; [reflexivity|].
  now apply page_blocks_placed.
Qed.

Lemma fixed_height_uniform_scale_witness :
  exists ideal scaled,
    row_ideal_heights (PanelGenerator_init 180 (Some 100) 5 3 12)
      [[0%Z; 1%Z]; [2%Z]]
      [sample_metric 1 1; sample_metric 2 1; sample_metric 1 1] = Ok ideal
    /\ actual_row_heights (PanelGenerator_init 180 (Some 100) 5 3 12)
         [[0%Z; 1%Z]; [2%Z]] ideal = Ok scaled
    /\ py_sum scaled + inject_Z (2 - 1) * (3 * mm) + 2 * (5 * mm) == 100 * mm.
Proof.
  assert (Hi : exists ideal,
             row_ideal_heights (PanelGenerator_init 180 (Some 100) 5 3 12)
               [[0%Z; 1%Z]; [2%Z]]
               [sample_metric 1 1; sample_metric 2 1; sample_metric 1 1]
             = Ok ideal /\ 0 < py_sum ideal).
  { eexists. split; vm_compute; reflexivity. }
  destruct Hi as (ideal & Hi & Hpos).
  destruct (fixed_height_uniform_scale
              (PanelGenerator_init 180 (Some 100) 5 3 12)
              [[0%Z; 1%Z]; [2%Z]]
              [sample_metric 1 1; sample_metric 2 1; sample_metric 1 1]
              100 ideal eq_refl ltac:(vm_compute; discriminate) Hi Hpos)
    as (_ & _ & Ha & _ & Hs & _).
  exists ideal. eexists. split; [exact Hi|]. split; [exact Ha|]. exact Hs.
Defined.

(** C3 (as stated) fails in two ways.  First, on the default 180 mm page
    with a fixed height of 100 mm, one row of one square panel: the scaled
    row height plus the spacing between rows plus twice the margin is the
    page height, 100 mm, and not the usable height (100 mm less the
    margins).  Second, with a label size of -20 and a panel of ratio 100
    the ideal height is negative, the guard [sum > 0] fails, and the
    factor is 1 instead of (usable height) / (sum of ideal heights). *)
Lemma fixed_height_uniform_scale_counterexample :
  (let g := PanelGenerator_init 180 (Some 100) 5 3 12 in
   exists ideal scaled,
     row_ideal_heights g [[0%Z]] [sample_metric 1 1] = Ok ideal
     /\ actual_row_heights g [[0%Z]] ideal = Ok scaled
     /\ py_sum scaled + inject_Z (len [[0%Z]] - 1) * spacing g + 2 * margin g
        == 100 * mm
     /\ ~ py_sum scaled + inject_Z (len [[0%Z]] - 1) * spacing g
          + 2 * margin g
          == final_usable_height g [[0%Z]] ideal)
  /\ (let g := PanelGenerator_init 180 (Some 100) 5 3 (-20) in
      exists ideal,
        row_ideal_heights g [[0%Z]] [sample_metric 100 1] = Ok ideal
        /\ py_sum ideal < 0
        /\ scale_factor g [[0%Z]] ideal = Ok 1
        /\ actual_row_heights g [[0%Z]] ideal
           = Ok (map (fun x => x * 1) ideal)
        /\ ~ 1 == final_usable_height g [[0%Z]] ideal / py_sum ideal
        /\ ~ py_sum (map (fun x => x * 1) ideal)
             == final_usable_height g [[0%Z]] ideal).
Proof.
  split; cbv zeta.
  - eexists. eexists. split; [vm_compute; reflexivity|].
    split; [vm_compute; reflexivity|].
    split; vm_compute; [reflexivity | discriminate].
  - eexists. split; [vm_compute; reflexivity|].
    split; [vm_compute; reflexivity|].
    split; [vm_compute; reflexivity|].
    split; [vm_compute; reflexivity|].
    split; vm_compute; discriminate.
Qed.

(** ** The geometry: disjoint panels *)

Lemma panel_step_nonneg (g : PanelGenerator) (row : list Z) :
  row <> [] -> 0 <= usable_width g + spacing g ->
  0 <= panel_width g (len row) + spacing g.
Proof.
  intros Hne Hu.
  assert (Hn : 0 < inject_Z (len row)).
  { change 0 with (inject_Z 0). rewrite <- Zlt_Qlt.
    destruct row; [congruence|]. unfold len. cbn [List.length]. lia. }
  assert (E : panel_width g (len row) + spacing g
              == (usable_width g + spacing g) / inject_Z (len row)).
  { unfold panel_width.
    replace (len row - 1)%Z with (len row + -1)%Z by lia.
    rewrite inject_Z_plus. change (inject_Z (-1)) with (-1).
    field. lra. }
  rewrite E. apply Qle_shift_div_l; [exact Hn | lra].
Qed.

Lemma actual_heights_nonneg (g : PanelGenerator)
    (structure : LayoutStructure) (ideal actual : list Q) :
  actual_row_heights g structure ideal = Ok actual ->
  Forall (fun v => 0 <= v) ideal ->
  (page_height_set g = true -> 0 < final_usable_height g structure ideal) ->
  Forall (fun v => 0 <= v) actual.
Proof.
  unfold actual_row_heights. intros Ha Hi Hu.
  destruct (page_height_set g); [|now injection Ha as <-].
  specialize (Hu eq_refl).
  destruct (scale_factor_spec g structure ideal) as [Hpos Hneg].
  assert (Hf : exists f, scale_factor g structure ideal = Ok f /\ 0 <= f).
  { destruct (Qlt_le_dec 0 (py_sum ideal)) as [H|H].
    - eexists. split; [apply (Hpos H)|].
      apply Qle_shift_div_l; [exact H | lra].
    - exists 1. split; [apply (Hneg H) | lra]. }
  destruct Hf as (f & Ef & Hf). rewrite Ef in Ha. cbn [bind] in Ha.
  injection Ha as <-. apply Forall_forall. intros v Hv.
  apply in_map_iff in Hv as (x & <- & Hx).
  apply Qmult_le_0_compat; [|exact Hf].
  exact (proj1 (Forall_forall _ _) Hi x Hx).
Qed.

(** C10 (as amended).  For a structure whose rows are not empty and whose
    indices refer to metrics of non-zero ratio, with non-negative spacing,
    either no fixed page height or a positive fixed usable height, a label
    size of at least -4 and a usable width of at least minus the spacing:
    [calculate_layout] returns; its panels are the rows one after the
    other; the first row starts at [y = margin] and every next row starts
    [spacing] below the bottom of the previous one; in a row the first
    panel starts at [x = margin] and the [j]-th at
    [margin + j * (panel width + spacing)]; every rectangle is exactly the
    panel width of its row wide and the height of its row tall; the row
    heights and the steps from panel to panel are not negative, so rows
    run top to bottom and panels left to right; and any two rectangles
    have disjoint interiors. *)
Theorem placements_stacked_and_disjoint (g : PanelGenerator)
    (structure : LayoutStructure) (metrics : list Metric) :
  Forall (fun row => row <> []) structure ->
  Forall (Forall (valid_index metrics)) structure ->
  Forall (fun m => ~ ratio m == 0) metrics ->
  0 <= spacing g ->
  match page_height_mm g with
  | Some h =>
      h == 0
      \/ 0 < h * mm - 2 * margin g - inject_Z (len structure - 1) * spacing g
  | None => True
  end ->
  (-4 <= label_size g)%Z ->
  0 <= usable_width g + spacing g ->
  exists res heights blocks,
    calculate_layout g structure metrics = Ok res
    /\ panels res = List.concat blocks
    /\ rows_placed g (margin g) structure heights blocks
    /\ Forall (fun h => 0 <= h) heights
    /\ Forall (fun row => 0 <= panel_width g (len row) + spacing g) structure
    /\ ForallOrdPairs (fun p q => disjoint_interiors (rect p) (rect q))
                      (panels res).
Proof.
  intros Hne Hv Hr Hs Hh Hl Hu.
  pose proof (well_formed_intro structure metrics Hne Hv Hr) as Hwf.
  destruct (row_ideal_heights_spec g structure metrics Hwf)
    as (ideal & Ei & _).
  destruct (calculate_layout_spec g structure metrics ideal Ei)
    as (actual & Ea & Hlen & Ec).
  assert (Hideal : Forall (fun v => 0 <= v) ideal).
  { eapply Forall_impl; [|apply (ideal_heights_lower_bound _ _ _ _ Ei)].
    cbn. intros v Hv'. pose proof (label_padding_nonneg _ Hl). lra. }
  assert (Hactual : Forall (fun v => 0 <= v) actual).
  { apply (actual_heights_nonneg g structure ideal actual Ea Hideal).
    unfold page_height_set, final_usable_height, final_page_height.
    destruct (page_height_mm g) as [h|]; [|discriminate].
    destruct (Qeq_bool h 0) eqn:E; [discriminate|]. intros _. cbn [negb].
    destruct Hh as [Hz|Hpos]; [|exact Hpos].
    apply Qeq_bool_iff in Hz. congruence. }
  eexists. exists actual. eexists. split; [exact Ec|]. cbn [panels].
  split; [reflexivity|].
  split; [now apply page_blocks_placed|].
  split; [exact Hactual|].
  split.
  - apply Forall_forall. intros row Hin. apply panel_step_nonneg; [|exact Hu].
    exact (proj1 (Forall_forall _ _) Hne row Hin).
  - apply page_blocks_disjoint; [exact Hs|].
    now apply combine_heights_nonneg.
Qed.

Lemma placements_stacked_and_disjoint_witness :
  exists res,
    calculate_layout default_generator [[0%Z; 1%Z]; [2%Z]]
      [sample_metric 1 1; sample_metric 2 1; sample_metric 1 1] = Ok res
    /\ ForallOrdPairs (fun p q => disjoint_interiors (rect p) (rect q))
                      (panels res).
Proof.
  destruct (placements_stacked_and_disjoint default_generator
              [[0%Z; 1%Z]; [2%Z]]
              [sample_metric 1 1; sample_metric 2 1; sample_metric 1 1])
    as (res & _ & _ & Ec & _ & _ & _ & _ & Hd).
  - repeat constructor; discriminate.
  - repeat constructor; vm_compute; congruence.
  - repeat constructor; vm_compute; discriminate.
  - vm_compute. discriminate.
  - exact I.
  - vm_compute. discriminate.
  - vm_compute. discriminate.
  - exists res. split; assumption.
Defined.

(** C10 (as stated) fails in two ways, on inputs with non-empty rows,
    positive ratios, non-negative spacing and margin and no fixed page
    height.  First, with a label size of -100 a row of a wide panel gets a
    negative height, the cursor moves up, and the panels of the first and
    the third row both contain the point (100, 380) in their interior.
    Second, with a margin of 100 mm on the 180 mm page the panel width
    plus the spacing is negative, and the second panel of a row starts to
    the left of the first. *)
Lemma placements_stacked_and_disjoint_counterexample :
  (let g := PanelGenerator_init 180 None 5 3 (-100) in
   0 <= spacing g /\ 0 <= margin g
   /\ exists res p q,
        calculate_layout g [[0%Z]; [1%Z]; [2%Z]]
          [sample_metric 1 1; sample_metric 10 1; sample_metric 1 1] = Ok res
        /\ nth_error (panels res) 0 = Some p
        /\ nth_error (panels res) 2 = Some q
        /\ interior (rect p) 100 380 /\ interior (rect q) 100 380
        /\ ~ disjoint_interiors (rect p) (rect q))
  /\ (let g := PanelGenerator_init 180 None 100 3 12 in
      0 <= spacing g /\ 0 <= margin g
      /\ exists res p q,
           calculate_layout g [[0%Z; 1%Z]]
             [sample_metric 1 1; sample_metric 1 1] = Ok res
           /\ nth_error (panels res) 0 = Some p
           /\ nth_error (panels res) 1 = Some q
           /\ x0 (rect q) < x0 (rect p)).
Proof.
  split; cbv zeta.
  - split; [vm_compute; discriminate|]. split; [vm_compute; discriminate|].
    eexists. eexists. eexists.
    split; [vm_compute; reflexivity|].
    split; [reflexivity|]. split; [reflexivity|].
    match goal with
    | |- ?A /\ ?B /\ _ =>
        assert (Ha : A) by (vm_compute; repeat split);
        assert (Hb : B) by (vm_compute; repeat split)
    end.
    split; [exact Ha|]. split; [exact Hb|].
    intros Hd. exact (Hd _ _ (conj Ha Hb)).
  - split; [vm_compute; discriminate|]. split; [vm_compute; discriminate|].
    eexists. eexists. eexists.
    split; [vm_compute; reflexivity|].
    split; [reflexivity|]. split; [reflexivity|].
    vm_compute. reflexivity.
Qed.

(** ** The geometry: a structure without rows *)

(** C6, evaluated.  For a structure without rows and no fixed page height
    the result has no panels, and its page height is the two margins less
    one spacing: the term [(len(structure) - 1) * spacing] of line 143 is
    [-spacing] here.  The page height is [2 * margin] only when the
    spacing is zero. *)
Theorem empty_structure_page_height (g : PanelGenerator)
    (metrics : list Metric) :
  page_height_set g = false ->
  exists res,
    calculate_layout g [] metrics = Ok res
    /\ panels res = []
    /\ snd (page_size res) == 2 * margin g - spacing g
    /\ (snd (page_size res) == 2 * margin g <-> spacing g == 0).
Proof.
  intros Hset. eexists. split.
  - unfold calculate_layout, actual_row_heights. rewrite Hset. reflexivity.
  - cbn [panels page_size snd]. split; [reflexivity|].
    assert (E : final_page_height g [] [] == 2 * margin g - spacing g).
    { unfold final_page_height, total_ideal_height.
      unfold page_height_set in Hset.
      change (py_sum []) with 0.
      change (inject_Z (len (@nil (list Z)) - 1)) with (-1).
      destruct (page_height_mm g) as [h|].
      - destruct (Qeq_bool h 0); [|discriminate Hset]. cbn [negb]. lra.
      - lra. }
    split; [exact E|]. rewrite E. split; intros H; lra.
Qed.

Lemma empty_structure_page_height_witness :
  exists res,
    calculate_layout default_generator [] [] = Ok res
    /\ panels res = []
    /\ snd (page_size res) == 2 * (5 * mm) - 3 * mm
    /\ ~ snd (page_size res) == 2 * (5 * mm).
Proof.
  destruct (empty_structure_page_height default_generator [] eq_refl)
    as (res & Ec & Hp & Hh & Hiff).
  exists res. split; [exact Ec|]. split; [exact Hp|]. split; [exact Hh|].
  intros H. apply Hiff in H. vm_compute in H. discriminate H.
Defined.

Local Close Scope Q_scope.

(** ** The metrics extractor *)

Lemma get_pdf_metrics_loop (first_page_rect : string -> result (Q * Q))
    (file_paths : list string) :
  forall acc,
    fold_left
      (fun metrics p =>
         match read_metric first_page_rect p with
         | Ok m => metrics ++ [m]
         | Raise _ => metrics ++ [fallback_metric p]
         end)
      file_paths acc
    = acc ++ map (metric_of first_page_rect) file_paths.
Proof.
  induction file_paths as [|p ps IH]; intros acc; cbn [fold_left map].
  - now rewrite app_nil_r.
  - rewrite IH. unfold metric_of at 2.
    destruct (read_metric first_page_rect p); now rewrite <- app_assoc.
Qed.

(** The extractor returns one metric per path, in the order of the paths. *)
Lemma get_pdf_metrics_map (first_page_rect : string -> result (Q * Q))
    (file_paths : list string) :
  get_pdf_metrics first_page_rect file_paths
  = map (metric_of first_page_rect) file_paths.
Proof. unfold get_pdf_metrics. now rewrite get_pdf_metrics_loop. Qed.

Lemma metric_of_path (first_page_rect : string -> result (Q * Q)) (p : string) :
  path (metric_of first_page_rect p) = p.
Proof.
  unfold metric_of, read_metric.
  destruct (first_page_rect p) as [[w h]|]; [|reflexivity]. cbn [bind].
  destruct (if Qltb 0 h then py_truediv w h else Ok 1%Q); reflexivity.
Qed.

Lemma get_pdf_metrics_paths (first_page_rect : string -> result (Q * Q))
    (file_paths : list string) :
  List.length (get_pdf_metrics first_page_rect file_paths)
  = List.length file_paths
  /\ map path (get_pdf_metrics first_page_rect file_paths) = file_paths.
Proof.
  rewrite get_pdf_metrics_map. split; [apply length_map|].
  rewrite map_map. rewrite <- (map_id file_paths) at 2.
  apply map_ext, metric_of_path.
Qed.

(** A path whose document cannot be read gets the fallback metric, and a
    page of non-positive height the ratio 1. *)
Lemma metric_of_unreadable (first_page_rect : string -> result (Q * Q))
    (p : string) (e : exn) :
  first_page_rect p = Raise e ->
  metric_of first_page_rect p = fallback_metric p.
Proof. unfold metric_of, read_metric. now intros ->. Qed.

Lemma metric_of_readable (first_page_rect : string -> result (Q * Q))
    (p : string) (w h : Q) :
  first_page_rect p = Ok (w, h) ->
  metric_of first_page_rect p
  = {| width := w; height := h;
       ratio := if Qltb 0 h then (w / h)%Q else 1%Q; path := p |}.
Proof.
  unfold metric_of, read_metric. intros ->. cbn [bind].
  destruct (Qltb 0 h) eqn:E; [|reflexivity].
  rewrite py_truediv_ok; [reflexivity|].
  apply Qltb_spec in E. intros Hz. rewrite Hz in E. discriminate E.
Qed.

(** ** The composition: when the layout phase returns *)

Lemma page_blocks_indices (g : PanelGenerator) (pa : Z -> string)
    (structure : LayoutStructure) :
  forall heights y,
    List.length heights = List.length structure ->
    map index (List.concat (page_blocks g pa y (combine structure heights)))
    = List.concat structure.
Proof.
  induction structure as [|row st IH]; intros heights y Hlen.
  - reflexivity.
  - destruct heights as [|h hs]; [discriminate|].
    cbn [combine page_blocks List.concat].
    rewrite map_app, row_panels_index, IH; [reflexivity|].
    cbn [List.length] in Hlen. lia.
Qed.

Lemma row_panels_paths (pa : Z -> string) (s w h y : Q) (row : list Z) :
  forall x c,
    In c (row_panels pa s w h y x row) -> cfg_path c = pa (index c).
Proof.
  induction row as [|i row IH]; intros x c H; [destruct H|].
  destruct H as [<- | H]; [reflexivity | eapply IH, H].
Qed.

Lemma page_blocks_paths (g : PanelGenerator) (pa : Z -> string)
    (rows : list (list Z * Q)) :
  forall y c,
    In c (List.concat (page_blocks g pa y rows)) -> cfg_path c = pa (index c).
Proof.
  induction rows as [|[row h] rows IH]; intros y c H; [destruct H|].
  cbn [page_blocks List.concat] in H. apply in_app_or in H as [H|H].
  - eapply row_panels_paths, H.
  - eapply IH, H.
Qed.

Lemma py_getitem_nth {A : Type} (l : list A) (n : nat) (a : A) :
  nth_error l n = Some a -> py_getitem l (Z.of_nat n) = Ok a.
Proof.
  intros H. unfold py_getitem.
  assert (Hn : (n < List.length l)%nat)
    by (apply nth_error_Some; congruence).
  destruct (Z.ltb_spec (Z.of_nat n) 0); [lia|].
  destruct (Z.leb_spec 0 (Z.of_nat n)); [|lia].
  destruct (Z.ltb_spec (Z.of_nat n) (len l)); [|unfold len in *; lia].
  cbn [andb]. now rewrite Nat2Z.id, H.
Qed.

(** Whenever the layout phase of [generate] returns, its panels are the
    inputs [0 .. N-1], each exactly once and in order. *)
Lemma generate_layout_indices (first_page_rect : string -> result (Q * Q))
    (g : PanelGenerator) (layout_str : str) (input_files : list string)
    (page : PageResult) :
  generate_layout first_page_rect g layout_str input_files = Ok page ->
  map index (panels page) = py_range 0 (len input_files).
Proof.
  unfold generate_layout.
  assert (HN : 0 <= len input_files) by (unfold len; lia).
  destruct (parse_layout_structure layout_str (len input_files))
    as [structure|] eqn:Ep; [|discriminate].
  pose proof (parse_layout_structure_concat layout_str _ structure HN Ep)
    as Hc.
  cbn [bind]. intros Hcalc.
  destruct (row_ideal_heights g structure
              (get_pdf_metrics first_page_rect input_files))
    as [ideal|e] eqn:Ei.
  - destruct (calculate_layout_spec g structure _ ideal Ei)
      as (actual & _ & Hlen & Ec).
    rewrite Ec in Hcalc. injection Hcalc as <-. cbn [panels].
    now rewrite page_blocks_indices.
  - unfold calculate_layout in Hcalc. rewrite Ei in Hcalc. discriminate Hcalc.
Qed.

(** Every placement carries the path of the metric of its index. *)
Lemma generate_layout_paths (first_page_rect : string -> result (Q * Q))
    (g : PanelGenerator) (layout_str : str) (input_files : list string)
    (page : PageResult) :
  generate_layout first_page_rect g layout_str input_files = Ok page ->
  forall c, In c (panels page) ->
            cfg_path c
            = path_at (get_pdf_metrics first_page_rect input_files) (index c).
Proof.
  unfold generate_layout.
  destruct (parse_layout_structure layout_str (len input_files))
    as [structure|] eqn:Ep; [|discriminate].
  cbn [bind]. intros Hcalc.
  destruct (row_ideal_heights g structure
              (get_pdf_metrics first_page_rect input_files))
    as [ideal|e] eqn:Ei.
  - destruct (calculate_layout_spec g structure _ ideal Ei)
      as (actual & _ & _ & Ec).
    rewrite Ec in Hcalc. injection Hcalc as <-. cbn [panels].
    intros c Hc. eapply page_blocks_paths, Hc.
  - unfold calculate_layout in Hcalc. rewrite Ei in Hcalc. discriminate Hcalc.
Qed.



(** ** The composition: divisions by zero *)

Lemma empty_row_raises (g : PanelGenerator) (rest : LayoutStructure)
    (metrics : list Metric) :
  calculate_layout g ([] :: rest) metrics = Raise ZeroDivisionError.
Proof. reflexivity. Qed.

Lemma simple_form_zero (N : Z) :
  (0 <= N)%Z ->
  placed_structure (py_str "0") N = Ok [[]]
  /\ parse_layout_structure (py_str "0") N
     = Ok ([] :: (if (0 <? N)%Z then [py_range 0 N] else [])).
Proof.
  intros HN.
  assert (Hp : placed_structure (py_str "0") N = Ok [[]]).
  { change (placed_structure (py_str "0") N)
      with (Ok [py_range 0 (Z.min 0 N)]).
    rewrite py_range_nil by lia. reflexivity. }
  split; [exact Hp|].
  unfold parse_layout_structure. rewrite Hp. cbn [bind]. unfold append_missing.
  change (py_sum_Z (map len [[]])) with 0%Z.
  destruct (0 <? N)%Z; reflexivity.
Qed.

Lemma generate_layout_zero_raises
    (first_page_rect : string -> result (Q * Q)) (g : PanelGenerator)
    (input_files : list string) :
  generate_layout first_page_rect g (py_str "0") input_files
  = Raise ZeroDivisionError.
Proof.
  assert (HN : (0 <= len input_files)%Z) by (unfold len; lia).
  unfold generate_layout. rewrite (proj2 (simple_form_zero _ HN)).
  cbn [bind]. apply empty_row_raises.
Qed.

(** C2, evaluated.  The simple form appends its row even when it is empty
    (the other two forms skip empty rows): for the descriptor ["0"] the
    structure starts with an empty row, the width of its panels is a
    division by the panel count 0, and [calculate_layout], hence the run,
    ends with [ZeroDivisionError], whatever the inputs are. *)
Theorem simple_form_zero_count_raises
    (first_page_rect : string -> result (Q * Q)) (g : PanelGenerator)
    (input_files : list string) :
  placed_structure (py_str "0") (len input_files) = Ok [[]]
  /\ (exists rest,
        parse_layout_structure (py_str "0") (len input_files) = Ok ([] :: rest)
        /\ forall metrics,
             calculate_layout g ([] :: rest) metrics
             = Raise ZeroDivisionError)
  /\ generate_layout first_page_rect g (py_str "0") input_files
     = Raise ZeroDivisionError
  /\ parse_layout_structure (py_str "0") 3 = Ok [[]; [0; 1; 2]]
  /\ parse_layout_structure (py_str "") 2 = Ok [[]; [0; 1]].
Proof.
  assert (HN : (0 <= len input_files)%Z) by (unfold len; lia).
  destruct (simple_form_zero _ HN) as [Hp Hs].
  split; [exact Hp|]. split.
  - eexists. split; [exact Hs|]. intros metrics. apply empty_row_raises.
  - split; [apply generate_layout_zero_raises | split; reflexivity].
Qed.

(** A page of width zero and positive height gets the ratio 0 from the
    extractor, and the height of its panel is a division by zero. *)
Lemma zero_width_page_raises (g : PanelGenerator) (p : string) :
  ratio (metric_of (fun _ => Ok (0, 10)%Q) p) = (0 / 10)%Q
  /\ generate_layout (fun _ => Ok (0, 10)%Q) g (py_str "1") [p]
     = Raise ZeroDivisionError.
Proof. split; reflexivity. Qed.

(** ** The composition: an input that cannot be read *)




(** * Further properties of the parser *)

Lemma placed_structure_simple (layout_str : str) (N : Z) :
  contains (ord "x") (lower layout_str) = false ->
  contains (ord ",") layout_str = false ->
  contains (ord "-") layout_str = false ->
  placed_structure layout_str N
  = if token_accepted layout_str
    then Ok [py_range 0 (Z.min (count_of_token layout_str) N)]
    else Raise ValueError.
Proof.
  intros Hx Hc Hd. unfold placed_structure. rewrite Hx, Hc, Hd.
  apply simple_form_spec.
Qed.

(** X1.  A descriptor without [x], [X], [,] and [-] that is not all
    digits, or is all digits that [int] converts, gives one row of the
    first [count] inputs, [count] being its value when it is all digits
    and its length otherwise, followed by a second row of the remaining
    inputs when there are more than [count]; with [count >= N] it is the
    single row of all inputs. *)
Theorem simple_form_rows (layout_str : str) (N : Z) :
  contains (ord "x") (lower layout_str) = false ->
  contains (ord ",") layout_str = false ->
  contains (ord "-") layout_str = false ->
  (isdigit layout_str = true -> int_accepts layout_str = true) ->
  0 <= N ->
  let count := count_of_token layout_str in
  parse_layout_structure layout_str N
  = Ok (if count <? N then [py_range 0 count; py_range count N]
        else [py_range 0 N]).
Proof.
  intros Hx Hc Hd Hint HN count.
  pose proof (count_of_token_nonneg layout_str) as Hcount. fold count in Hcount.
  assert (Hacc : token_accepted layout_str = true).
  { unfold token_accepted. destruct (isdigit layout_str); [|reflexivity].
    now rewrite Hint. }
  unfold parse_layout_structure.
  rewrite (placed_structure_simple _ _ Hx Hc Hd), Hacc. fold count. cbn [bind].
  unfold append_missing. cbn [map]. rewrite py_sum_Z_cons.
  change (py_sum_Z []) with 0. rewrite py_range_len, Z.add_0_r, Z.sub_0_r by lia.
  destruct (Z.ltb_spec count N) as [Hlt|Hge].
  - destruct (Z.ltb_spec (Z.min count N) N); [|lia].
    cbn [app]. now replace (Z.min count N) with count by lia.
  - destruct (Z.ltb_spec (Z.min count N) N); [lia|].
    now replace (Z.min count N) with N by lia.
Qed.

Lemma simple_form_rows_witness :
  parse_layout_structure (py_str "3") 5 = Ok [[0; 1; 2]; [3; 4]]
  /\ parse_layout_structure (py_str "ABCD") 2 = Ok [[0; 1]]
  /\ parse_layout_structure [1635] 5 = Ok [[0; 1; 2]; [3; 4]]
  /\ parse_layout_structure [945; 946] 3 = Ok [[0; 1]; [2]].
Proof.
  split; [|split; [|split]].
  - apply (simple_form_rows (py_str "3") 5); try reflexivity; lia.
  - apply (simple_form_rows (py_str "ABCD") 2); try reflexivity;
      [discriminate | lia].
  - apply (simple_form_rows [1635] 5); try reflexivity; lia.
  - apply (simple_form_rows [945; 946] 3); try reflexivity;
      [discriminate | lia].
Defined.

Lemma append_missing_nil (N : Z) :
  append_missing [] N = if 0 <? N then [py_range 0 N] else [].
Proof. reflexivity. Qed.

(** X2.  A descriptor that contains [x] or [X] but is not two integers
    around a single [x] places nothing by itself: all inputs go to one
    row (and the structure is empty when there is no input).  Commas and
    dashes in such a descriptor are not looked at. *)
Theorem grid_form_unparsable_one_row (layout_str : str) (N : Z) :
  contains (ord "x") (lower layout_str) = true ->
  (forall a b cols rows,
      split (ord "x") (lower layout_str) = [a; b] ->
      py_int a = Ok cols -> py_int b = Ok rows -> False) ->
  placed_structure layout_str N = Ok []
  /\ parse_layout_structure layout_str N
     = Ok (if 0 <? N then [py_range 0 N] else []).
Proof.
  intros Hx Hbad.
  assert (Hp : placed_structure layout_str N = Ok []).
  { unfold placed_structure. rewrite Hx.
    destruct (grid_form layout_str N) as [st|e] eqn:E.
    - exfalso. unfold grid_form in E.
      destruct (split (ord "x") (lower layout_str)) as [|a [|b [|c l]]];
        try discriminate E.
      destruct (py_int a) as [cols|] eqn:Ea; [|discriminate E].
      destruct (py_int b) as [rows|] eqn:Eb; [|discriminate E].
      exact (Hbad a b cols rows eq_refl Ea Eb).
    - now rewrite (grid_form_raises _ _ _ E). }
  split; [exact Hp|].
  unfold parse_layout_structure. rewrite Hp. cbn [bind].
  now rewrite append_missing_nil.
Qed.

Lemma grid_form_unparsable_one_row_witness :
  parse_layout_structure (py_str "2x2,1") 3 = Ok [[0; 1; 2]]
  /\ parse_layout_structure (py_str "AXB") 2 = Ok [[0; 1]]
  /\ parse_layout_structure (py_str "2x2x2") 0 = Ok []
  /\ parse_layout_structure [50; 120; 178] 3 = Ok [[0; 1; 2]].
Proof.
  split; [|split; [|split]].
  - apply (grid_form_unparsable_one_row (py_str "2x2,1") 3); [reflexivity|].
    intros a b cols rows H. injection H as <- <-. discriminate.
  - apply (grid_form_unparsable_one_row (py_str "AXB") 2); [reflexivity|].
    intros a b cols rows H. injection H as <- <-. discriminate.
  - apply (grid_form_unparsable_one_row (py_str "2x2x2") 0); [reflexivity|].
    intros a b cols rows H. discriminate H.
  - apply (grid_form_unparsable_one_row [50; 120; 178] 3); [reflexivity|].
    intros a b cols rows H. injection H as <- <-. discriminate.
Defined.

(** A grid whose numbers are written with digits or white space beyond
    ASCII is a grid all the same. *)
Example grid_form_unicode :
  parse_layout_structure [65298; 120; 65298] 4 = Ok [[0; 1]; [2; 3]]
  /\ parse_layout_structure [50; 160; 120; 50] 4 = Ok [[0; 1]; [2; 3]].
Proof. split; reflexivity. Qed.

Lemma rows_loop_nonempty (N : Z) (counts : list Z) :
  forall structure idx,
    Forall (fun r => r <> []) structure ->
    Forall (fun r => r <> [])
           (fst (fold_left (row_step N) counts (structure, idx))).
Proof.
  induction counts as [|c counts IH]; intros structure idx H; [exact H|].
  cbn [fold_left]. rewrite row_step_spec. apply IH.
  apply Forall_app. split; [exact H|].
  cbn [filter]. destruct (py_range idx _) eqn:E; cbn [nonempty];
    constructor; [discriminate | constructor].
Qed.

(** The grid form and the row-counts form place no empty row. *)
Lemma placed_structure_nonempty (layout_str : str) (N : Z)
    (placed : LayoutStructure) :
  contains (ord "x") (lower layout_str) = true
  \/ contains (ord ",") layout_str || contains (ord "-") layout_str = true ->
  placed_structure layout_str N = Ok placed ->
  Forall (fun r => r <> []) placed.
Proof.
  unfold placed_structure. intros Hform Hp.
  destruct (contains (ord "x") (lower layout_str)).
  - destruct (grid_form layout_str N) as [st|e] eqn:E.
    + injection Hp as <-. unfold grid_form in E.
      destruct (split (ord "x") (lower layout_str)) as [|a [|b [|c l]]];
        try discriminate E.
      destruct (py_int a) as [cols|]; [|discriminate E].
      destruct (py_int b) as [rows|]; [|discriminate E].
      cbn [bind] in E. injection E as <-. rewrite fold_left_const.
      apply rows_loop_nonempty. constructor.
    + rewrite (grid_form_raises _ _ _ E) in Hp. injection Hp as <-.
      constructor.
  - destruct Hform as [Hf|Hf]; [discriminate Hf|]. rewrite Hf in Hp.
    unfold row_counts_form in Hp. rewrite row_counts_spec in Hp.
    destruct (forallb token_accepted _); cbn [bind] in Hp;
      injection Hp as <-; [|constructor].
    apply rows_loop_nonempty. constructor.
Qed.

Lemma append_missing_nonempty (placed : LayoutStructure) (N : Z) :
  Forall (fun r => r <> []) placed ->
  Forall (fun r => r <> []) (append_missing placed N).
Proof.
  intros H. unfold append_missing.
  destruct (Z.ltb_spec (py_sum_Z (map len placed)) N) as [Hlt|Hge];
    [|exact H].
  apply Forall_app. split; [exact H|]. constructor; [|constructor].
  rewrite py_range_cons by lia. discriminate.
Qed.

(** With a comma, a dash or an [x] in the descriptor the structure has no
    empty row. *)
Lemma parse_layout_structure_nonempty (layout_str : str) (N : Z)
    (structure : LayoutStructure) :
  contains (ord "x") (lower layout_str) = true
  \/ contains (ord ",") layout_str || contains (ord "-") layout_str = true ->
  parse_layout_structure layout_str N = Ok structure ->
  Forall (fun r => r <> []) structure.
Proof.
  intros Hform. unfold parse_layout_structure.
  destruct (placed_structure layout_str N) as [placed|] eqn:Ep;
    [|discriminate].
  cbn [bind]. intros H. injection H as <-.
  apply append_missing_nonempty.
  exact (placed_structure_nonempty _ _ _ Hform Ep).
Qed.

(** What a returned structure of the simple form is. *)
Lemma parse_simple_inv (layout_str : str) (N : Z)
    (structure : LayoutStructure) :
  contains (ord "x") (lower layout_str) = false ->
  contains (ord ",") layout_str = false ->
  contains (ord "-") layout_str = false ->
  parse_layout_structure layout_str N = Ok structure ->
  structure
  = append_missing [py_range 0 (Z.min (count_of_token layout_str) N)] N.
Proof.
  intros Hx Hc Hd. unfold parse_layout_structure.
  rewrite (placed_structure_simple _ _ Hx Hc Hd).
  destruct (token_accepted layout_str); [|discriminate].
  cbn [bind]. intros H. now injection H as <-.
Qed.

(** X3.  A returned structure has an empty row exactly when the
    descriptor is of the simple form (no [x], [X], [,], [-]) and denotes
    the count 0 or there is no input: the grid and the row-counts form
    skip empty rows, the simple form appends its row as it is. *)
Theorem empty_row_iff_simple_form_zero (layout_str : str) (N : Z)
    (structure : LayoutStructure) :
  0 <= N ->
  parse_layout_structure layout_str N = Ok structure ->
  (Exists (fun r => r = []) structure
   <-> contains (ord "x") (lower layout_str) = false
       /\ contains (ord ",") layout_str = false
       /\ contains (ord "-") layout_str = false
       /\ (count_of_token layout_str = 0 \/ N = 0)).
Proof.
  intros HN Hparse.
  destruct (contains (ord "x") (lower layout_str)) eqn:Hx.
  { split; [|intros [H _]; discriminate H].
    intros Hex. exfalso.
    pose proof (parse_layout_structure_nonempty _ _ _ (or_introl Hx) Hparse)
      as Hne.
    apply Exists_exists in Hex as (r & Hin & ->).
    exact (proj1 (Forall_forall _ _) Hne [] Hin eq_refl). }
  destruct (contains (ord ",") layout_str || contains (ord "-") layout_str)
    eqn:Hsep.
  { split.
    - intros Hex. exfalso.
      assert (Hform : contains (ord "x") (lower layout_str) = true
                      \/ contains (ord ",") layout_str
                         || contains (ord "-") layout_str = true)
        by (right; exact Hsep).
      pose proof (parse_layout_structure_nonempty _ _ _ Hform Hparse) as Hne.
      apply Exists_exists in Hex as (r & Hin & ->).
      exact (proj1 (Forall_forall _ _) Hne [] Hin eq_refl).
    - intros (_ & Hc & Hd & _). rewrite Hc, Hd in Hsep. discriminate Hsep. }
  apply orb_false_iff in Hsep as [Hc Hd].
  pose proof (count_of_token_nonneg layout_str) as Hcount.
  rewrite (parse_simple_inv _ _ _ Hx Hc Hd Hparse).
  set (count := count_of_token layout_str) in *.
  assert (Hrest : Forall (fun r => r <> [])
                    (if py_sum_Z (map len [py_range 0 (Z.min count N)]) <? N
                     then [py_range (py_sum_Z
                                       (map len [py_range 0 (Z.min count N)]))
                                    N]
                     else [])).
  { destruct (Z.ltb_spec (py_sum_Z (map len [py_range 0 (Z.min count N)])) N);
      constructor; [|constructor].
    rewrite py_range_cons by lia. discriminate. }
  assert (Hshape : append_missing [py_range 0 (Z.min count N)] N
                   = py_range 0 (Z.min count N)
                     :: (if py_sum_Z (map len [py_range 0 (Z.min count N)])
                            <? N
                         then [py_range
                                 (py_sum_Z
                                    (map len [py_range 0 (Z.min count N)])) N]
                         else [])).
  { unfold append_missing. now destruct (_ <? N). }
  rewrite Hshape. split.
  - intros Hex. split; [reflexivity|]. split; [exact Hc|]. split; [exact Hd|].
    apply Exists_cons in Hex as [Hhead|Htail].
    + destruct (Z.eq_dec count 0) as [|Hc0]; [now left|].
      destruct (Z.eq_dec N 0) as [|HN0]; [now right|].
      rewrite py_range_cons in Hhead by lia. discriminate Hhead.
    + exfalso. apply Exists_exists in Htail as (r & Hin & ->).
      exact (proj1 (Forall_forall _ _) Hrest [] Hin eq_refl).
  - intros (_ & _ & _ & Hzero). left. apply py_range_nil. lia.
Qed.

Lemma empty_row_iff_simple_form_zero_witness :
  (Exists (fun r : list Z => r = []) [[]; [0; 1]]
   <-> contains (ord "x") (lower (py_str "0")) = false
       /\ contains (ord ",") (py_str "0") = false
       /\ contains (ord "-") (py_str "0") = false
       /\ (count_of_token (py_str "0") = 0 \/ 2 = 0))
  /\ (Exists (fun r : list Z => r = []) [[]; [0; 1]]
      <-> contains (ord "x") (lower [1632]) = false
          /\ contains (ord ",") [1632] = false
          /\ contains (ord "-") [1632] = false
          /\ (count_of_token [1632] = 0 \/ 2 = 0)).
Proof.
  split.
  - apply (empty_row_iff_simple_form_zero (py_str "0") 2 [[]; [0; 1]]);
      [lia | reflexivity].
  - apply (empty_row_iff_simple_form_zero [1632] 2 [[]; [0; 1]]);
      [lia | reflexivity].
Defined.

(** ** Upper and lower case *)

Lemma lower_char_facts (c : Z) :
  is_upper (lower_char c) = false
  /\ (lower_char c =? ord ",") = (c =? ord ",")
  /\ (lower_char c =? ord "-") = (c =? ord "-")
  /\ is_digit (lower_char c) = is_digit c
  /\ (is_digit c = true -> lower_char c = c).
Proof.
  change (ord ",") with 44. change (ord "-") with 45.
  unfold lower_char, is_upper.
  destruct (Z.leb_spec 65 c) as [H65|H65]; cbn [andb].
  - destruct (Z.leb_spec c 90) as [H90|H90].
    + assert (Hd : is_digit c = false).
      { destruct (is_digit c) eqn:E; [|reflexivity].
        destruct (is_digit_facts c E) as [Hr _]. lia. }
      assert (Hd' : is_digit (c + 32) = false).
      { destruct (is_digit (c + 32)) eqn:E; [|reflexivity].
        destruct (is_digit_facts _ E) as [Hr _]. lia. }
      rewrite Hd, Hd'.
      destruct (Z.leb_spec 65 (c + 32)); [|lia].
      destruct (Z.leb_spec (c + 32) 90); [lia|].
      repeat split; try discriminate.
      * destruct (Z.eqb_spec (c + 32) 44), (Z.eqb_spec c 44);
          lia || reflexivity.
      * destruct (Z.eqb_spec (c + 32) 45), (Z.eqb_spec c 45);
          lia || reflexivity.
    + destruct (Z.leb_spec 65 c); [|lia]. destruct (Z.leb_spec c 90); [lia|].
      repeat split.
  - destruct (Z.leb_spec 65 c); [lia|]. repeat split.
Qed.

Lemma lower_idempotent (s : str) : lower (lower s) = lower s.
Proof.
  unfold lower. rewrite map_map. apply map_ext. intros c.
  unfold lower_char at 1. now rewrite (proj1 (lower_char_facts c)).
Qed.

Lemma lower_len (s : str) : len (lower s) = len s.
Proof. unfold len, lower. now rewrite length_map. Qed.

Lemma lower_isdigit (s : str) : isdigit (lower s) = isdigit s.
Proof.
  assert (H : forallb is_digit (lower s) = forallb is_digit s).
  { induction s as [|c s IH]; [reflexivity|].
    unfold lower in *. cbn [map forallb]. rewrite IH. f_equal.
    exact (proj1 (proj2 (proj2 (proj2 (lower_char_facts c))))). }
  destruct s as [|c s]; [reflexivity | exact H].
Qed.

Lemma lower_digits (s : str) : forallb is_digit s = true -> lower s = s.
Proof.
  induction s as [|c s IH]; [reflexivity|]. cbn [forallb].
  intros H. apply andb_true_iff in H as [Hc Hs].
  unfold lower in *. cbn [map]. rewrite (IH Hs).
  now rewrite (proj2 (proj2 (proj2 (proj2 (lower_char_facts c)))) Hc).
Qed.

Lemma lower_token_count (x : str) : token_count (lower x) = token_count x.
Proof.
  unfold token_count. rewrite lower_isdigit.
  destruct (isdigit x) eqn:E.
  - rewrite lower_digits; [reflexivity|].
    destruct x; [discriminate E | exact E].
  - now rewrite lower_len.
Qed.

Lemma lower_contains_sep (sep : Z) (s : str) :
  sep = ord "," \/ sep = ord "-" ->
  contains sep (lower s) = contains sep s.
Proof.
  intros Hsep. induction s as [|c s IH]; [reflexivity|].
  unfold lower in *. cbn [map contains]. rewrite IH.
  destruct (lower_char_facts c) as (_ & Hc & Hd & _).
  destruct Hsep as [-> | ->]; [now rewrite Hc | now rewrite Hd].
Qed.

Lemma lower_split_sep (sep : Z) (s : str) :
  sep = ord "," \/ sep = ord "-" ->
  split sep (lower s) = map lower (split sep s).
Proof.
  intros Hsep. induction s as [|c s IH]; [reflexivity|].
  unfold lower in *. cbn [map split]. rewrite IH.
  assert (He : (lower_char c =? sep) = (c =? sep)).
  { destruct (lower_char_facts c) as (_ & Hc & Hd & _).
    destruct Hsep as [-> | ->]; assumption. }
  rewrite He. destruct (c =? sep); [reflexivity|].
  destruct (split sep s) as [|tok toks]; reflexivity.
Qed.

(** X4.  The parser does not tell upper case from lower case: a
    descriptor and the descriptor with its letters [A] to [Z] lowered
    give the same structure, or both raise, in all three forms. *)
Theorem parse_layout_structure_case_insensitive (layout_str : str) (N : Z) :
  parse_layout_structure (lower layout_str) N
  = parse_layout_structure layout_str N.
Proof.
  unfold parse_layout_structure. f_equal. unfold placed_structure.
  rewrite lower_idempotent.
  rewrite (lower_contains_sep (ord ",") layout_str) by (left; reflexivity).
  rewrite (lower_contains_sep (ord "-") layout_str) by (right; reflexivity).
  assert (Hg : grid_form (lower layout_str) N = grid_form layout_str N)
    by (unfold grid_form; now rewrite lower_idempotent).
  assert (Hr : row_counts_form (lower layout_str) N
               = row_counts_form layout_str N).
  { unfold row_counts_form.
    rewrite (lower_contains_sep (ord ",") layout_str) by (left; reflexivity).
    rewrite lower_split_sep
      by (destruct (contains (ord ",") layout_str); auto).
    f_equal. set (toks := split _ layout_str). clearbody toks.
    induction toks as [|x toks IH]; [reflexivity|].
    cbn [map mapM]. now rewrite lower_token_count, IH. }
  assert (Hs : simple_form (lower layout_str) N = simple_form layout_str N).
  { unfold simple_form. rewrite lower_isdigit, lower_len.
    destruct (isdigit layout_str) eqn:E; [|reflexivity].
    rewrite lower_digits; [reflexivity|].
    destruct layout_str; [discriminate E | exact E]. }
  now rewrite Hg, Hr, Hs.
Qed.

(** ** Rows of the requested sizes *)

Lemma py_sum_Z_nonneg (counts : list Z) :
  Forall (fun c => 0 < c) counts -> 0 <= py_sum_Z counts.
Proof.
  induction 1 as [|c counts Hc _ IH]; [reflexivity|].
  rewrite py_sum_Z_cons. lia.
Qed.

(** With positive counts that the inputs suffice for, no row is cut and
    none is left out. *)
Lemma rows_from_full (N : Z) (counts : list Z) :
  Forall (fun c => 0 < c) counts ->
  forall start,
    0 <= start -> start + py_sum_Z counts <= N ->
    filter nonempty (rows_from start counts N) = rows_from start counts N
    /\ map len (rows_from start counts N) = counts.
Proof.
  induction 1 as [|c counts Hc Hall IH]; intros start Hs Hsum;
    [split; reflexivity|].
  rewrite py_sum_Z_cons in Hsum.
  pose proof (py_sum_Z_nonneg counts Hall) as Hnn.
  destruct (IH (start + c)) as [Hf Hl]; [lia | lia |].
  cbn [rows_from filter map].
  replace (Z.min start N) with start by lia.
  replace (Z.min (start + c) N) with (start + c) by lia.
  rewrite py_range_nonempty. destruct (Z.ltb_spec start (start + c)); [|lia].
  rewrite Hf, Hl, py_range_len by lia. split; f_equal. lia.
Qed.

Lemma placed_structure_grid (layout_str a b : str) (cols rows N : Z) :
  split (ord "x") (lower layout_str) = [a; b] ->
  py_int a = Ok cols -> py_int b = Ok rows ->
  0 <= cols -> 0 <= N ->
  placed_structure layout_str N = Ok (grid_rows cols rows N).
Proof.
  intros Hs Ha Hb Hc HN.
  assert (Hx : contains (ord "x") (lower layout_str) = true).
  { destruct (contains (ord "x") (lower layout_str)) eqn:E; [reflexivity|].
    rewrite (split_without_sep _ _ E) in Hs. discriminate Hs. }
  unfold placed_structure, grid_form. rewrite Hx, Hs, Ha, Hb. cbn [bind].
  now rewrite grid_loop_spec.
Qed.

Lemma append_missing_total (placed : LayoutStructure) (N : Z) :
  append_missing placed N
  = placed ++ (if py_sum_Z (map len placed) <? N
               then [py_range (py_sum_Z (map len placed)) N] else []).
Proof.
  unfold append_missing. destruct (_ <? N); [reflexivity|].
  now rewrite app_nil_r.
Qed.

(** X5.  In the row-counts form, when [int] converts every all-digits
    token, every token denotes a positive count and there are at least as
    many inputs as the counts add up to, the placed rows have exactly the
    sizes the tokens denote, one row per token in token order; the inputs
    beyond the sum make up one more row. *)
Theorem row_counts_exact_sizes (layout_str : str) (N : Z) :
  contains (ord "x") (lower layout_str) = false ->
  contains (ord ",") layout_str || contains (ord "-") layout_str = true ->
  let sep := if contains (ord ",") layout_str then ord "," else ord "-" in
  let counts := map count_of_token (split sep layout_str) in
  forallb token_accepted (split sep layout_str) = true ->
  Forall (fun c => 0 < c) counts ->
  py_sum_Z counts <= N ->
  exists placed,
    placed_structure layout_str N = Ok placed
    /\ map len placed = counts
    /\ parse_layout_structure layout_str N
       = Ok (placed ++ (if py_sum_Z counts <? N
                        then [py_range (py_sum_Z counts) N] else [])).
Proof.
  intros Hx Hsep sep counts Hacc Hpos Hsum.
  pose proof (py_sum_Z_nonneg counts Hpos) as Hnn.
  destruct (rows_from_full N counts Hpos 0) as [Hf Hl]; [lia | lia |].
  exists (rows_from 0 counts N).
  assert (Hp : placed_structure layout_str N = Ok (rows_from 0 counts N)).
  { rewrite (placed_structure_row_counts _ _ Hx Hsep) by lia.
    cbv zeta. fold sep. rewrite Hacc. fold counts.
    unfold rows_by_counts. now rewrite Hf. }
  split; [exact Hp|]. split; [exact Hl|].
  unfold parse_layout_structure. rewrite Hp. cbn [bind].
  now rewrite append_missing_total, Hl.
Qed.

Lemma row_counts_exact_sizes_witness :
  exists placed,
    placed_structure (py_str "AB-C-3") 7 = Ok placed
    /\ map len placed = [2; 1; 3]
    /\ parse_layout_structure (py_str "AB-C-3") 7 = Ok (placed ++ [[6]]).
Proof.
  destruct (row_counts_exact_sizes (py_str "AB-C-3") 7)
    as (placed & Hp & Hl & Hs).
  - reflexivity.
  - reflexivity.
  - reflexivity.
  - repeat constructor.
  - vm_compute. discriminate.
  - exists placed. split; [exact Hp|]. split; [exact Hl | exact Hs].
Defined.

(** X6.  In the grid form with a positive number of columns and at least
    [cols * rows] inputs the grid is full: exactly [rows] rows of [cols]
    panels each; the inputs beyond [cols * rows] make up one more row. *)
Theorem grid_form_full_grid (layout_str a b : str) (cols rows N : Z) :
  split (ord "x") (lower layout_str) = [a; b] ->
  py_int a = Ok cols -> py_int b = Ok rows ->
  0 < cols -> 0 <= rows -> cols * rows <= N ->
  exists placed,
    placed_structure layout_str N = Ok placed
    /\ len placed = rows
    /\ Forall (fun row => len row = cols) placed
    /\ parse_layout_structure layout_str N
       = Ok (placed ++ (if cols * rows <? N
                        then [py_range (cols * rows) N] else [])).
Proof.
  intros Hs Ha Hb Hc Hr Hfit.
  set (counts := map (fun _ : Z => cols) (py_range 0 rows)).
  assert (Hpos : Forall (fun c => 0 < c) counts).
  { apply Forall_forall. intros c Hin. apply in_map_iff in Hin.
    destruct Hin as [x [<- _]]. exact Hc. }
  assert (Hsum : py_sum_Z counts = cols * rows).
  { unfold counts. rewrite py_sum_Z_const, py_range_len; lia. }
  destruct (rows_from_full N counts Hpos 0) as [Hf Hl]; [lia | lia |].
  pose proof (rows_from_grid cols N (Z.to_nat rows) 0) as Hg.
  replace (0 + Z.of_nat (Z.to_nat rows)) with rows in Hg by lia.
  change (0 * cols) with 0 in Hg. fold counts in Hg.
  assert (Hp : placed_structure layout_str N = Ok (rows_from 0 counts N)).
  { rewrite (placed_structure_grid _ a b cols rows N Hs Ha Hb) by lia.
    unfold grid_rows. now rewrite <- Hg, Hf. }
  exists (rows_from 0 counts N).
  split; [exact Hp|]. split.
  { unfold len. rewrite <- (length_map len), Hl. unfold counts.
    rewrite length_map, py_range_length. lia. }
  split.
  { apply Forall_forall. intros row Hin.
    apply (in_map len) in Hin. rewrite Hl in Hin.
    apply in_map_iff in Hin as (x & Hx & _). now rewrite <- Hx. }
  unfold parse_layout_structure. rewrite Hp. cbn [bind].
  now rewrite append_missing_total, Hl, Hsum.
Qed.

Lemma grid_form_full_grid_witness :
  exists placed,
    placed_structure (py_str "3x2") 7 = Ok placed
    /\ len placed = 2
    /\ Forall (fun row => len row = 3) placed
    /\ parse_layout_structure (py_str "3x2") 7 = Ok (placed ++ [[6]]).
Proof.
  destruct (grid_form_full_grid (py_str "3x2") (py_str "3") (py_str "2") 3 2 7)
    as (placed & Hp & Hn & Hrows & Hs); try reflexivity; try lia.
  exists placed. split; [exact Hp|]. split; [exact Hn|].
  split; [exact Hrows | exact Hs].
Defined.

(** * Further properties of the geometry calculator *)

Local Open Scope Q_scope.

Lemma mapM_raise {A B : Type} (f : A -> result B) (l : list A) (e : exn) :
  mapM f l = Raise e -> exists a, In a l /\ f a = Raise e.
Proof.
  induction l as [|a l IH]; [discriminate|]. cbn [mapM].
  destruct (f a) as [b|e'] eqn:Ea; cbn [bind].
  - destruct (mapM f l) as [bs|e'] eqn:El; cbn [bind]; [discriminate|].
    intros H. injection H as ->. destruct (IH eq_refl) as (x & Hin & Hx).
    exists x. split; [now right | exact Hx].
  - intros H. injection H as ->. exists a. split; [now left | exact Ea].
Qed.

Lemma mapM_In {A B : Type} (f : A -> result B) (l : list A) :
  forall bs b, mapM f l = Ok bs -> In b bs -> exists a, In a l /\ f a = Ok b.
Proof.
  induction l as [|a l IH]; intros bs b H Hin.
  - injection H as <-. destruct Hin.
  - apply mapM_cons_inv in H as (b0 & bs' & Hb & H & ->).
    destruct Hin as [<- | Hin].
    + exists a. split; [now left | exact Hb].
    + destruct (IH _ _ H Hin) as (x & Hx & Hfx).
      exists x. split; [now right | exact Hfx].
Qed.

Lemma py_getitem_raise {A : Type} (l : list A) (i : Z) (e : exn) :
  py_getitem l i = Raise e -> e = IndexError /\ ~ valid_index l i.
Proof.
  intros H. split.
  - unfold py_getitem in H.
    destruct (_ && _); [|congruence].
    destruct (nth_error l _); [discriminate | congruence].
  - intros Hv. destruct (py_getitem_valid l i Hv) as (a & Ea & _).
    rewrite Ea in H. discriminate H.
Qed.

Lemma required_height_loop_raise (w : Q) (ms : list Metric) : forall acc e,
  foldM (fun required_height m =>
           h_at_panel_w <- py_truediv w (ratio m) ;;
           Ok (Qmax required_height h_at_panel_w)) ms acc = Raise e ->
  e = ZeroDivisionError /\ exists m, In m ms /\ ratio m == 0.
Proof.
  induction ms as [|m ms IH]; intros acc e H; [discriminate H|].
  cbn [foldM] in H. unfold py_truediv at 1 in H.
  destruct (Qeq_bool (ratio m) 0) eqn:E; cbn [bind] in H.
  - injection H as <-. split; [reflexivity|].
    exists m. split; [now left | now apply Qeq_bool_iff].
  - destruct (IH _ _ H) as (He & m' & Hin & Hm).
    split; [exact He|]. exists m'. split; [now right | exact Hm].
Qed.

(** The exception a row makes the first loop raise, and its cause. *)
Lemma row_ideal_height_raise (g : PanelGenerator) (metrics : list Metric)
    (row : list Z) (e : exn) :
  row_ideal_height g metrics row = Raise e ->
  (e = IndexError /\ exists i, In i row /\ ~ valid_index metrics i)
  \/ (e = ZeroDivisionError
      /\ (row = []
          \/ exists i m, In i row /\ py_getitem metrics i = Ok m
                         /\ ratio m == 0)).
Proof.
  unfold row_ideal_height.
  destruct (mapM (py_getitem metrics) row) as [ms|e'] eqn:Em; cbn [bind].
  - unfold py_truediv at 1.
    destruct (Qeq_bool (inject_Z (len row)) 0) eqn:En; cbn [bind].
    + intros H. injection H as <-. right. split; [reflexivity|]. left.
      apply Qeq_bool_iff in En. destruct row; [reflexivity|].
      exfalso. revert En. apply inject_Z_nonzero, len_nonzero. discriminate.
    + destruct (foldM _ ms 0) as [r|e'] eqn:Ef; cbn [bind]; [discriminate|].
      intros H. injection H as ->.
      apply required_height_loop_raise in Ef as (-> & m & Hin & Hm).
      right. split; [reflexivity|]. right.
      destruct (mapM_In _ _ _ _ Em Hin) as (i & Hi & Hgi).
      now exists i, m.
  - intros H. injection H as ->.
    apply mapM_raise in Em as (i & Hin & Hi).
    apply py_getitem_raise in Hi as [-> Hinv].
    left. split; [reflexivity|]. now exists i.
Qed.

(** X7.  [calculate_layout] returns exactly on the well-formed inputs (no
    empty row, every index within the metrics, no referenced ratio equal
    to zero).  Otherwise it raises [IndexError], and then some index of
    the structure is outside the metrics, or [ZeroDivisionError], and
    then some row is empty or refers to a metric of ratio zero; it raises
    nothing else. *)
Theorem calculate_layout_returns_iff (g : PanelGenerator)
    (structure : LayoutStructure) (metrics : list Metric) :
  ((exists res, calculate_layout g structure metrics = Ok res)
   <-> well_formed structure metrics)
  /\ forall e,
       calculate_layout g structure metrics = Raise e ->
       (e = IndexError
        /\ exists row i, In row structure /\ In i row
                         /\ ~ valid_index metrics i)
       \/ (e = ZeroDivisionError
           /\ exists row, In row structure
                /\ (row = []
                    \/ exists i m, In i row /\ py_getitem metrics i = Ok m
                                   /\ ratio m == 0)).
Proof.
  split; [split|].
  - intros [res Hres].
    destruct (row_ideal_heights g structure metrics) as [ideal|e] eqn:Ei.
    + exact (row_ideal_heights_inv _ _ _ _ Ei).
    + unfold calculate_layout in Hres. rewrite Ei in Hres. discriminate Hres.
  - intros Hwf.
    destruct (row_ideal_heights_spec g structure metrics Hwf)
      as (ideal & Ei & _).
    destruct (calculate_layout_spec g structure metrics ideal Ei)
      as (actual & _ & _ & Ec).
    eexists. exact Ec.
  - intros e He.
    destruct (row_ideal_heights g structure metrics) as [ideal|e'] eqn:Ei.
    + destruct (calculate_layout_spec g structure metrics ideal Ei)
        as (actual & _ & _ & Ec).
      rewrite Ec in He. discriminate He.
    + assert (e' = e)
        by (unfold calculate_layout in He; rewrite Ei in He;
            now injection He).
      subst e'. unfold row_ideal_heights in Ei.
      apply mapM_raise in Ei as (row & Hin & Hrow).
      apply row_ideal_height_raise in Hrow as [[-> (i & Hi & Hv)]|[-> H]].
      * left. split; [reflexivity|]. now exists row, i.
      * right. split; [reflexivity|]. now exists row.
Qed.

Lemma calculate_layout_result (g : PanelGenerator)
    (structure : LayoutStructure) (metrics : list Metric) (res : PageResult) :
  calculate_layout g structure metrics = Ok res ->
  exists ideal actual,
    row_ideal_heights g structure metrics = Ok ideal
    /\ actual_row_heights g structure ideal = Ok actual
    /\ List.length actual = List.length structure
    /\ res = {| page_size := (page_width_mm g * mm,
                              final_page_height g structure ideal);
                panels := List.concat
                            (page_blocks g (path_at metrics) (margin g)
                                         (combine structure actual)) |}.
Proof.
  intros Hres.
  destruct (row_ideal_heights g structure metrics) as [ideal|e] eqn:Ei.
  - destruct (calculate_layout_spec g structure metrics ideal Ei)
      as (actual & Ea & Hlen & Ec).
    exists ideal, actual. rewrite Ec in Hres. injection Hres as <-.
    now repeat split.
  - unfold calculate_layout in Hres. rewrite Ei in Hres. discriminate Hres.
Qed.

(** X8.  When [calculate_layout] returns, it has placed one panel for
    every index occurrence of the structure, in the order of the
    structure (rows from top to bottom, indices from left to right), each
    with the path of the metric of its index; the page is
    [page_width * mm] wide. *)
Theorem calculate_layout_panels_follow_structure (g : PanelGenerator)
    (structure : LayoutStructure) (metrics : list Metric) (res : PageResult) :
  calculate_layout g structure metrics = Ok res ->
  map index (panels res) = List.concat structure
  /\ Forall (fun c => exists m, py_getitem metrics (index c) = Ok m
                                /\ cfg_path c = path m)
            (panels res)
  /\ fst (page_size res) = page_width_mm g * mm.
Proof.
  intros Hres.
  destruct (calculate_layout_result _ _ _ _ Hres)
    as (ideal & actual & Ei & _ & Hlen & ->).
  cbn [panels page_size fst].
  pose proof (page_blocks_indices g (path_at metrics) structure actual
                                  (margin g) Hlen) as Hidx.
  split; [exact Hidx|]. split; [|reflexivity].
  apply Forall_forall. intros c Hc.
  pose proof (page_blocks_paths _ _ _ _ _ Hc) as Hpath.
  assert (Hin : In (index c) (List.concat structure))
    by (rewrite <- Hidx; now apply in_map).
  apply in_concat in Hin as (row & Hrow & Hi).
  pose proof (row_ideal_heights_inv _ _ _ _ Ei) as Hwf.
  destruct (row_ok_valid _ _ (proj1 (Forall_forall _ _) Hwf row Hrow))
    as [_ Hv].
  destruct (py_getitem_valid metrics (index c)
              (proj1 (Forall_forall _ _) Hv _ Hi)) as (m & Em & _).
  exists m. split; [exact Em|]. rewrite Hpath. now apply path_at_ok.
Qed.

Lemma calculate_layout_panels_follow_structure_witness :
  exists res,
    calculate_layout default_generator [[1%Z; 0%Z]; [1%Z]]
      [sample_metric 1 1; sample_metric 2 1] = Ok res
    /\ map index (panels res) = [1%Z; 0%Z; 1%Z].
Proof.
  assert (H : exists res,
             calculate_layout default_generator [[1%Z; 0%Z]; [1%Z]]
               [sample_metric 1 1; sample_metric 2 1] = Ok res).
  { eexists. vm_compute. reflexivity. }
  destruct H as [res Hres]. exists res. split; [exact Hres|].
  exact (proj1 (calculate_layout_panels_follow_structure _ _ _ _ Hres)).
Defined.

Local Close Scope Q_scope.

(** ** The page and its content *)

Local Open Scope Q_scope.

Lemma rows_placed_each (g : PanelGenerator) (structure : LayoutStructure) :
  forall y heights blocks,
    rows_placed g y structure heights blocks ->
    Forall2 (fun row block => exists y' h, row_placed g y' h row block)
            structure blocks.
Proof.
  induction structure as [|row st IH]; intros y heights blocks H.
  - destruct heights, blocks; try destruct H. constructor.
  - destruct heights as [|h hs]; [destruct H|].
    destruct blocks as [|b bs]; [destruct H|].
    destruct H as [Hrow Hrest]. constructor; [|eapply IH, Hrest].
    now exists y, h.
Qed.

(** A row starts at the left margin and ends [usable_width] further. *)
Lemma row_placed_extent (g : PanelGenerator) (y h : Q) (row : list Z)
    (block : list PanelConfig) :
  row_placed g y h row block -> row <> [] ->
  exists first last,
    nth_error block 0 = Some first
    /\ nth_error block (List.length row - 1) = Some last
    /\ x0 (rect first) == margin g
    /\ x1 (rect last) == margin g + usable_width g.
Proof.
  intros [Hidx Hpos] Hne.
  assert (Hlen : List.length block = List.length row)
    by (rewrite <- Hidx; now rewrite length_map).
  assert (Hn : (0 < List.length row)%nat)
    by (destruct row; [congruence | cbn; lia]).
  destruct (nth_error block 0) as [first|] eqn:Ef;
    [|apply nth_error_None in Ef; lia].
  destruct (nth_error block (List.length row - 1)) as [last|] eqn:El;
    [|apply nth_error_None in El; lia].
  exists first, last. split; [reflexivity|]. split; [reflexivity|].
  destruct (Hpos _ _ Ef) as (Hx0 & _).
  destruct (Hpos _ _ El) as (Hx0' & _ & Hx1' & _).
  split.
  - rewrite Hx0. change (inject_Z (Z.of_nat 0)) with 0. lra.
  - rewrite Hx1', Hx0'. unfold panel_width.
    replace (Z.of_nat (List.length row - 1)) with (len row + -1)%Z
      by (unfold len; lia).
    replace (len row - 1)%Z with (len row + -1)%Z by lia.
    rewrite inject_Z_plus. change (inject_Z (-1)) with (-1).
    field. apply inject_Z_nonzero, len_nonzero, Hne.
Qed.

Lemma rows_extent (g : PanelGenerator) (structure : LayoutStructure)
    (blocks : list (list PanelConfig)) :
  Forall2 (fun row block => exists y' h, row_placed g y' h row block)
          structure blocks ->
  Forall (fun row => row <> []) structure ->
  Forall2
    (fun row block =>
       exists first last,
         nth_error block 0 = Some first
         /\ nth_error block (List.length row - 1) = Some last
         /\ x0 (rect first) == margin g
         /\ x1 (rect last) == margin g + usable_width g)
    structure blocks.
Proof.
  induction 1 as [|row block st bs (y' & h & Hrow) _ IH]; intros Hne;
    [constructor|].
  inversion Hne as [|? ? Hr Hrest]; subst.
  constructor; [|exact (IH Hrest)].
  exact (row_placed_extent g y' h row block Hrow Hr).
Qed.

(** X9.  On a generator built by the constructor, whenever
    [calculate_layout] returns, every row starts at the left margin and
    ends at the page width less the margin: the panels and the gaps of a
    row fill the usable width exactly, whatever the number of panels. *)
Theorem rows_span_usable_width (page_width : Q) (page_height : option Q)
    (margin_mm spacing_mm : Q) (label : Z) (structure : LayoutStructure)
    (metrics : list Metric) :
  let g := PanelGenerator_init page_width page_height margin_mm spacing_mm
                               label in
  well_formed structure metrics ->
  exists res blocks,
    calculate_layout g structure metrics = Ok res
    /\ panels res = List.concat blocks
    /\ Forall2
         (fun row block =>
            exists first last,
              nth_error block 0 = Some first
              /\ nth_error block (List.length row - 1) = Some last
              /\ x0 (rect first) == margin_mm * mm
              /\ x1 (rect last) == page_width * mm - margin_mm * mm)
         structure blocks.
Proof.
  intros g Hwf.
  destruct (row_ideal_heights_spec g structure metrics Hwf)
    as (ideal & Ei & _).
  destruct (calculate_layout_spec g structure metrics ideal Ei)
    as (actual & _ & Hlen & Ec).
  eexists. eexists. split; [exact Ec|]. split; [reflexivity|].
  pose proof (rows_placed_each g structure _ _ _
                (page_blocks_placed g (path_at metrics) structure actual
                                    (margin g) Hlen)) as Heach.
  assert (Hne : Forall (fun row => row <> []) structure).
  { eapply Forall_impl; [|exact Hwf]. intros row Hok. exact (proj1 Hok). }
  pose proof (rows_extent g structure _ Heach Hne) as Hext.
  eapply Forall2_impl; [|exact Hext]. cbn beta.
  intros row block (first & last & Hf & Hl & Hx0 & Hx1).
  exists first, last. split; [exact Hf|]. split; [exact Hl|].
  split; [exact Hx0|]. rewrite Hx1. unfold g. cbn. lra.
Qed.

Lemma rows_span_usable_width_witness :
  exists res blocks,
    calculate_layout (PanelGenerator_init 180 None 5 3 12)
      [[0%Z; 1%Z]; [2%Z]]
      [sample_metric 1 1; sample_metric 2 1; sample_metric 1 1] = Ok res
    /\ panels res = List.concat blocks
    /\ Forall2
         (fun row block =>
            exists first last,
              nth_error block 0 = Some first
              /\ nth_error block (List.length row - 1) = Some last
              /\ x0 (rect first) == 5 * mm
              /\ x1 (rect last) == 180 * mm - 5 * mm)
         [[0%Z; 1%Z]; [2%Z]] blocks.
Proof.
  apply (rows_span_usable_width 180 None 5 3 12).
  apply well_formed_intro.
  - repeat constructor; discriminate.
  - repeat constructor; vm_compute; congruence.
  - repeat constructor; vm_compute; discriminate.
Defined.

Lemma rows_placed_bottom (g : PanelGenerator) (structure : LayoutStructure) :
  forall y heights blocks,
    rows_placed g y structure heights blocks -> structure <> [] ->
    forall p, In p (last blocks []) ->
              y1 (rect p)
              == y + py_sum heights
                 + inject_Z (len structure - 1) * spacing g.
Proof.
  induction structure as [|row st IH]; intros y heights blocks H Hne p Hp;
    [congruence|].
  destruct heights as [|h hs]; [destruct H|].
  destruct blocks as [|b bs]; [destruct H|].
  destruct H as [Hrow Hrest]. rewrite py_sum_cons.
  destruct st as [|row' st'].
  - destruct hs, bs; try destruct Hrest. cbn [last] in Hp.
    destruct (In_nth_error _ _ Hp) as [j Hj].
    destruct (proj2 Hrow j p Hj) as (_ & Hy0 & _ & Hy1).
    rewrite Hy1, Hy0. change (py_sum []) with 0.
    change (inject_Z (len [row] - 1)) with 0. lra.
  - destruct hs as [|h' hs']; [destruct Hrest|].
    destruct bs as [|b' bs']; [destruct Hrest|].
    change (last (b :: b' :: bs') []) with (last (b' :: bs') []) in Hp.
    rewrite (IH _ _ _ Hrest ltac:(discriminate) p Hp).
    replace (len (row :: row' :: st') - 1)%Z
      with (len (row' :: st') - 1 + 1)%Z
      by (unfold len; cbn [List.length]; lia).
    rewrite inject_Z_plus. change (inject_Z 1) with 1. lra.
Qed.

(** X10.  For a structure with at least one row, when no page height is
    fixed, or one is fixed and the ideal row heights have a positive sum:
    the panels are, row after row, those of the rows of the structure
    (the block of a row holds one panel per index of the row, in order);
    the panels of the first row start at the top margin, and the bottom
    of the panels of the last row plus the margin is the page height.
    The content takes the whole page between the margins. *)
Theorem page_height_matches_content (g : PanelGenerator)
    (structure : LayoutStructure) (metrics : list Metric) (ideal : list Q) :
  row_ideal_heights g structure metrics = Ok ideal ->
  structure <> [] ->
  page_height_set g = false \/ 0 < py_sum ideal ->
  exists res blocks,
    calculate_layout g structure metrics = Ok res
    /\ panels res = List.concat blocks
    /\ Forall2 (fun row block => row <> [] /\ map index block = row)
               structure blocks
    /\ (forall p, In p (hd [] blocks) -> y0 (rect p) == margin g)
    /\ (forall p, In p (last blocks []) ->
                  y1 (rect p) + margin g == snd (page_size res)).
Proof.
  intros Ei Hne Hmode.
  destruct (calculate_layout_spec g structure metrics ideal Ei)
    as (actual & Ea & Hlen & Ec).
  pose proof (page_blocks_placed g (path_at metrics) structure actual
                                 (margin g) Hlen) as Hplaced.
  eexists. eexists. split; [exact Ec|]. split; [reflexivity|].
  cbn [page_size snd].
  set (blocks := page_blocks g (path_at metrics) (margin g)
                             (combine structure actual)) in *.
  split.
  { pose proof (row_ideal_heights_inv g structure metrics ideal Ei) as Hwf.
    pose proof (rows_placed_each g structure _ _ _ Hplaced) as Heach.
    clearbody blocks. clear -Hwf Heach.
    induction Heach as [|row block st bs (y' & h & Hrow) _ IH];
      [constructor|].
    inversion Hwf as [|? ? Hok Hrest]; subst.
    constructor; [|exact (IH Hrest)].
    split; [exact (proj1 Hok) | exact (proj1 Hrow)]. }
  split.
  - intros p Hp. destruct structure as [|row st]; [congruence|].
    destruct actual as [|h hs]; [destruct Hplaced|].
    destruct blocks as [|b bs] eqn:Eb; [destruct Hplaced|].
    destruct Hplaced as [Hrow _]. cbn [hd] in Hp.
    destruct (In_nth_error _ _ Hp) as [j Hj].
    exact (proj1 (proj2 (proj2 Hrow j p Hj))).
  - intros p Hp.
    rewrite (rows_placed_bottom g structure _ _ _ Hplaced Hne p Hp).
    unfold actual_row_heights in Ea.
    destruct (page_height_set g) eqn:Hset.
    + destruct Hmode as [Hm|Hpos]; [discriminate Hm|].
      rewrite (proj1 (scale_factor_spec g structure ideal) Hpos) in Ea.
      cbn [bind] in Ea. injection Ea as <-. rewrite py_sum_scale.
      unfold final_usable_height.
      set (fp := final_page_height g structure ideal).
      field. lra.
    + injection Ea as <-. unfold final_page_height, total_ideal_height.
      unfold page_height_set in Hset.
      destruct (page_height_mm g) as [h|].
      * destruct (Qeq_bool h 0); [|discriminate Hset]. cbn [negb]. lra.
      * lra.
Qed.

Lemma page_height_matches_content_witness :
  exists res blocks,
    calculate_layout default_generator [[0%Z; 1%Z]; [2%Z]]
      [sample_metric 1 1; sample_metric 2 1; sample_metric 1 1] = Ok res
    /\ panels res = List.concat blocks
    /\ Forall2 (fun row block => row <> [] /\ map index block = row)
               [[0%Z; 1%Z]; [2%Z]] blocks
    /\ (forall p, In p (last blocks []) ->
                  y1 (rect p) + margin default_generator
                  == snd (page_size res)).
Proof.
  assert (Hi : exists ideal,
             row_ideal_heights default_generator [[0%Z; 1%Z]; [2%Z]]
               [sample_metric 1 1; sample_metric 2 1; sample_metric 1 1]
             = Ok ideal).
  { eexists. vm_compute. reflexivity. }
  destruct Hi as (ideal & Hi).
  destruct (page_height_matches_content default_generator _ _ ideal Hi)
    as (res & blocks & Ec & Hp & Hrows & _ & Hb).
  - discriminate.
  - left. reflexivity.
  - exists res, blocks. split; [exact Ec|]. split; [exact Hp|].
    split; [exact Hrows | exact Hb].
Defined.

(** X11.  A fixed page height of 0 is not a fixed page height: the
    test of line 145 and 149 is the truth value of [page_height_mm], so
    with 0 the layout is the one computed for no page height at all. *)
Theorem zero_page_height_is_auto (page_width h margin_mm spacing_mm : Q)
    (label : Z) (structure : LayoutStructure) (metrics : list Metric) :
  h == 0 ->
  calculate_layout
    (PanelGenerator_init page_width (Some h) margin_mm spacing_mm label)
    structure metrics
  = calculate_layout
      (PanelGenerator_init page_width None margin_mm spacing_mm label)
      structure metrics.
Proof.
  intros Hz. apply Qeq_bool_iff in Hz.
  unfold calculate_layout, actual_row_heights, final_page_height,
    page_height_set.
  cbn [page_height_mm PanelGenerator_init]. rewrite Hz. reflexivity.
Qed.

Lemma zero_page_height_is_auto_witness :
  calculate_layout (PanelGenerator_init 180 (Some 0) 5 3 12) [[0%Z]]
                   [sample_metric 1 1]
  = calculate_layout (PanelGenerator_init 180 None 5 3 12) [[0%Z]]
                     [sample_metric 1 1].
Proof. apply zero_page_height_is_auto. reflexivity. Defined.

Local Close Scope Q_scope.

(** * Further properties of the extractor and of the layout phase *)

Local Open Scope Q_scope.

(** X12.  The extractor never raises and returns one metric per path, at
    the position of the path and carrying it: the fallback
    (100, 100, ratio 1) when the document cannot be read; otherwise the
    width and the height of the first page, with the ratio
    [width / height] when the height is positive and the ratio 1 when it
    is not. *)
Theorem get_pdf_metrics_pointwise (first_page_rect : string -> result (Q * Q))
    (file_paths : list string) :
  List.length (get_pdf_metrics first_page_rect file_paths)
  = List.length file_paths
  /\ forall i p,
       nth_error file_paths i = Some p ->
       exists m,
         nth_error (get_pdf_metrics first_page_rect file_paths) i = Some m
         /\ path m = p
         /\ (forall e, first_page_rect p = Raise e ->
                       m = {| width := 100; height := 100; ratio := 1;
                              path := p |})
         /\ (forall w h, first_page_rect p = Ok (w, h) ->
                         width m = w /\ height m = h
                         /\ (0 < h -> ratio m = w / h)
                         /\ (h <= 0 -> ratio m = 1)).
Proof.
  rewrite get_pdf_metrics_map. split; [apply length_map|].
  intros i p Hp. exists (metric_of first_page_rect p).
  split; [rewrite nth_error_map, Hp; reflexivity|].
  split; [apply metric_of_path|]. split.
  - intros e He. now rewrite (metric_of_unreadable _ _ _ He).
  - intros w h Hr. rewrite (metric_of_readable _ _ _ _ Hr).
    cbn [width height ratio]. split; [reflexivity|]. split; [reflexivity|].
    split; intros Hh.
    + now rewrite (proj2 (Qltb_spec 0 h) Hh).
    + destruct (Qltb 0 h) eqn:E; [|reflexivity].
      apply Qltb_spec in E. lra.
Qed.

Lemma metric_of_ratio_nonzero (first_page_rect : string -> result (Q * Q))
    (p : string) :
  (forall w h, first_page_rect p = Ok (w, h) -> 0 < h -> ~ w == 0) ->
  ~ ratio (metric_of first_page_rect p) == 0.
Proof.
  intros Hw. destruct (first_page_rect p) as [[w h]|e] eqn:E.
  - rewrite (metric_of_readable _ _ _ _ E). cbn [ratio].
    destruct (Qltb 0 h) eqn:Eh; [|discriminate].
    apply Qltb_spec in Eh. intros Hz. apply (Hw w h eq_refl Eh).
    assert (Hwh : w == w / h * h) by (field; lra).
    rewrite Hwh, Hz. lra.
  - rewrite (metric_of_unreadable _ _ _ E). discriminate.
Qed.

(** The structure of a descriptor that is not the simple form of count 0,
    for at least one input, has no empty row. *)
Lemma parse_rows_nonempty (layout_str : str) (N : Z)
    (structure : LayoutStructure) :
  contains (ord "x") (lower layout_str) = true
  \/ contains (ord ",") layout_str || contains (ord "-") layout_str = true
  \/ ((0 < count_of_token layout_str)%Z /\ (0 < N)%Z) ->
  parse_layout_structure layout_str N = Ok structure ->
  Forall (fun r => r <> []) structure.
Proof.
  intros Hform Hparse.
  destruct (contains (ord "x") (lower layout_str)) eqn:Hx;
    [exact (parse_layout_structure_nonempty _ _ _ (or_introl Hx) Hparse)|].
  destruct (contains (ord ",") layout_str || contains (ord "-") layout_str)
    eqn:Hsep;
    [exact (parse_layout_structure_nonempty _ _ _ (or_intror Hsep) Hparse)|].
  destruct Hform as [H|[H|[Hc HN]]]; try discriminate H.
  apply orb_false_iff in Hsep as [Hcomma Hdash].
  rewrite (parse_simple_inv _ _ _ Hx Hcomma Hdash Hparse).
  apply append_missing_nonempty. constructor; [|constructor].
  rewrite py_range_cons by lia. discriminate.
Qed.

(** The structure the layout phase works on: the parser returns it, it
    holds the inputs in order, and the loops of [calculate_layout] do
    not raise on it. *)
Lemma generate_layout_structure (first_page_rect : string -> result (Q * Q))
    (layout_str : str) (input_files : list string) :
  contains (ord "x") (lower layout_str) = true
  \/ contains (ord ",") layout_str || contains (ord "-") layout_str = true
  \/ (token_accepted layout_str = true
      /\ (0 < count_of_token layout_str)%Z /\ input_files <> []) ->
  (forall p w h, In p input_files -> first_page_rect p = Ok (w, h) ->
                 0 < h -> ~ w == 0) ->
  exists structure,
    parse_layout_structure layout_str (len input_files) = Ok structure
    /\ List.concat structure = py_range 0 (len input_files)
    /\ well_formed structure (get_pdf_metrics first_page_rect input_files).
Proof.
  intros Hform Hpages.
  assert (HN : (0 <= len input_files)%Z) by (unfold len; lia).
  assert (Hret : simple_form_rejected layout_str = false).
  { unfold simple_form_rejected.
    destruct Hform as [H|[H|[Ha _]]]; try (rewrite H; reflexivity).
    - rewrite H. now rewrite andb_false_r.
    - unfold token_accepted in Ha.
      destruct (isdigit layout_str); cbn [negb orb] in Ha.
      + rewrite Ha. now rewrite andb_false_r.
      + now rewrite andb_false_r. }
  destruct (parse_layout_structure layout_str (len input_files))
    as [structure|e] eqn:Ep.
  2:{ exfalso.
      destruct (proj2 (placed_structure_rejected layout_str (len input_files))
                      Hret) as (placed & Hpl).
      unfold parse_layout_structure in Ep. rewrite Hpl in Ep.
      discriminate Ep. }
  pose proof (parse_layout_structure_concat layout_str _ structure HN Ep)
    as Hcat.
  assert (Hne : Forall (fun r => r <> []) structure).
  { apply (parse_rows_nonempty layout_str (len input_files)); [|exact Ep].
    destruct Hform as [H|[H|(_ & Hc & Hf)]]; auto.
    right. right. split; [exact Hc|].
    destruct input_files; [congruence|]. unfold len. cbn [List.length]. lia. }
  set (metrics := get_pdf_metrics first_page_rect input_files).
  assert (Hlen : len metrics = len input_files).
  { unfold len, metrics. rewrite get_pdf_metrics_map, length_map.
    reflexivity. }
  assert (Hvalid : Forall (Forall (valid_index metrics)) structure).
  { apply Forall_forall. intros row Hrow. apply Forall_forall. intros i Hi.
    assert (Hin : In i (List.concat structure))
      by (apply in_concat; now exists row).
    rewrite Hcat in Hin. apply py_range_In in Hin.
    unfold valid_index. rewrite Hlen. lia. }
  assert (Hratio : Forall (fun m => ~ ratio m == 0) metrics).
  { unfold metrics. rewrite get_pdf_metrics_map. apply Forall_forall.
    intros m Hm. apply in_map_iff in Hm as (p & <- & Hp).
    apply metric_of_ratio_nonzero. intros w h. now apply Hpages. }
  exists structure. split; [reflexivity|]. split; [exact Hcat|].
  exact (well_formed_intro structure metrics Hne Hvalid Hratio).
Qed.

Lemma generate_layout_ok (first_page_rect : string -> result (Q * Q))
    (g : PanelGenerator) (layout_str : str) (input_files : list string) :
  contains (ord "x") (lower layout_str) = true
  \/ contains (ord ",") layout_str || contains (ord "-") layout_str = true
  \/ (token_accepted layout_str = true
      /\ (0 < count_of_token layout_str)%Z /\ input_files <> []) ->
  (forall p w h, In p input_files -> first_page_rect p = Ok (w, h) ->
                 0 < h -> ~ w == 0) ->
  exists page,
    generate_layout first_page_rect g layout_str input_files = Ok page
    /\ map index (panels page) = py_range 0 (len input_files)
    /\ map cfg_path (panels page) = input_files.
Proof.
  intros Hform Hpages.
  destruct (generate_layout_structure first_page_rect layout_str input_files
                                      Hform Hpages)
    as (structure & Ep & Hcat & Hwf).
  set (metrics := get_pdf_metrics first_page_rect input_files) in *.
  destruct (row_ideal_heights_spec g structure metrics Hwf)
    as (ideal & Ei & _).
  destruct (calculate_layout_spec g structure metrics ideal Ei)
    as (actual & _ & _ & Ec).
  assert (Hl : generate_layout first_page_rect g layout_str input_files
               = Ok {| page_size := (page_width_mm g * mm,
                                     final_page_height g structure ideal);
                       panels := List.concat
                                   (page_blocks g (path_at metrics) (margin g)
                                                (combine structure actual)) |}).
  { unfold generate_layout. rewrite Ep. cbn [bind]. exact Ec. }
  eexists. split; [exact Hl|].
  pose proof (generate_layout_indices _ _ _ _ _ Hl) as Hidx.
  split; [exact Hidx|].
  pose proof (generate_layout_paths _ _ _ _ _ Hl) as Hpaths.
  set (ps := panels _) in *. clearbody ps.
  assert (Hmap : map cfg_path ps
                 = map (path_at metrics) (py_range 0 (len input_files))).
  { rewrite <- Hidx, map_map. apply map_ext_in. exact Hpaths. }
  rewrite Hmap. unfold py_range. rewrite map_map, Z.sub_0_r.
  unfold len. rewrite Nat2Z.id.
  apply nth_error_ext. intros n.
  rewrite nth_error_map.
  destruct (nth_error input_files n) as [p|] eqn:En.
  - assert (Hlt : (n < List.length input_files)%nat)
      by (apply nth_error_Some; congruence).
    rewrite nth_error_seq. destruct (Nat.ltb_spec n (List.length input_files));
      [|lia].
    cbn [option_map]. f_equal. rewrite Z.add_0_l. unfold path_at, metrics.
    rewrite get_pdf_metrics_map.
    rewrite (py_getitem_nth _ n (metric_of first_page_rect p))
      by (rewrite nth_error_map, En; reflexivity).
    apply metric_of_path.
  - apply nth_error_None in En. rewrite nth_error_seq.
    destruct (Nat.ltb_spec n (List.length input_files)); [lia|]. reflexivity.
Qed.

(** X13.  The layout phase of [generate] returns a page with exactly one
    placement per input, in input order and with the path of that input,
    whenever the descriptor is of the grid or of the row-counts form, or
    is of the simple form, not an all-digits string that [int] does not
    convert, of a count above 0, and there is an input (so that the
    parser returns and no row is empty), and no readable first page of
    positive height has width 0 (so that no ratio is 0). *)
Theorem generate_layout_returns (first_page_rect : string -> result (Q * Q))
    (g : PanelGenerator) (layout_str : str) (input_files : list string) :
  contains (ord "x") (lower layout_str) = true
  \/ contains (ord ",") layout_str || contains (ord "-") layout_str = true
  \/ (token_accepted layout_str = true
      /\ (0 < count_of_token layout_str)%Z /\ input_files <> []) ->
  (forall p w h, In p input_files -> first_page_rect p = Ok (w, h) ->
                 0 < h -> ~ w == 0) ->
  exists page,
    generate_layout first_page_rect g layout_str input_files = Ok page
    /\ List.length (panels page) = List.length input_files
    /\ map index (panels page) = py_range 0 (len input_files)
    /\ map cfg_path (panels page) = input_files
    /\ NoDup (map index (panels page)).
Proof.
  intros Hform Hpages.
  destruct (generate_layout_ok first_page_rect g layout_str input_files
                               Hform Hpages) as (page & El & Hidx & Hpaths).
  exists page. split; [exact El|].
  split; [rewrite <- (length_map cfg_path); now rewrite Hpaths|].
  split; [exact Hidx|]. split; [exact Hpaths|].
  rewrite Hidx. apply py_range_NoDup.
Qed.

Lemma generate_layout_returns_witness :
  exists page,
    generate_layout (fun _ => Ok (2, 1)) default_generator (py_str "2,1")
                    ["a.pdf"; "b.pdf"; "c.pdf"]%string = Ok page
    /\ map index (panels page) = [0%Z; 1%Z; 2%Z]
    /\ map cfg_path (panels page) = ["a.pdf"; "b.pdf"; "c.pdf"]%string.
Proof.
  destruct (generate_layout_returns (fun _ => Ok (2, 1)) default_generator
              (py_str "2,1") ["a.pdf"; "b.pdf"; "c.pdf"]%string)
    as (page & El & _ & Hidx & Hpaths & _).
  - right. left. reflexivity.
  - intros p w h _ H _. injection H as <- <-. discriminate.
  - exists page. split; [exact El|]. split; [exact Hidx | exact Hpaths].
Defined.

Local Close Scope Q_scope.

(** * Properties of the rendering loop *)

Local Open Scope Q_scope.

Section FigurePlacement.

Variable rect_width : Rect -> Q.
Variable rect_height : Rect -> Q.
Variable g : PanelGenerator.

(** What the program relies on of [fitz.Rect]: the width and the height
    of a rectangle whose corners are in order. *)
Hypothesis rect_width_spec :
  forall r, x0 r <= x1 r -> rect_width r == x1 r - x0 r.
Hypothesis rect_height_spec :
  forall r, y0 r <= y1 r -> rect_height r == y1 r - y0 r.

(** The figure drawn into [rect], by the size [sw] x [sh] it is drawn
    at: centred in the figure area of size [W] x [H], not larger than it,
    with the proportions of the page. *)
Lemma place_figure_spec (rect : Rect) (in_w in_h : Q) :
  0 < in_w -> 0 < in_h ->
  x0 rect <= x1 rect ->
  y0 rect + inject_Z (label_size g) + 4 <= y1 rect ->
  let W := x1 rect - x0 rect in
  let H := y1 rect - (y0 rect + inject_Z (label_size g) + 4) in
  exists dest sw sh,
    place_figure rect_width rect_height g rect in_w in_h = Ok dest
    /\ 2 * x0 dest == 2 * x0 rect + (W - sw)
    /\ x1 dest == x0 dest + sw
    /\ 2 * y0 dest == 2 * (y0 rect + inject_Z (label_size g) + 4) + (H - sh)
    /\ y1 dest == y0 dest + sh
    /\ 0 <= sw <= W /\ 0 <= sh <= H
    /\ (sw == W \/ sh == H)
    /\ sw * in_h == sh * in_w
    /\ (W * in_h <= H * in_w -> sw == W).
Proof.
  intros Hw Hh Hx Hy W H.
  assert (HW : rect_width (fig_rect_of g rect) == W)
    by (rewrite rect_width_spec; [reflexivity | exact Hx]).
  assert (HH : rect_height (fig_rect_of g rect) == H)
    by (rewrite rect_height_spec; [reflexivity | exact Hy]).
  assert (HWpos : 0 <= W) by (unfold W; lra).
  assert (HHpos : 0 <= H) by (unfold H; lra).
  unfold place_figure.
  rewrite !py_truediv_ok by lra. cbn [bind].
  set (Wf := rect_width (fig_rect_of g rect)) in *.
  set (Hf := rect_height (fig_rect_of g rect)) in *.
  set (a := Wf / in_w). set (b := Hf / in_h).
  assert (Ha : in_w * a == W) by (unfold a; rewrite <- HW; field; lra).
  assert (Hb : in_h * b == H) by (unfold b; rewrite <- HH; field; lra).
  assert (Ha0 : 0 <= a) by (apply Qle_shift_div_l; lra).
  assert (Hb0 : 0 <= b) by (apply Qle_shift_div_l; lra).
  eexists. exists (in_w * Qmin a b), (in_h * Qmin a b).
  split; [reflexivity|]. cbn [x0 y0 x1 y1 fig_rect_of].
  set (s := Qmin a b).
  assert (Hs0 : 0 <= s) by (unfold s; apply Q.min_glb; assumption).
  assert (Hsa : s <= a) by apply Q.le_min_l.
  assert (Hsb : s <= b) by apply Q.le_min_r.
  assert (Hsw : 0 <= in_w * s <= W).
  { split; [apply Qmult_le_0_compat; lra|].
    rewrite <- Ha. apply Qmult_le_l; assumption. }
  assert (Hsh : 0 <= in_h * s <= H).
  { split; [apply Qmult_le_0_compat; lra|].
    rewrite <- Hb. apply Qmult_le_l; assumption. }
  split; [rewrite <- HW; field|]. split; [lra|].
  split; [rewrite <- HH; field|]. split; [lra|].
  split; [exact Hsw|]. split; [exact Hsh|].
  split; [|split; [ring|]].
  - destruct (Q.min_spec a b) as [[_ E]|[_ E]]; fold s in E.
    + left. now rewrite E.
    + right. now rewrite E.
  - intros Hfit.
    assert (Hab : a <= b).
    { apply (Qmult_le_r _ _ (in_w * in_h)).
      - apply Qmult_lt_0_compat; assumption.
      - setoid_replace (a * (in_w * in_h)) with (in_w * a * in_h) by ring.
        setoid_replace (b * (in_w * in_h)) with (in_h * b * in_w) by ring.
        now rewrite Ha, Hb. }
    assert (E : s == a) by (unfold s; now apply Q.min_l).
    now rewrite E.
Qed.

(** X14.  For a page of positive width and height and a panel rectangle
    at least as tall as the label strip, the figure is drawn inside the
    panel below the label strip, centred in that area in both directions,
    with the proportions of the page, and as large as that allows (it
    takes the whole width or the whole height of the area). *)
Theorem place_figure_fits (rect : Rect) (in_w in_h : Q) :
  0 < in_w -> 0 < in_h ->
  x0 rect <= x1 rect ->
  y0 rect + inject_Z (label_size g) + 4 <= y1 rect ->
  exists dest,
    place_figure rect_width rect_height g rect in_w in_h = Ok dest
    /\ x0 rect <= x0 dest /\ x0 dest <= x1 dest /\ x1 dest <= x1 rect
    /\ y0 rect + inject_Z (label_size g) + 4 <= y0 dest
    /\ y0 dest <= y1 dest /\ y1 dest <= y1 rect
    /\ x0 dest - x0 rect == x1 rect - x1 dest
    /\ y0 dest - (y0 rect + inject_Z (label_size g) + 4)
       == y1 rect - y1 dest
    /\ (x1 dest - x0 dest) * in_h == (y1 dest - y0 dest) * in_w
    /\ (x1 dest - x0 dest == x1 rect - x0 rect
        \/ y1 dest - y0 dest
           == y1 rect - (y0 rect + inject_Z (label_size g) + 4)).
Proof.
  intros Hw Hh Hx Hy.
  destruct (place_figure_spec rect in_w in_h Hw Hh Hx Hy)
    as (dest & sw & sh & E & Hx0 & Hx1 & Hy0 & Hy1 & [Hsw0 Hsw] & [Hsh0 Hsh]
        & Hfill & Hprop & _).
  exists dest. split; [exact E|].
  repeat (split; [lra|]).
  split.
  - setoid_replace (x1 dest - x0 dest) with sw by lra.
    setoid_replace (y1 dest - y0 dest) with sh by lra. exact Hprop.
  - destruct Hfill as [Hf|Hf]; [left | right]; lra.
Qed.

End FigurePlacement.

Lemma place_figure_fits_witness :
  exists dest,
    place_figure (fun r => Qmax 0 (x1 r - x0 r)) (fun r => Qmax 0 (y1 r - y0 r))
                 default_generator
                 {| x0 := 10; y0 := 10; x1 := 110; y1 := 126 |} 200 100
    = Ok dest
    /\ 10 <= x0 dest /\ x1 dest <= 110 /\ 26 <= y0 dest /\ y1 dest <= 126.
Proof.
  destruct (place_figure_fits
              (fun r => Qmax 0 (x1 r - x0 r)) (fun r => Qmax 0 (y1 r - y0 r))
              default_generator
              (fun r Hr => Q.max_r 0 (x1 r - x0 r) ltac:(lra))
              (fun r Hr => Q.max_r 0 (y1 r - y0 r) ltac:(lra))
              {| x0 := 10; y0 := 10; x1 := 110; y1 := 126 |} 200 100)
    as (dest & E & H1 & _ & H2 & H3 & _ & H4 & _).
  - reflexivity.
  - reflexivity.
  - vm_compute. discriminate.
  - vm_compute. discriminate.
  - exists dest. split; [exact E|]. cbn [x0 y0 x1 y1] in *.
    change (inject_Z (label_size default_generator)) with 12 in H3.
    repeat split; lra.
Defined.

Local Close Scope Q_scope.

(** ** Figures in a page of computed height *)

Local Open Scope Q_scope.

Lemma fold_max_ge_elem (l : list Q) : forall a x,
  In x l -> x <= fold_left Qmax l a.
Proof.
  induction l as [|y l IH]; intros a x Hin; [destruct Hin|].
  cbn [fold_left]. destruct Hin as [<- | Hin].
  - eapply Qle_trans; [apply (Q.le_max_r a y) | apply fold_max_ge_acc].
  - now apply IH.
Qed.

Lemma mapM_In_image {A B : Type} (f : A -> result B) (l : list A) :
  forall bs a b, mapM f l = Ok bs -> In a l -> f a = Ok b -> In b bs.
Proof.
  induction l as [|a0 l IH]; intros bs a b H Hin Hfa; [destruct Hin|].
  apply mapM_cons_inv in H as (b0 & bs' & Hb & H & ->).
  destruct Hin as [<- | Hin].
  - left. congruence.
  - right. exact (IH _ _ _ H Hin Hfa).
Qed.

Lemma Forall2_combine_In {A B : Type} (P : A -> B -> Prop) (l1 : list A)
    (l2 : list B) :
  Forall2 P l1 l2 -> forall a b, In (a, b) (combine l1 l2) -> P a b.
Proof.
  induction 1 as [|x y l1 l2 Hxy _ IH]; intros a b Hin; [destruct Hin|].
  destruct Hin as [Heq | Hin]; [now injection Heq as <- <- | now apply IH].
Qed.

(** Every placed panel belongs to a row of the structure, has an index of
    that row, the width of the row's panels and the height of the row. *)
Lemma page_blocks_panel (g : PanelGenerator) (pa : Z -> string)
    (rows : list (list Z * Q)) :
  forall y c,
    In c (List.concat (page_blocks g pa y rows)) ->
    exists row h,
      In (row, h) rows /\ In (index c) row
      /\ x1 (rect c) = x0 (rect c) + panel_width g (len row)
      /\ y1 (rect c) = y0 (rect c) + h.
Proof.
  induction rows as [|[row h] rows IH]; intros y c Hc; [destruct Hc|].
  cbn [page_blocks List.concat] in Hc. apply in_app_or in Hc as [Hc|Hc].
  - exists row, h. split; [now left|]. split.
    + rewrite <- (row_panels_index pa (spacing g) (panel_width g (len row)) h y
                                   row (margin g)).
      now apply in_map.
    + apply row_panels_In in Hc as (Hy0 & Hy1 & Hx1 & _).
      split; [exact Hx1|]. now rewrite Hy1, Hy0.
  - destruct (IH _ _ Hc) as (row' & h' & Hin & Hrest).
    exists row', h'. split; [now right | exact Hrest].
Qed.

(** In a page of computed height: the panel of every placement, the
    metric of its index, and the rectangle its figure is drawn into. *)
Lemma auto_height_figure (rect_width rect_height : Rect -> Q)
    (g : PanelGenerator) (structure : LayoutStructure)
    (metrics : list Metric) :
  (forall r, x0 r <= x1 r -> rect_width r == x1 r - x0 r) ->
  (forall r, y0 r <= y1 r -> rect_height r == y1 r - y0 r) ->
  page_height_set g = false ->
  well_formed structure metrics ->
  Forall (fun row => 0 <= panel_width g (len row)) structure ->
  Forall (fun m => 0 < width m /\ 0 < height m
                   /\ ratio m == width m / height m) metrics ->
  exists ideal,
    row_ideal_heights g structure metrics = Ok ideal
    /\ Forall
         (fun c =>
            exists row m dest,
              In row structure /\ In m metrics
              /\ py_getitem metrics (index c) = Ok m
              /\ x1 (rect c) = x0 (rect c) + panel_width g (len row)
              /\ place_figure rect_width rect_height g (rect c)
                              (width m) (height m) = Ok dest
              /\ x0 dest == x0 (rect c) /\ x1 dest == x1 (rect c)
              /\ y0 (rect c) + inject_Z (label_size g) + 4 <= y0 dest
              /\ y1 dest <= y1 (rect c)
              /\ (x1 dest - x0 dest) * height m
                 == (y1 dest - y0 dest) * width m)
         (List.concat
            (page_blocks g (path_at metrics) (margin g)
                         (combine structure ideal))).
Proof.
  intros Hrw Hrh Hset Hwf Hwidth Hpages.
  destruct (row_ideal_heights_spec g structure metrics Hwf)
    as (ideal & Ei & Hideal).
  exists ideal. split; [exact Ei|].
  apply Forall_forall. intros c Hc.
  destruct (page_blocks_panel _ _ _ _ _ Hc)
    as (row & h & Hrow & Hidx & Hx1 & Hy1).
  pose proof (in_combine_l _ _ _ _ Hrow) as Hrow_in.
  destruct (Forall2_combine_In _ _ _ Hideal _ _ Hrow) as (ms & Ems & ->).
  pose proof (proj1 (Forall_forall _ _) Hwidth row Hrow_in) as Hw0.
  cbv beta in Hw0.
  destruct (py_getitem_valid metrics (index c)
              (proj1 (Forall_forall _ _) (mapM_getitem_inv _ _ _ Ems) _ Hidx))
    as (m & Em & Hm_in).
  pose proof (mapM_In_image _ _ _ _ _ Ems Hidx Em) as Hm_ms.
  destruct (proj1 (Forall_forall _ _) Hpages m Hm_in) as (Hmw & Hmh & Hratio).
  set (w := panel_width g (len row)) in *.
  set (req := fold_left Qmax (heights_at w ms) 0) in *.
  assert (Hreq : w / ratio m <= req).
  { apply fold_max_ge_elem. unfold heights_at.
    apply (in_map (fun m => w / ratio m)). exact Hm_ms. }
  assert (Hreq0 : 0 <= req) by apply fold_max_ge_acc.
  assert (Hfit : w * height m <= req * width m).
  { assert (E : w / ratio m == w * height m / width m)
      by (rewrite Hratio; field; split; lra).
    rewrite E in Hreq.
    assert (E2 : w * height m == w * height m / width m * width m)
      by (field; lra).
    rewrite E2. apply Qmult_le_r; assumption. }
  destruct (place_figure_spec rect_width rect_height g Hrw Hrh (rect c)
                              (width m) (height m) Hmw Hmh)
    as (dest & sw & sh & E & Hx0 & Hdx1 & Hy0 & Hdy1 & [Hsw0 Hsw] & [Hsh0 Hsh]
        & _ & Hprop & Hfull).
  - rewrite Hx1. lra.
  - rewrite Hy1. lra.
  - exists row, m, dest.
    split; [exact Hrow_in|]. split; [exact Hm_in|]. split; [exact Em|].
    split; [exact Hx1|]. split; [exact E|].
    assert (Hsw_eq : sw == x1 (rect c) - x0 (rect c)).
    { apply Hfull. rewrite Hx1, Hy1.
      setoid_replace (x0 (rect c) + w - x0 (rect c)) with w by ring.
      setoid_replace (y0 (rect c) + (req + inject_Z (label_size g) + 4)
                      - (y0 (rect c) + inject_Z (label_size g) + 4))
        with req by ring.
      exact Hfit. }
    repeat (split; [lra|]).
    setoid_replace (x1 dest - x0 dest) with sw by lra.
    setoid_replace (y1 dest - y0 dest) with sh by lra. exact Hprop.
Qed.

(** X15.  When no page height is fixed, the panel widths are not
    negative, and every metric is that of a page of positive width and
    height ([ratio = width / height]): every figure is drawn over the
    whole width of its panel, below the label strip and within the panel.
    The row heights computed by [calculate_layout] are tall enough for
    every figure of the row at the full panel width. *)
Theorem auto_height_figures_span_width (rect_width rect_height : Rect -> Q)
    (g : PanelGenerator) (structure : LayoutStructure)
    (metrics : list Metric) :
  (forall r, x0 r <= x1 r -> rect_width r == x1 r - x0 r) ->
  (forall r, y0 r <= y1 r -> rect_height r == y1 r - y0 r) ->
  page_height_set g = false ->
  well_formed structure metrics ->
  Forall (fun row => 0 <= panel_width g (len row)) structure ->
  Forall (fun m => 0 < width m /\ 0 < height m
                   /\ ratio m == width m / height m) metrics ->
  exists res,
    calculate_layout g structure metrics = Ok res
    /\ Forall
         (fun c =>
            exists m dest,
              py_getitem metrics (index c) = Ok m
              /\ place_figure rect_width rect_height g (rect c)
                              (width m) (height m) = Ok dest
              /\ x0 dest == x0 (rect c) /\ x1 dest == x1 (rect c)
              /\ y0 (rect c) + inject_Z (label_size g) + 4 <= y0 dest
              /\ y1 dest <= y1 (rect c))
         (panels res).
Proof.
  intros Hrw Hrh Hset Hwf Hwidth Hpages.
  destruct (auto_height_figure rect_width rect_height g structure metrics
                               Hrw Hrh Hset Hwf Hwidth Hpages)
    as (ideal & Ei & Hall).
  destruct (calculate_layout_spec g structure metrics ideal Ei)
    as (actual & Ea & _ & Ec).
  unfold actual_row_heights in Ea. rewrite Hset in Ea. injection Ea as <-.
  eexists. split; [exact Ec|]. cbn [panels].
  eapply Forall_impl; [|exact Hall]. cbn beta.
  intros c (row & m & dest & _ & _ & Em & _ & E & Hx0 & Hx1 & Hy0 & Hy1 & _).
  exists m, dest. repeat split; assumption.
Qed.

Lemma auto_height_figures_span_width_witness :
  exists res,
    calculate_layout default_generator [[0%Z; 1%Z]; [2%Z]]
      [sample_metric 1 1; sample_metric 2 1; sample_metric 1 1] = Ok res
    /\ Forall
         (fun c =>
            exists m dest,
              py_getitem [sample_metric 1 1; sample_metric 2 1;
                          sample_metric 1 1] (index c) = Ok m
              /\ place_figure (fun r => Qmax 0 (x1 r - x0 r))
                              (fun r => Qmax 0 (y1 r - y0 r))
                              default_generator (rect c)
                              (width m) (height m) = Ok dest
              /\ x0 dest == x0 (rect c) /\ x1 dest == x1 (rect c))
         (panels res).
Proof.
  destruct (auto_height_figures_span_width
              (fun r => Qmax 0 (x1 r - x0 r)) (fun r => Qmax 0 (y1 r - y0 r))
              default_generator [[0%Z; 1%Z]; [2%Z]]
              [sample_metric 1 1; sample_metric 2 1; sample_metric 1 1])
    as (res & Ec & Hall).
  - intros r Hr. apply Q.max_r. lra.
  - intros r Hr. apply Q.max_r. lra.
  - reflexivity.
  - apply well_formed_intro.
    + repeat constructor; discriminate.
    + repeat constructor; vm_compute; congruence.
    + repeat constructor; vm_compute; discriminate.
  - repeat constructor; vm_compute; discriminate.
  - repeat constructor; vm_compute; reflexivity.
  - exists res. split; [exact Ec|].
    eapply Forall_impl; [|exact Hall]. cbn beta.
    intros c (m & dest & Em & Ed & Hx0 & Hx1 & _).
    now exists m, dest.
Defined.

Local Close Scope Q_scope.

(** ** The rendering loop as a whole *)

Local Open Scope Q_scope.

Lemma mapM_Forall2 {A B : Type} (f : A -> result B) (l : list A) :
  forall bs, mapM f l = Ok bs -> Forall2 (fun a b => f a = Ok b) l bs.
Proof.
  induction l as [|a l IH]; intros bs H.
  - injection H as <-. constructor.
  - apply mapM_cons_inv in H as (b & bs' & Hb & H & ->).
    constructor; [exact Hb | exact (IH _ H)].
Qed.

Lemma mapM_ok_each {A B : Type} (f : A -> result B) (l : list A) :
  forall bs a, mapM f l = Ok bs -> In a l -> exists b, f a = Ok b.
Proof.
  induction l as [|a0 l IH]; intros bs a H Hin; [destruct Hin|].
  apply mapM_cons_inv in H as (b0 & bs' & Hb & H & ->).
  destruct Hin as [<- | Hin]; [now exists b0 | exact (IH _ _ H Hin)].
Qed.

Lemma mapM_all_ok {A B : Type} (f : A -> result B) (l : list A) :
  (forall a, In a l -> exists b, f a = Ok b) ->
  exists bs, mapM f l = Ok bs /\ List.length bs = List.length l.
Proof.
  induction l as [|a l IH]; intros H.
  - exists []. split; reflexivity.
  - destruct (H a (or_introl eq_refl)) as [b Hb].
    destruct IH as (bs & E & Hl); [intros x Hx; apply H; now right|].
    exists (b :: bs). cbn [mapM]. rewrite Hb, E. cbn [bind List.length].
    split; [reflexivity | now rewrite Hl].
Qed.

Lemma enumerate_from_nth {A : Type} (l : list A) : forall k n,
  nth_error (combine (py_range k (k + len l)) l) n
  = option_map (fun a => ((k + Z.of_nat n)%Z, a)) (nth_error l n).
Proof.
  induction l as [|a l IH]; intros k n.
  - rewrite combine_nil. now destruct n.
  - assert (El : len (a :: l) = (len l + 1)%Z)
      by (unfold len; cbn [List.length]; lia).
    assert (Hl : (0 <= len l)%Z) by (unfold len; lia).
    rewrite py_range_cons by lia. cbn [combine].
    destruct n as [|n]; cbn [nth_error option_map].
    + do 2 f_equal. lia.
    + replace (k + len (a :: l))%Z with (k + 1 + len l)%Z by lia.
      rewrite IH. destruct (nth_error l n); cbn [option_map]; [|reflexivity].
      do 2 f_equal. lia.
Qed.

Lemma enumerate_nth {A : Type} (l : list A) (n : nat) :
  nth_error (enumerate l) n
  = option_map (fun a => (Z.of_nat n, a)) (nth_error l n).
Proof. unfold enumerate. apply (enumerate_from_nth l 0 n). Qed.

Lemma enumerate_In {A : Type} (l : list A) (i : Z) (a : A) :
  In (i, a) (enumerate l) -> (0 <= i < len l)%Z /\ In a l.
Proof.
  intros H. split.
  - apply in_combine_l in H. now apply py_range_In in H.
  - now apply in_combine_r in H.
Qed.

Lemma enumerate_In_inv {A : Type} (l : list A) (a : A) :
  In a l -> exists i, In (i, a) (enumerate l).
Proof.
  intros H. destruct (In_nth_error _ _ H) as [n Hn].
  exists (Z.of_nat n). apply (nth_error_In _ n).
  now rewrite enumerate_nth, Hn.
Qed.

(** The label of position [i]: the caller's label when there is one for
    this position, the character of code [65 + i] otherwise. *)
Lemma label_text_spec (labels : option (list string)) (i : Z) :
  (0 <= i)%Z -> (65 + i <= 1114111)%Z ->
  label_text labels i
  = Ok (match labels with
        | Some ls =>
            if (i <? len ls)%Z then Text (nth (Z.to_nat i) ls EmptyString)
            else Chr (65 + i)
        | None => Chr (65 + i)
        end).
Proof.
  intros Hi Hmax.
  assert (Hchr : py_chr (65 + i) = Ok (Chr (65 + i))).
  { unfold py_chr. destruct (Z.leb_spec 0 (65 + i)); [|lia].
    destruct (Z.leb_spec (65 + i) 1114111); [reflexivity | lia]. }
  unfold label_text. destruct labels as [[|l ls]|]; [| |exact Hchr].
  { change (len (@nil string)) with 0%Z.
    destruct (Z.ltb_spec i 0); [lia | exact Hchr]. }
  destruct (Z.ltb_spec i (len (l :: ls))) as [Hlt|Hge]; [|exact Hchr].
  assert (Hn : (Z.to_nat i < List.length (l :: ls))%nat)
    by (unfold len in Hlt; lia).
  destruct (nth_error (l :: ls) (Z.to_nat i)) as [txt|] eqn:E;
    [|apply nth_error_None in E; lia].
  pose proof (py_getitem_nth _ _ _ E) as Hg. rewrite Z2Nat.id in Hg by lia.
  rewrite Hg. cbn [bind]. do 2 f_equal. symmetry.
  now apply nth_error_nth.
Qed.

Lemma place_figure_ok (rect_width rect_height : Rect -> Q)
    (g : PanelGenerator) (rect : Rect) (in_w in_h : Q) :
  ~ in_w == 0 -> ~ in_h == 0 ->
  exists dest, place_figure rect_width rect_height g rect in_w in_h = Ok dest.
Proof.
  intros Hw Hh. unfold place_figure.
  rewrite !py_truediv_ok by assumption. cbn [bind]. now eexists.
Qed.

Lemma place_figure_inv (rect_width rect_height : Rect -> Q)
    (g : PanelGenerator) (rect : Rect) (in_w in_h : Q) (dest : Rect) :
  place_figure rect_width rect_height g rect in_w in_h = Ok dest ->
  ~ in_w == 0 /\ ~ in_h == 0.
Proof.
  unfold place_figure.
  destruct (py_truediv _ in_w) as [a|] eqn:Ea; [|discriminate].
  cbn [bind].
  destruct (py_truediv _ in_h) as [b|] eqn:Eb; [|discriminate].
  intros _. split; [eapply py_truediv_inv, Ea | eapply py_truediv_inv, Eb].
Qed.

Lemma mapM_all_ok_with {A B : Type} (f : A -> result B) (P : B -> Prop)
    (l : list A) :
  (forall a, In a l -> exists b, f a = Ok b /\ P b) ->
  exists bs, mapM f l = Ok bs /\ List.length bs = List.length l
             /\ Forall P bs.
Proof.
  induction l as [|a l IH]; intros H.
  - exists []. repeat split. constructor.
  - destruct (H a (or_introl eq_refl)) as (b & Hb & HP).
    destruct IH as (bs & E & Hl & HPs); [intros x Hx; apply H; now right|].
    exists (b :: bs). cbn [mapM]. rewrite Hb, E. cbn [bind List.length].
    split; [reflexivity|]. split; [now rewrite Hl | now constructor].
Qed.

Lemma concat_length_ge {A : Type} (ls : list (list A)) (l : list A) :
  In l ls -> (List.length l <= List.length (List.concat ls))%nat.
Proof.
  induction ls as [|l0 ls IH]; intros Hin; [destruct Hin|].
  cbn [List.concat]. rewrite length_app.
  destruct Hin as [-> | Hin]; [lia | specialize (IH Hin); lia].
Qed.

(** A row of at most [N] panels has panels of positive width when [N]
    panels would still leave room between the gaps. *)
Lemma panel_width_pos (g : PanelGenerator) (k N : Z) :
  (1 <= k <= N)%Z -> 0 <= spacing g ->
  inject_Z (N - 1) * spacing g < usable_width g ->
  0 < panel_width g k.
Proof.
  intros Hk Hs Hroom. unfold panel_width.
  assert (Hk0 : 0 < inject_Z k).
  { change 0 with (inject_Z 0). rewrite <- Zlt_Qlt. lia. }
  assert (Hle : inject_Z (k - 1) * spacing g <= inject_Z (N - 1) * spacing g).
  { apply Qmult_le_compat_r; [|exact Hs]. rewrite <- Zle_Qle. lia. }
  apply Qlt_shift_div_l; [exact Hk0|]. lra.
Qed.

(** X16.  When no page height is fixed, [generate] gets through its
    layout and rendering part, with one figure and one label per input
    and no figure drawn into an empty rectangle, provided that: the
    descriptor is one on which the layout phase returns (not a simple
    form of count 0 or rejected by [int]) and there is an input; every
    input can be read and has a first page of positive width and height;
    there are at most 1114047 inputs (so that [chr(65 + i)] exists); the
    page is wide enough for all inputs side by side, with margin and
    spacing not negative and a label size above -4; and the document
    library creates a page of positive size, draws a listed input into
    any rectangle that is not empty, and writes the labels of the run. *)
Theorem generate_drawing_returns (rect_width rect_height : Rect -> Q)
    (first_page_rect : string -> result (Q * Q))
    (new_page : Q -> Q -> result unit)
    (show_pdf_page : Rect -> string -> result unit)
    (insert_text : Q * Q -> Label -> Z -> result unit)
    (g : PanelGenerator) (layout_str : str) (input_files : list string)
    (labels : option (list string)) :
  (forall r, x0 r <= x1 r -> rect_width r == x1 r - x0 r) ->
  (forall r, y0 r <= y1 r -> rect_height r == y1 r - y0 r) ->
  contains (ord "x") (lower layout_str) = true
  \/ contains (ord ",") layout_str || contains (ord "-") layout_str = true
  \/ (token_accepted layout_str = true
      /\ (0 < count_of_token layout_str)%Z /\ input_files <> []) ->
  input_files <> [] ->
  (forall p, In p input_files ->
             exists w h, first_page_rect p = Ok (w, h) /\ 0 < w /\ 0 < h) ->
  (len input_files <= 1114047)%Z ->
  page_height_set g = false ->
  0 < page_width_mm g -> 0 <= margin g -> 0 <= spacing g ->
  (-4 < label_size g)%Z ->
  inject_Z (len input_files - 1) * spacing g < usable_width g ->
  (forall w h, 0 < w -> 0 < h -> new_page w h = Ok tt) ->
  (forall dest p, In p input_files -> x0 dest < x1 dest ->
                  y0 dest < y1 dest -> show_pdf_page dest p = Ok tt) ->
  (forall pt i txt, (0 <= i < len input_files)%Z ->
                    label_text labels i = Ok txt ->
                    insert_text pt txt (label_size g) = Ok tt) ->
  exists page drawn,
    generate_drawing rect_width rect_height first_page_rect new_page
                     show_pdf_page insert_text g layout_str input_files
                     labels = Ok (page, drawn)
    /\ map cfg_path (panels page) = input_files
    /\ List.length drawn = List.length input_files
    /\ Forall (fun d => x0 (fst d) < x1 (fst d) /\ y0 (fst d) < y1 (fst d))
              drawn.
Proof.
  intros Hrw Hrh Hform Hfiles Hpages Hmax Hset Hpw Hmargin Hspacing Hlabel
         Hroom Hnew Hshow Hins.
  assert (Hpages' : forall p w h, In p input_files ->
                      first_page_rect p = Ok (w, h) -> 0 < h -> ~ w == 0).
  { intros p w h Hp Hr Hh Hz.
    destruct (Hpages p Hp) as (w' & h' & Hr' & Hw' & _).
    rewrite Hr in Hr'. injection Hr' as <- <-. lra. }
  destruct (generate_layout_structure first_page_rect layout_str input_files
                                      Hform Hpages')
    as (structure & Ep & Hcat & Hwf).
  set (metrics := get_pdf_metrics first_page_rect input_files) in *.
  assert (HN : (1 <= len input_files)%Z).
  { destruct input_files; [congruence|]. unfold len. cbn [List.length]. lia. }
  assert (Hmet : Forall (fun m => 0 < width m /\ 0 < height m
                                  /\ ratio m == width m / height m) metrics).
  { unfold metrics. rewrite get_pdf_metrics_map. apply Forall_forall.
    intros m Hm. apply in_map_iff in Hm as (p & <- & Hp).
    destruct (Hpages p Hp) as (w & h & Hr & Hw & Hh).
    rewrite (metric_of_readable _ _ _ _ Hr). cbn [width height ratio].
    rewrite (proj2 (Qltb_spec 0 h) Hh).
    repeat split; try assumption; try reflexivity. }
  assert (Hstruct : structure <> []).
  { intros ->. cbn [List.concat] in Hcat.
    rewrite py_range_cons in Hcat by lia. discriminate Hcat. }
  assert (Hwidth : Forall (fun row => 0 < panel_width g (len row)) structure).
  { apply Forall_forall. intros row Hin.
    apply (panel_width_pos g (len row) (len input_files));
      [|exact Hspacing | exact Hroom].
    pose proof (proj1 (Forall_forall _ _) Hwf row Hin) as [Hne _].
    pose proof (concat_length_ge structure row Hin) as Hle.
    rewrite Hcat, py_range_length in Hle.
    destruct row; [congruence|]. unfold len in *. cbn [List.length] in *.
    lia. }
  assert (Hwidth0 : Forall (fun row => 0 <= panel_width g (len row))
                           structure).
  { eapply Forall_impl; [|exact Hwidth]. intros row. apply Qlt_le_weak. }
  destruct (auto_height_figure rect_width rect_height g structure metrics
                               Hrw Hrh Hset Hwf Hwidth0 Hmet)
    as (ideal & Ei & Hall).
  destruct (calculate_layout_spec g structure metrics ideal Ei)
    as (actual & Ea & _ & Ec).
  unfold actual_row_heights in Ea. rewrite Hset in Ea. injection Ea as <-.
  set (page := {| page_size := (page_width_mm g * mm,
                                final_page_height g structure ideal);
                  panels := List.concat
                              (page_blocks g (path_at metrics) (margin g)
                                           (combine structure ideal)) |}) in *.
  assert (El : generate_layout first_page_rect g layout_str input_files
               = Ok page).
  { unfold generate_layout. rewrite Ep. cbn [bind]. exact Ec. }
  destruct (generate_layout_ok first_page_rect g layout_str input_files
                               Hform Hpages') as (page' & El' & Hidx & Hpaths).
  rewrite El in El'. injection El' as <-.
  assert (Hcount : len (panels page) = len input_files).
  { unfold len. rewrite <- (length_map cfg_path), Hpaths. reflexivity. }
  assert (Hn : new_page (fst (page_size page)) (snd (page_size page))
               = Ok tt).
  { apply Hnew; cbn [page page_size fst snd].
    - apply Qmult_lt_0_compat; [exact Hpw | reflexivity].
    - pose proof (ideal_sum_positive g structure metrics ideal Ei Hstruct
                                     Hlabel) as Hsum.
      assert (Hgaps : 0 <= inject_Z (len structure - 1) * spacing g).
      { apply Qmult_le_0_compat; [|exact Hspacing].
        change 0 with (inject_Z 0). rewrite <- Zle_Qle.
        destruct structure; [congruence|]. unfold len. cbn [List.length].
        lia. }
      unfold final_page_height, total_ideal_height.
      unfold page_height_set in Hset.
      destruct (page_height_mm g) as [h|].
      + destruct (Qeq_bool h 0); [|discriminate Hset]. cbn [negb]. lra.
      + lra. }
  destruct (mapM_all_ok_with
              (fun entry : Z * PanelConfig =>
                 render_panel rect_width rect_height first_page_rect
                              show_pdf_page insert_text g labels
                              (fst entry) (snd entry))
              (fun d : Rect * Label =>
                 x0 (fst d) < x1 (fst d) /\ y0 (fst d) < y1 (fst d))
              (enumerate (panels page))) as (drawn & Ed & Hld & Hdrawn).
  { intros [i c] Hin. cbn [fst snd].
    apply enumerate_In in Hin as [Hi Hc].
    destruct (proj1 (Forall_forall _ _) Hall c Hc)
      as (row & m & dest & Hrow & Hm_in & Em & Hx1 & E & Hx0d & Hx1d & _ & _
          & Hprop).
    unfold metrics in Hm_in. rewrite get_pdf_metrics_map in Hm_in.
    apply in_map_iff in Hm_in as (p & Hmp & Hp).
    destruct (Hpages p Hp) as (w & h & Hr & Hw & Hh).
    assert (Hpath : cfg_path c = p).
    { rewrite (generate_layout_paths _ _ _ _ _ El c Hc). fold metrics.
      unfold path_at. rewrite Em, <- Hmp. apply metric_of_path. }
    rewrite (metric_of_readable _ _ _ _ Hr) in Hmp. subst m.
    cbn [width height] in E, Hprop.
    pose proof (proj1 (Forall_forall _ _) Hwidth row Hrow) as Hpos.
    cbv beta in Hpos.
    assert (Hdw : x0 dest < x1 dest) by (rewrite Hx0d, Hx1d, Hx1; lra).
    assert (Hdh : y0 dest < y1 dest).
    { destruct (Qlt_le_dec (y0 dest) (y1 dest)) as [Hlt|Hge]; [exact Hlt|].
      exfalso.
      assert (H1 : 0 < (x1 dest - x0 dest) * h)
        by (apply Qmult_lt_0_compat; lra).
      assert (H2 : (y1 dest - y0 dest) * w <= 0).
      { setoid_replace ((y1 dest - y0 dest) * w)
          with (- ((y0 dest - y1 dest) * w)) by ring.
        assert (0 <= (y0 dest - y1 dest) * w)
          by (apply Qmult_le_0_compat; lra).
        lra. }
      lra. }
    unfold render_panel. rewrite Hpath, Hr. cbn [bind]. rewrite E. cbn [bind].
    rewrite (Hshow dest p Hp Hdw Hdh). cbn [bind].
    assert (Hi' : (0 <= i < len input_files)%Z) by lia.
    pose proof (label_text_spec labels i ltac:(lia) ltac:(lia)) as Hl.
    rewrite Hl. cbn [bind]. rewrite (Hins _ i _ Hi' Hl). cbn [bind].
    eexists. split; [reflexivity|]. cbn [fst]. split; assumption. }
  exists page, drawn. unfold generate_drawing, render_page.
  rewrite El. cbn [bind]. rewrite Hn. cbn [bind]. rewrite Ed. cbn [bind].
  split; [reflexivity|]. split; [exact Hpaths|].
  split; [|exact Hdrawn].
  rewrite Hld. unfold enumerate.
  rewrite length_combine, py_range_length. unfold len in *. lia.
Qed.

Lemma generate_drawing_returns_witness :
  exists page drawn,
    generate_drawing (fun r => Qmax 0 (x1 r - x0 r))
                     (fun r => Qmax 0 (y1 r - y0 r))
                     (fun _ => Ok (2, 1)) (fun _ _ => Ok tt)
                     (fun _ _ => Ok tt) (fun _ _ _ => Ok tt)
                     default_generator (py_str "2,1")
                     ["a.pdf"; "b.pdf"; "c.pdf"]%string None
    = Ok (page, drawn)
    /\ List.length drawn = 3%nat
    /\ Forall (fun d => x0 (fst d) < x1 (fst d) /\ y0 (fst d) < y1 (fst d))
              drawn.
Proof.
  destruct (generate_drawing_returns
              (fun r => Qmax 0 (x1 r - x0 r)) (fun r => Qmax 0 (y1 r - y0 r))
              (fun _ => Ok (2, 1)) (fun _ _ => Ok tt) (fun _ _ => Ok tt)
              (fun _ _ _ => Ok tt) default_generator (py_str "2,1")
              ["a.pdf"; "b.pdf"; "c.pdf"]%string None)
    as (page & drawn & E & _ & Hl & Hd).
  - intros r Hr. apply Q.max_r. lra.
  - intros r Hr. apply Q.max_r. lra.
  - right. left. reflexivity.
  - discriminate.
  - intros p _. exists 2, 1. repeat split; reflexivity.
  - vm_compute. discriminate.
  - reflexivity.
  - reflexivity.
  - vm_compute. discriminate.
  - vm_compute. discriminate.
  - reflexivity.
  - vm_compute. reflexivity.
  - reflexivity.
  - reflexivity.
  - reflexivity.
  - exists page, drawn. split; [exact E|]. split; [exact Hl | exact Hd].
Defined.

Lemma generate_layout_has_panel (first_page_rect : string -> result (Q * Q))
    (g : PanelGenerator) (layout_str : str) (input_files : list string)
    (page : PageResult) (p : string) :
  generate_layout first_page_rect g layout_str input_files = Ok page ->
  In p input_files ->
  exists c, In c (panels page) /\ cfg_path c = p.
Proof.
  intros El Hin.
  destruct (In_nth_error _ _ Hin) as [n Hn].
  assert (Hi : In (Z.of_nat n) (map index (panels page))).
  { rewrite (generate_layout_indices _ _ _ _ _ El). apply py_range_In.
    assert (n < List.length input_files)%nat
      by (apply nth_error_Some; congruence).
    unfold len. lia. }
  apply in_map_iff in Hi as (c & Hc & Hcin).
  exists c. split; [exact Hcin|].
  rewrite (generate_layout_paths _ _ _ _ _ El c Hcin), Hc.
  rewrite get_pdf_metrics_map. unfold path_at.
  rewrite (py_getitem_nth _ n (metric_of first_page_rect p))
    by (rewrite nth_error_map, Hn; reflexivity).
  apply metric_of_path.
Qed.

(** X17.  An input whose first page has width 0 or height 0 makes
    [generate] raise, whatever the descriptor and the other inputs: the
    extractor gives a page of height 0 the ratio 1, but the rendering
    loop divides by the width and by the height of the page (lines 199
    and 200). *)
Theorem degenerate_page_raises (rect_width rect_height : Rect -> Q)
    (first_page_rect : string -> result (Q * Q))
    (new_page : Q -> Q -> result unit)
    (show_pdf_page : Rect -> string -> result unit)
    (insert_text : Q * Q -> Label -> Z -> result unit)
    (g : PanelGenerator) (layout_str : str) (input_files : list string)
    (labels : option (list string)) (p : string) (w h : Q) :
  In p input_files ->
  first_page_rect p = Ok (w, h) ->
  w == 0 \/ h == 0 ->
  (h == 0 -> ratio (metric_of first_page_rect p) = 1)
  /\ exists e,
       generate_drawing rect_width rect_height first_page_rect new_page
                        show_pdf_page insert_text g layout_str input_files
                        labels = Raise e.
Proof.
  intros Hin Hp Hzero. split.
  { intros Hh. rewrite (metric_of_readable _ _ _ _ Hp). cbn [ratio].
    destruct (Qltb 0 h) eqn:E; [|reflexivity].
    apply Qltb_spec in E. lra. }
  unfold generate_drawing.
  destruct (generate_layout first_page_rect g layout_str input_files)
    as [page|e] eqn:El; [|now exists e].
  cbn [bind].
  destruct (new_page _ _) as [[]|e]; [|now exists e]. cbn [bind].
  destruct (render_page rect_width rect_height first_page_rect show_pdf_page
                        insert_text g labels page)
    as [drawn|e] eqn:Er; [|now exists e].
  exfalso.
  destruct (generate_layout_has_panel _ _ _ _ _ _ El Hin) as (c & Hc & Hpath).
  destruct (enumerate_In_inv _ _ Hc) as [i Hi].
  unfold render_page in Er.
  destruct (mapM_ok_each _ _ _ _ Er Hi) as ([d t] & Hd).
  cbn [fst snd] in Hd. unfold render_panel in Hd.
  rewrite Hpath, Hp in Hd. cbn [bind] in Hd.
  destruct (place_figure rect_width rect_height g (rect c) w h)
    as [dest|] eqn:Edest; [|discriminate Hd].
  apply place_figure_inv in Edest as [Hw Hh].
  destruct Hzero; contradiction.
Qed.

Lemma degenerate_page_raises_witness :
  exists e,
    generate_drawing (fun r => Qmax 0 (x1 r - x0 r))
                     (fun r => Qmax 0 (y1 r - y0 r))
                     (fun _ => Ok (100, 0)) (fun _ _ => Ok tt)
                     (fun _ _ => Ok tt) (fun _ _ _ => Ok tt)
                     default_generator (py_str "1")
                     ["flat.pdf"%string] None
    = Raise e.
Proof.
  apply (degenerate_page_raises
           (fun r => Qmax 0 (x1 r - x0 r)) (fun r => Qmax 0 (y1 r - y0 r))
           (fun _ => Ok (100, 0)) (fun _ _ => Ok tt) (fun _ _ => Ok tt)
           (fun _ _ _ => Ok tt) default_generator (py_str "1")
           ["flat.pdf"%string] None "flat.pdf" 100 0).
  - left. reflexivity.
  - reflexivity.
  - right. reflexivity.
Defined.

Local Close Scope Q_scope.

(** ** Labels *)

Lemma label_text_inv (labels : option (list string)) (i : Z) (t : Label) :
  (0 <= i)%Z ->
  label_text labels i = Ok t ->
  t = match labels with
      | Some ls =>
          if (i <? len ls)%Z then Text (nth (Z.to_nat i) ls EmptyString)
          else Chr (65 + i)
      | None => Chr (65 + i)
      end.
Proof.
  intros Hi H.
  destruct (Z.le_gt_cases (65 + i) 1114111) as [Hmax|Hmax].
  - rewrite (label_text_spec labels i Hi Hmax) in H. now injection H.
  - assert (Hchr : py_chr (65 + i) = Raise ValueError).
    { unfold py_chr. destruct (Z.leb_spec (65 + i) 1114111); [lia|].
      now rewrite andb_false_r. }
    unfold label_text in H.
    destruct labels as [[|l ls]|]; try (rewrite Hchr in H; discriminate H).
    destruct (Z.ltb_spec i (len (l :: ls))) as [Hlt|Hge];
      [|rewrite Hchr in H; discriminate H].
    assert (Hn : (Z.to_nat i < List.length (l :: ls))%nat)
      by (unfold len in Hlt; lia).
    destruct (nth_error (l :: ls) (Z.to_nat i)) as [txt|] eqn:E;
      [|apply nth_error_None in E; lia].
    pose proof (py_getitem_nth _ _ _ E) as Hg. rewrite Z2Nat.id in Hg by lia.
    rewrite Hg in H. cbn [bind] in H. injection H as <-. f_equal.
    symmetry. now apply nth_error_nth.
Qed.

Lemma enumerate_from_fst {A : Type} (l : list A) : forall k,
  map fst (combine (py_range k (k + len l)) l) = py_range k (k + len l).
Proof.
  induction l as [|a l IH]; intros k.
  - rewrite combine_nil. change (len (@nil A)) with 0%Z.
    rewrite py_range_nil by lia. reflexivity.
  - assert (El : len (a :: l) = (len l + 1)%Z)
      by (unfold len; cbn [List.length]; lia).
    assert (Hl : (0 <= len l)%Z) by (unfold len; lia).
    rewrite py_range_cons by lia. cbn [combine map fst]. f_equal.
    replace (k + len (a :: l))%Z with (k + 1 + len l)%Z by lia. apply IH.
Qed.

Lemma Forall2_map_eq {A B C : Type} (f : A -> C) (h : B -> C) (l1 : list A)
    (l2 : list B) :
  Forall2 (fun a b => h b = f a) l1 l2 -> map h l2 = map f l1.
Proof.
  induction 1 as [|a b l1 l2 Hab _ IH]; [reflexivity|].
  cbn [map]. now rewrite Hab, IH.
Qed.

(** X18.  When the rendering loop returns, the labels it draws are, in
    the order of the placements: at position [i] the caller's [i]-th
    label as long as the caller gave one for it, and the character of
    code [65 + i] (["A"] for 0) from the first position without one;
    the letters go on from the position, they do not start again at
    ["A"].  Without labels of the caller no two panels get the same
    label. *)
Theorem render_page_labels (rect_width rect_height : Rect -> Q)
    (first_page_rect : string -> result (Q * Q))
    (show_pdf_page : Rect -> string -> result unit)
    (insert_text : Q * Q -> Label -> Z -> result unit)
    (g : PanelGenerator)
    (labels : option (list string)) (page : PageResult)
    (drawn : list (Rect * Label)) :
  render_page rect_width rect_height first_page_rect show_pdf_page
              insert_text g labels page
  = Ok drawn ->
  map snd drawn
  = map (fun i =>
           match labels with
           | Some ls =>
               if (i <? len ls)%Z then Text (nth (Z.to_nat i) ls EmptyString)
               else Chr (65 + i)
           | None => Chr (65 + i)
           end)
        (py_range 0 (len (panels page)))
  /\ (labels = None \/ labels = Some [] -> NoDup (map snd drawn)).
Proof.
  intros Hr. unfold render_page in Hr. apply mapM_Forall2 in Hr.
  set (F := fun i : Z =>
              match labels with
              | Some ls =>
                  if (i <? len ls)%Z
                  then Text (nth (Z.to_nat i) ls EmptyString)
                  else Chr (65 + i)
              | None => Chr (65 + i)
              end).
  assert (Hmap : map snd drawn = map F (py_range 0 (len (panels page)))).
  { pose proof (enumerate_from_fst (panels page) 0) as Hfst.
    rewrite Z.add_0_l in Hfst. fold (enumerate (panels page)) in Hfst.
    rewrite <- Hfst, map_map.
    apply (Forall2_map_eq (fun e : Z * PanelConfig => F (fst e)) snd).
    assert (Hpos : Forall (fun e : Z * PanelConfig => (0 <= fst e)%Z)
                          (enumerate (panels page))).
    { apply Forall_forall. intros [i c] Hin.
      apply enumerate_In in Hin as [Hi _]. cbn [fst]. lia. }
    clear Hfst. revert Hpos.
    induction Hr as [|[i c] [d t] l1 l2 Hab _ IH]; intros Hpos;
      [constructor|].
    inversion Hpos as [|? ? Hi Hrest]; subst.
    constructor; [|exact (IH Hrest)].
    cbn [fst snd] in *. unfold render_panel in Hab.
    destruct (first_page_rect (cfg_path c)) as [[w h]|]; [|discriminate Hab].
    cbn [bind] in Hab.
    destruct (place_figure _ _ _ _ _ _) as [dest|]; [|discriminate Hab].
    cbn [bind] in Hab.
    destruct (show_pdf_page _ _) as [[]|]; [|discriminate Hab].
    cbn [bind] in Hab.
    destruct (label_text labels i) as [t'|] eqn:Et; [|discriminate Hab].
    cbn [bind] in Hab.
    destruct (insert_text _ _ _) as [[]|]; [|discriminate Hab].
    cbn [bind] in Hab. injection Hab as _ <-.
    exact (label_text_inv labels i t' Hi Et). }
  split; [exact Hmap|].
  intros Hnone. rewrite Hmap.
  apply Injective_map_NoDup_in; [|apply py_range_NoDup].
  intros i j Hi Hj Hij. apply py_range_In in Hi, Hj. unfold F in Hij.
  destruct Hnone as [-> | ->].
  - assert (H65 : 65 + i = 65 + j) by congruence. lia.
  - change (len (@nil string)) with 0%Z in Hij.
    destruct (Z.ltb_spec i 0), (Z.ltb_spec j 0); try lia.
    assert (H65 : 65 + i = 65 + j) by congruence. lia.
Qed.

Lemma render_page_labels_witness :
  exists page drawn,
    generate_drawing (fun r => Qmax 0 (x1 r - x0 r))
                     (fun r => Qmax 0 (y1 r - y0 r))
                     (fun _ => Ok (2, 1)%Q) (fun _ _ => Ok tt)
                     (fun _ _ => Ok tt) (fun _ _ _ => Ok tt)
                     default_generator (py_str "2,1")
                     ["a.pdf"; "b.pdf"; "c.pdf"]%string
                     (Some ["left"%string])
    = Ok (page, drawn)
    /\ map snd drawn = [Text "left"; Chr 66; Chr 67].
Proof.
  assert (H : exists page drawn,
             generate_layout (fun _ => Ok (2, 1)%Q) default_generator
                             (py_str "2,1")
                             ["a.pdf"; "b.pdf"; "c.pdf"]%string = Ok page
             /\ render_page (fun r => Qmax 0 (x1 r - x0 r))
                            (fun r => Qmax 0 (y1 r - y0 r))
                            (fun _ => Ok (2, 1)%Q) (fun _ _ => Ok tt)
                            (fun _ _ _ => Ok tt) default_generator
                            (Some ["left"%string]) page = Ok drawn
             /\ len (panels page) = 3).
  { eexists. eexists. split; [vm_compute; reflexivity|].
    split; [vm_compute; reflexivity | reflexivity]. }
  destruct H as (page & drawn & El & Er & Hn).
  exists page, drawn. split.
  - unfold generate_drawing. rewrite El. cbn [bind]. now rewrite Er.
  - rewrite (proj1 (render_page_labels _ _ _ _ _ _ _ _ _ Er)), Hn.
    reflexivity.
Defined.

(** ** The end of the run *)

(** The extension is compared without regard to case. *)
Example output_kind_examples :
  output_kind (py_str ".PNG") = RasterImage
  /\ output_kind (py_str ".tif") = RasterImage
  /\ output_kind (py_str ".Svg") = SvgMarkup
  /\ output_kind (py_str ".pdf") = VectorDocument
  /\ output_kind [] = VectorDocument.
Proof. repeat split; reflexivity. Qed.

(** X19.  On an instance that was only constructed, [generate] never
    returns, whatever the document library does: [self.dpi] is read by
    the closing message in every case and nothing but the command line
    entry point sets it.  When the layout and the rendering went through,
    a raster extension ends the run with [AttributeError] before the
    writer is called; for every other extension the run ends with the
    exception of the writer when the writer raises, and with
    [AttributeError] after the writing otherwise.  With the attribute
    set, the run returns exactly when layout, rendering and the writer of
    the extension do. *)
Theorem generate_without_dpi_never_returns
    (rect_width rect_height : Rect -> Q)
    (first_page_rect : string -> result (Q * Q))
    (new_page : Q -> Q -> result unit)
    (show_pdf_page : Rect -> string -> result unit)
    (insert_text : Q * Q -> Label -> Z -> result unit)
    (save_pixmap : Z -> result unit) (save_svg save_document : result unit)
    (g : PanelGenerator) (layout_str : str) (input_files : list string)
    (ext : str) (labels : option (list string)) :
  let drawing :=
    generate_drawing rect_width rect_height first_page_rect new_page
                     show_pdf_page insert_text g layout_str input_files
                     labels in
  let run := fun dpi =>
    generate_outcome rect_width rect_height first_page_rect new_page
                     show_pdf_page insert_text save_pixmap save_svg
                     save_document g dpi layout_str input_files ext labels in
  let writer := fun d =>
    match output_kind ext with
    | RasterImage => save_pixmap d
    | SvgMarkup => save_svg
    | VectorDocument => save_document
    end in
  (forall out, run None <> Ok out)
  /\ (forall e, drawing = Raise e -> forall dpi, run dpi = Raise e)
  /\ (forall drawn, drawing = Ok drawn ->
      (output_kind ext = RasterImage -> run None = Raise AttributeError)
      /\ (output_kind ext <> RasterImage ->
          forall d,
            run None = match writer d with
                       | Ok _ => Raise AttributeError
                       | Raise e => Raise e
                       end))
  /\ (forall d,
        run (Some d) = Ok (output_kind ext, d)
        <-> (exists drawn, drawing = Ok drawn) /\ writer d = Ok tt).
Proof.
  cbv zeta. unfold generate_outcome, finish_run, write_output.
  destruct (generate_drawing rect_width rect_height first_page_rect new_page
                             show_pdf_page insert_text g layout_str
                             input_files labels) as [drawn|e]; cbn [bind].
  - split; [|split; [discriminate|split]].
    + intros out.
      destruct (output_kind ext); cbn [self_dpi bind]; [discriminate | |].
      * destruct save_svg; discriminate.
      * destruct save_document; discriminate.
    + intros _ _. split.
      * intros ->. reflexivity.
      * intros Hk d. destruct (output_kind ext); [congruence | |].
        -- destruct save_svg; reflexivity.
        -- destruct save_document; reflexivity.
    + intros d. destruct (output_kind ext); cbn [self_dpi bind].
      * destruct (save_pixmap d) as [[]|]; cbn [bind];
          (split; [intros H; split; [now exists drawn | congruence]
                  |intros [_ H]; congruence]).
      * destruct save_svg as [[]|]; cbn [bind];
          (split; [intros H; split; [now exists drawn | congruence]
                  |intros [_ H]; congruence]).
      * destruct save_document as [[]|]; cbn [bind];
          (split; [intros H; split; [now exists drawn | congruence]
                  |intros [_ H]; congruence]).
  - split; [discriminate|]. split; [intros e' H dpi; congruence|].
    split; [discriminate|].
    intros d. split; [discriminate|]. intros [[x Hx] _]. discriminate Hx.
Qed.
